(** * BankingSystem: ledger, fraud scorer, rate limiter and transaction
      orchestrator, embedded from the Python sources under [backend/app].

    Numbers.  [Decimal] amounts are exact rationals ([Q]): sums, differences
    and comparisons of amounts are exact at the sizes of the [Numeric(18, 2)]
    columns, and a [Decimal] division rounds its quotient to the 28
    significant digits of the default context ([Decimal_div]).  The scores
    of the fraud scorer are IEEE 754 binary64 values ([float]), added and
    multiplied in the order of the source, so that a sum such as
    [0.15 + 0.2 + 0.05] has the value Python gives it.  [Decimal] refuses a
    [float] operand: [Decimal ** float] and [Decimal * float] raise
    [TypeError].  The frequency, device and pattern factors are also given
    over exact rationals, under their bare names, to state the conditions of
    their branches apart from rounding; the scorer itself calls the
    binary64 functions of [FraudDetectionService].  [datetime] values are
    seconds on [Z]; the [time.time()] stamps of the rate limiter are
    rationals.  Every reading of the clock within one call is the same
    instant.

    State.  The SQLAlchemy session is a record of tables (lists of rows in
    insertion order); a query with [.first()] is [find]; an attribute
    assignment on a loaded row rewrites the row with that primary key, so
    two names for one row see each other's writes.  A function that
    changes rows returns the session next to its result, also when it
    raises.  Raised exceptions are the [Raise] results.  The rate limiter's
    two dictionaries are finite maps keyed by the client address.

    Not modelled: notification delivery, and the fields of the rows that no
    modelled function reads. *)

From Stdlib Require Import ZArith QArith Qminmax Qround Qabs Qpower Lqa Lia List Bool.
From Stdlib Require Import PrimFloat Uint63.
From stdpp Require Import gmap strings.
Import ListNotations.

Local Open Scope Z_scope.

(** A decimal literal of a float, such as [0.3], is the nearest binary64
    value, as in Python. *)
Set Warnings "-inexact-float".

(** ** Exceptions and results *)

Inductive detail :=
| Msg (message : string)
| MsgLimit (message : string) (limit : Q)
| MsgBlockedUntil (message : string) (blocked_until : Q)
| MsgRetryAfter (message : string) (retry_after : Q).

Inductive exn :=
| HTTPException (status_code : Z) (d : detail)
| ValueError (message : string)
| AttributeError
| DivisionByZero
| TypeError.

(** [str(e)] for the exceptions whose text the services record. *)
Definition str (e : exn) : string :=
  match e with
  | ValueError message => message
  | HTTPException _ (Msg message) => message
  | HTTPException _ (MsgLimit message _) => message
  | HTTPException _ (MsgBlockedUntil message _) => message
  | HTTPException _ (MsgRetryAfter message _) => message
  | AttributeError => "'NoneType' object has no attribute"
  | DivisionByZero => "division by zero"
  | TypeError => "unsupported operand type(s)"
  end.

Inductive result (A : Type) :=
| Ok (a : A)
| Raise (e : exn).
Arguments Ok {A} a.
Arguments Raise {A} e.

Definition bind {A B} (r : result A) (k : A -> result B) : result B :=
  match r with
  | Ok a => k a
  | Raise e => Raise e
  end.

Notation "'let?' x ':=' r 'in' k" := (bind r (fun x => k))
  (at level 10, x name, r at level 100, k at level 200).

(** ** Rational helpers for the Python numeric operators *)

Definition Qltb (x y : Q) : bool := negb (Qle_bool y x).
Definition Qgtb (x y : Q) : bool := Qltb y x.

(** [sum(xs)]: left fold from 0. *)
Definition sumQ (xs : list Q) : Q := fold_left Qplus xs 0%Q.

(** [max(xs)] on a list with first element [x]: the first maximal element. *)
Definition maxQ (x : Q) (xs : list Q) : Q :=
  fold_left (fun m y => if Qltb m y then y else m) xs x.

(** [Decimal.__mod__]: the remainder has the sign of the dividend. *)
Definition Qrem (x y : Q) : Q :=
  let q := (x / y)%Q in
  (x - y * inject_Z (Z.quot (Qnum q) (Zpos (Qden q))))%Q.

Definition of_nat (n : nat) : Q := inject_Z (Z.of_nat n).

(** ** [Decimal] division

    The quotient of two [Decimal]s is rounded to the 28 significant digits
    of the default context, ties to the even digit. *)

(** The number of decimal digits of a positive integer. *)
Fixpoint digits_fuel (fuel : nat) (n : Z) : Z :=
  match fuel with
  | O => 1
  | S fuel => if n <? 10 then 1 else 1 + digits_fuel fuel (n / 10)
  end.

Definition digits (n : Z) : Z := digits_fuel (Z.to_nat (Z.log2 n)) n.

(** The exponent [e] of the leading digit of a positive rational:
    [10^e <= q < 10^(e+1)]. *)
Definition exponent (q : Q) : Z :=
  let e0 := digits (Qnum q) - digits (Zpos (Qden q)) in
  if Qle_bool (10 ^ e0) q then e0 else e0 - 1.

Definition round_half_even (x : Q) : Z :=
  let f := Qfloor x in
  match (x - inject_Z f ?= 1 # 2)%Q with
  | Lt => f
  | Gt => f + 1
  | Eq => if Z.even f then f else f + 1
  end.

Definition Decimal_round (q : Q) : Q :=
  if Qeq_bool q 0 then 0%Q
  else
    let e := exponent (Qabs q) in
    (inject_Z (round_half_even (q * 10 ^ (27 - e))) * 10 ^ (e - 27))%Q.

(** [x / y] for a divisor that is not zero. *)
Definition Decimal_div (x y : Q) : Q := Decimal_round (x / y).

(** ** binary64 helpers for the Python float operators *)

(** [float(n)] of a count, exact below 2^53; the true division [m / n] of
    two such counts is the quotient of their floats. *)
Definition float_of_nat (n : nat) : float :=
  PrimFloat.of_uint63 (Uint63.of_Z (Z.of_nat n)).

(** [min(a, b)]: the second argument when it is the smaller, else the first. *)
Definition min2 (a b : float) : float :=
  if PrimFloat.ltb b a then b else a.

(** [Decimal] refuses a [float] operand: [x ** y] and [x * y] raise. *)
Definition Decimal_pow_float (x : Q) (y : float) : result Q := Raise TypeError.
Definition Decimal_mul_float (x : Q) (y : float) : result float := Raise TypeError.

(** ** models/transaction.py, models/account.py, models/auth.py *)

Inductive TransactionType :=
| DEPOSIT | WITHDRAWAL | TRANSFER | PAYMENT | FEE | INTEREST | INVESTMENT | CRYPTO.

Inductive TransactionStatus :=
| PENDING | COMPLETED | FAILED | CANCELLED | REVERSED | FLAGGED.

Inductive AccountStatus :=
| ACTIVE | INACTIVE | FROZEN | CLOSED.

#[global] Instance TransactionType_eq_dec : EqDecision TransactionType.
Proof. solve_decision. Defined.
#[global] Instance TransactionStatus_eq_dec : EqDecision TransactionStatus.
Proof. solve_decision. Defined.
#[global] Instance AccountStatus_eq_dec : EqDecision AccountStatus.
Proof. solve_decision. Defined.

(** The request's [device_info] dictionary: the keys the services read. *)
Module DeviceInfo.
Record t := mk {
  ip_address : option string;
  user_agent : option string;
  device_id : option string;
  device_type : option string;
  fingerprint : option string
}.
End DeviceInfo.

Module Account.
Record t := mk {
  id : Z;
  account_number : string;
  user_id : Z;
  status : AccountStatus;
  balance : Q;
  currency : string;
  daily_transfer_limit : Q;
  withdrawal_limit : Q
}.
Definition set_balance (b : Q) (a : t) : t :=
  mk (id a) (account_number a) (user_id a) (status a) b (currency a)
     (daily_transfer_limit a) (withdrawal_limit a).
End Account.

Module Transaction.
Record t := mk {
  id : Z;
  reference_id : string;
  user_id : Z;
  account_id : Z;
  type : TransactionType;
  status : TransactionStatus;
  amount : Q;
  currency : string;
  recipient_account : option string;
  device_info : option DeviceInfo.t;
  risk_score : Q;
  created_at : Z;
  processed_at : option Z;
  failure_reason : option string
}.
Definition set_status (s : TransactionStatus) (x : t) : t :=
  mk (id x) (reference_id x) (user_id x) (account_id x) (type x) s (amount x)
     (currency x) (recipient_account x) (device_info x) (risk_score x)
     (created_at x) (processed_at x) (failure_reason x).
Definition set_processed_at (p : option Z) (x : t) : t :=
  mk (id x) (reference_id x) (user_id x) (account_id x) (type x) (status x)
     (amount x) (currency x) (recipient_account x) (device_info x)
     (risk_score x) (created_at x) p (failure_reason x).
Definition set_risk_score (r : Q) (x : t) : t :=
  mk (id x) (reference_id x) (user_id x) (account_id x) (type x) (status x)
     (amount x) (currency x) (recipient_account x) (device_info x) r
     (created_at x) (processed_at x) (failure_reason x).
Definition set_failure_reason (f : option string) (x : t) : t :=
  mk (id x) (reference_id x) (user_id x) (account_id x) (type x) (status x)
     (amount x) (currency x) (recipient_account x) (device_info x)
     (risk_score x) (created_at x) (processed_at x) f.
End Transaction.

Module AuthDevice.
Record t := mk {
  id : Z;
  user_id : Z;
  device_id : option string;
  fingerprint : option string;
  last_used : Z
}.
End AuthDevice.

(** The database session: one list of rows per table. *)
Module Session.
Record t := mk {
  accounts : list Account.t;
  transactions : list Transaction.t;
  auth_devices : list AuthDevice.t
}.
End Session.

(** [timedelta] values, in seconds. *)
Definition minutes (n : Z) : Z := n * 60.
Definition hours (n : Z) : Z := n * 3600.
Definition days (n : Z) : Z := n * 86400.

(** ** services/fraud_detection.py *)

(** [db.query(func.count(Transaction.id)).filter(user_id == .., created_at >= since)]. *)
Definition count_since (db : Session.t) (user_id since : Z) : nat :=
  length (List.filter
            (fun t => (Transaction.user_id t =? user_id) && (since <=? Transaction.created_at t))
            (Session.transactions db)).

(** The [type_frequency] dictionary, a counter per transaction type. *)
Definition type_frequency (history : list Transaction.t) : TransactionType -> option nat :=
  fold_left
    (fun (d : TransactionType -> option nat) t =>
       fun k => if bool_decide (k = Transaction.type t)
                then Some (default 0%nat (d (Transaction.type t)) + 1)%nat
                else d k)
    history (fun _ => None).

Module FraudDetectionService.

Local Open Scope float_scope.

Definition _analyze_amount (amount : Q) (history : list Transaction.t) : result float :=
  match history with
  | [] => Ok 0.5
  | t0 :: rest =>
    let avg_amount :=
      Decimal_div (sumQ (map Transaction.amount history)) (of_nat (length history)) in
    let max_amount := maxQ (Transaction.amount t0) (map Transaction.amount rest) in
    let? z_score :=
      if (1 <? length history)%nat then
        let? std_dev :=
          Decimal_pow_float
            (Decimal_div
               (sumQ (map (fun t => (Transaction.amount t - avg_amount) ^ 2)%Q history))
               (of_nat (length history) - 1)%Q)
            0.5 in
        if Qgtb std_dev 0 then Ok (Decimal_div (amount - avg_amount)%Q std_dev)
        else Ok 0%Q
      else Ok 0%Q in
    if Qgtb amount max_amount then
      if Qeq_bool max_amount 0 then Raise DivisionByZero
      else
        let? scaled := Decimal_mul_float (Decimal_div amount max_amount) 0.8 in
        Ok (min2 1.0 scaled)
    else if Qgtb z_score 2 then
      let? scaled := Decimal_mul_float z_score 0.2 in
      Ok (min2 1.0 scaled)
    else Ok 0.0
  end.

Definition _analyze_frequency (db : Session.t) (now user_id : Z) : float :=
  let recent_count := count_since db user_id (now - hours 1) in
  let typical_count :=
    float_of_nat (count_since db user_id (now - days 7)) / float_of_nat (24 * 7) in
  if typical_count =? 0 then
    if (3 <? recent_count)%nat then 0.5 else 0.0
  else
    let frequency_ratio := float_of_nat recent_count / typical_count in
    min2 1.0 (frequency_ratio * 0.2).

Definition _analyze_device (db : Session.t) (now user_id : Z) (device_info : DeviceInfo.t)
    : float :=
  let known_device :=
    find (fun d => (AuthDevice.user_id d =? user_id)%Z
                   && bool_decide (AuthDevice.device_id d = DeviceInfo.device_id device_info))
         (Session.auth_devices db) in
  match known_device with
  | None => 0.8
  | Some known_device =>
    if negb (bool_decide (AuthDevice.fingerprint known_device
                          = DeviceInfo.fingerprint device_info)) then 0.9
    else if (days 30 <? now - AuthDevice.last_used known_device)%Z then 0.4
    else 0.0
  end.

Definition _analyze_patterns (now user_id : Z) (amount : Q)
    (transaction_type : TransactionType) (history : list Transaction.t) : float :=
  let risk_score := 0.0 in
  let recent_similar :=
    List.filter
      (fun t => bool_decide (Transaction.type t = transaction_type)
                && (now - minutes 5 <=? Transaction.created_at t)%Z)
      history in
  let risk_score :=
    if (2 <? length recent_similar)%nat then risk_score + 0.3 else risk_score in
  let total_transactions :=
    match history with [] => 1%nat | _ => length history end in
  let type_ratio :=
    float_of_nat (default 0%nat (type_frequency history transaction_type))
    / float_of_nat total_transactions in
  let risk_score :=
    if type_ratio <? 0.1 then risk_score + 0.2 else risk_score in
  let risk_score :=
    if Qeq_bool (Qrem amount 100) 0 && Qgtb amount 1000
    then risk_score + 0.1 else risk_score in
  min2 risk_score 1.0.

Definition analyze_transaction (db : Session.t) (now user_id : Z) (amount : Q)
    (transaction_type : TransactionType) (device_info : DeviceInfo.t) : result float :=
  let risk_score := 0.0 in
  let recent_transactions :=
    List.filter
      (fun t => (Transaction.user_id t =? user_id)%Z
                && (now - days 30 <=? Transaction.created_at t)%Z)
      (Session.transactions db) in
  let? a := _analyze_amount amount recent_transactions in
  let risk_score := risk_score + a * 0.3 in
  let risk_score := risk_score + _analyze_frequency db now user_id * 0.2 in
  let risk_score := risk_score + _analyze_device db now user_id device_info * 0.25 in
  let risk_score :=
    risk_score
    + _analyze_patterns now user_id amount transaction_type recent_transactions * 0.25 in
  Ok (min2 risk_score 1.0).

End FraudDetectionService.

(** *** The frequency, device and pattern factors over exact rationals

    The same branches with the arithmetic of the rationals, for the
    conditions under which each branch is taken. *)

Definition _analyze_frequency (db : Session.t) (now user_id : Z) : Q :=
  let recent_count := count_since db user_id (now - hours 1) in
  let typical_count := (of_nat (count_since db user_id (now - days 7)) / inject_Z (24 * 7))%Q in
  if Qeq_bool typical_count 0 then
    if (3 <? recent_count)%nat then 0.5%Q else 0%Q
  else
    let frequency_ratio := (of_nat recent_count / typical_count)%Q in
    Qmin 1 (frequency_ratio * 0.2)%Q.

Definition _analyze_device (db : Session.t) (now user_id : Z) (device_info : DeviceInfo.t) : Q :=
  let known_device :=
    find (fun d => (AuthDevice.user_id d =? user_id)
                   && bool_decide (AuthDevice.device_id d = DeviceInfo.device_id device_info))
         (Session.auth_devices db) in
  match known_device with
  | None => 0.8%Q
  | Some known_device =>
    if negb (bool_decide (AuthDevice.fingerprint known_device
                          = DeviceInfo.fingerprint device_info)) then 0.9%Q
    else if days 30 <? now - AuthDevice.last_used known_device then 0.4%Q
    else 0%Q
  end.

Definition _analyze_patterns (now user_id : Z) (amount : Q)
    (transaction_type : TransactionType) (history : list Transaction.t) : Q :=
  let risk_score := 0%Q in
  let recent_similar :=
    List.filter
      (fun t => bool_decide (Transaction.type t = transaction_type)
                && (now - minutes 5 <=? Transaction.created_at t))
      history in
  let risk_score :=
    if (2 <? length recent_similar)%nat then (risk_score + 0.3)%Q else risk_score in
  let total_transactions :=
    match history with [] => 1%nat | _ => length history end in
  let type_ratio :=
    (of_nat (default 0%nat (type_frequency history transaction_type))
     / of_nat total_transactions)%Q in
  let risk_score :=
    if Qltb type_ratio 0.1 then (risk_score + 0.2)%Q else risk_score in
  let risk_score :=
    if Qeq_bool (Qrem amount 100) 0 && Qgtb amount 1000
    then (risk_score + 0.1)%Q else risk_score in
  Qmin risk_score 1.

(** ** services/account.py *)

Module AccountService.

Definition get (db : Session.t) (account_id : Z) : option Account.t :=
  find (fun a => Account.id a =? account_id) (Session.accounts db).

(** [db.add(account); db.commit()]: the row with this primary key is rewritten. *)
Definition commit (account : Account.t) (db : Session.t) : Session.t :=
  Session.mk
    (map (fun r => if Account.id r =? Account.id account then account else r)
         (Session.accounts db))
    (Session.transactions db) (Session.auth_devices db).

Definition update_balance (db : Session.t) (account_id : Z) (amount : Q)
    (operation : string) : result Account.t * Session.t :=
  match get db account_id with
  | None => (Raise AttributeError, db)
  | Some account =>
    if String.eqb operation "credit" then
      let account := Account.set_balance (Account.balance account + amount)%Q account in
      (Ok account, commit account db)
    else if String.eqb operation "debit" then
      if Qltb (Account.balance account) amount then
        (Raise (ValueError "Insufficient funds"), db)
      else
        let account := Account.set_balance (Account.balance account - amount)%Q account in
        (Ok account, commit account db)
    else (Ok account, commit account db)
  end.

End AccountService.

(** ** services/transaction.py *)

Module services_transaction.

Definition get (db : Session.t) (transaction_id : Z) : option Transaction.t :=
  find (fun t => Transaction.id t =? transaction_id) (Session.transactions db).

Definition commit (transaction : Transaction.t) (db : Session.t) : Session.t :=
  Session.mk
    (Session.accounts db)
    (map (fun r => if Transaction.id r =? Transaction.id transaction then transaction else r)
         (Session.transactions db))
    (Session.auth_devices db).

Definition process_transaction (db : Session.t) (now : Z) (transaction_id : Z)
    (risk_score : Q) : result Transaction.t * Session.t :=
  match get db transaction_id with
  | None => (Raise AttributeError, db)
  | Some transaction =>
    let operation :=
      match Transaction.type transaction with
      | WITHDRAWAL | TRANSFER | PAYMENT => "debit"
      | _ => "credit"
      end%string in
    match AccountService.update_balance db (Transaction.account_id transaction)
            (Transaction.amount transaction) operation with
    | (Ok _, db) =>
      let transaction :=
        Transaction.set_risk_score risk_score
          (Transaction.set_processed_at (Some now)
             (Transaction.set_status COMPLETED transaction)) in
      (Ok transaction, commit transaction db)
    | (Raise e, db) =>
      let transaction :=
        Transaction.set_failure_reason (Some (str e))
          (Transaction.set_status FAILED transaction) in
      (Ok transaction, commit transaction db)
    end
  end.

End services_transaction.

(** ** schemas/transaction.py *)

Module TransactionCreate.
Record t := mk {
  account_id : Z;
  amount : Q;
  type : TransactionType;
  recipient_account : option string
}.

(** The schema declares no field [transaction_type]: reading that attribute
    of a request raises. *)
Definition transaction_type (self : t) : result TransactionType :=
  Raise AttributeError.
End TransactionCreate.

(** ** services/transaction_service.py *)

Module TransactionService.

(** [datetime.now().date()]: midnight of the current day. *)
Definition date (now : Z) : Z := now - now mod 86400.

Definition _validate_transaction_limits (db : Session.t) (now : Z)
    (account : Account.t) (transaction : Transaction.t) : result unit :=
  let? _ :=
    if bool_decide (Transaction.type transaction = WITHDRAWAL) then
      if Qgtb (Transaction.amount transaction) (Account.withdrawal_limit account) then
        Raise (HTTPException 400
                 (MsgLimit "Amount exceeds withdrawal limit of"
                           (Account.withdrawal_limit account)))
      else Ok tt
    else Ok tt in
  if bool_decide (Transaction.type transaction = TRANSFER) then
    let today_transfers :=
      List.filter
        (fun t => (Transaction.account_id t =? Account.id account)
                  && bool_decide (Transaction.type t = TRANSFER)
                  && (date now <=? Transaction.created_at t))
        (Session.transactions db) in
    let total_transfers := sumQ (map Transaction.amount today_transfers) in
    if Qgtb (total_transfers + Transaction.amount transaction)
            (Account.daily_transfer_limit account) then
      Raise (HTTPException 400
               (MsgLimit "Amount exceeds daily transfer limit of"
                         (Account.daily_transfer_limit account)))
    else Ok tt
  else Ok tt.

Definition completed (now : Z) (transaction : Transaction.t) : Transaction.t :=
  Transaction.set_processed_at (Some now) (Transaction.set_status COMPLETED transaction).

Definition _process_withdrawal (db : Session.t) (now : Z)
    (transaction : Transaction.t) (account : Account.t)
    : result Transaction.t * Session.t :=
  if Qltb (Account.balance account) (Transaction.amount transaction) then
    (Raise (HTTPException 400 (Msg "Insufficient funds")), db)
  else
    let account :=
      Account.set_balance (Account.balance account - Transaction.amount transaction)%Q
                          account in
    (Ok (completed now transaction), AccountService.commit account db).

Definition _process_deposit (db : Session.t) (now : Z)
    (transaction : Transaction.t) (account : Account.t)
    : result Transaction.t * Session.t :=
  let account :=
    Account.set_balance (Account.balance account + Transaction.amount transaction)%Q
                        account in
  (Ok (completed now transaction), AccountService.commit account db).

(** [db.query(Account).filter(Account.account_number == number).first()];
    a [None] number compares as [IS NULL] and the column is not nullable. *)
Definition get_by_account_number (db : Session.t) (number : option string)
    : option Account.t :=
  match number with
  | None => None
  | Some n => find (fun a => String.eqb (Account.account_number a) n) (Session.accounts db)
  end.

Definition _process_transfer (db : Session.t) (now : Z)
    (transaction : Transaction.t) (account : Account.t)
    : result Transaction.t * Session.t :=
  if Qltb (Account.balance account) (Transaction.amount transaction) then
    (Raise (HTTPException 400 (Msg "Insufficient funds")), db)
  else
    match get_by_account_number db (Transaction.recipient_account transaction) with
    | None => (Raise (HTTPException 404 (Msg "Recipient account not found")), db)
    | Some recipient_account =>
      if negb (bool_decide (Account.status recipient_account = ACTIVE)) then
        (Raise (HTTPException 400 (Msg "Recipient account is not active")), db)
      else
        let account :=
          Account.set_balance (Account.balance account - Transaction.amount transaction)%Q
                              account in
        let db := AccountService.commit account db in
        (* the recipient row may be the source row itself: read it back *)
        let recipient_account :=
          default recipient_account
                  (AccountService.get db (Account.id recipient_account)) in
        let recipient_account :=
          Account.set_balance
            (Account.balance recipient_account + Transaction.amount transaction)%Q
            recipient_account in
        (Ok (completed now transaction), AccountService.commit recipient_account db)
    end.

(** [db.add(transaction); db.commit()] of a new row. *)
Definition add (transaction : Transaction.t) (db : Session.t) : Session.t :=
  Session.mk (Session.accounts db)
             (Session.transactions db ++ [transaction])
             (Session.auth_devices db).

(** [new_id] and [reference_id] stand for the generated primary key and
    [uuid.uuid4()]. *)
Definition create_transaction (db : Session.t) (now new_id : Z) (reference_id : string)
    (transaction_data : TransactionCreate.t) (user_id : Z)
    (device_info : DeviceInfo.t) : result Transaction.t * Session.t :=
  match find (fun a => (Account.id a =? TransactionCreate.account_id transaction_data)
                       && (Account.user_id a =? user_id))
             (Session.accounts db) with
  | None => (Raise (HTTPException 404 (Msg "Account not found")), db)
  | Some account =>
    if negb (bool_decide (Account.status account = ACTIVE)) then
      (Raise (HTTPException 400 (Msg "Account is not active")), db)
    else
      let transaction :=
        Transaction.mk new_id reference_id user_id
          (TransactionCreate.account_id transaction_data)
          (TransactionCreate.type transaction_data)
          PENDING
          (TransactionCreate.amount transaction_data)
          (Account.currency account)
          (TransactionCreate.recipient_account transaction_data)
          (Some device_info) 0%Q now None None in
      match _validate_transaction_limits db now account transaction with
      | Raise e => (Raise e, db)
      | Ok _ =>
        let processed :=
          match Transaction.type transaction with
          | WITHDRAWAL => _process_withdrawal db now transaction account
          | DEPOSIT => _process_deposit db now transaction account
          | TRANSFER => _process_transfer db now transaction account
          | _ => (Ok transaction, db)
          end in
        match processed with
        | (Raise e, db) => (Raise e, db)
        | (Ok transaction, db) => (Ok transaction, add transaction db)
        end
      end
  end.

Definition get_transaction (db : Session.t) (transaction_id : string) (user_id : Z)
    : result Transaction.t :=
  match find (fun t => String.eqb (Transaction.reference_id t) transaction_id
                       && (Transaction.user_id t =? user_id))
             (Session.transactions db) with
  | None => Raise (HTTPException 404 (Msg "Transaction not found"))
  | Some transaction => Ok transaction
  end.

Definition cancel_transaction (db : Session.t) (transaction_id : string) (user_id : Z)
    : result Transaction.t * Session.t :=
  match get_transaction db transaction_id user_id with
  | Raise e => (Raise e, db)
  | Ok transaction =>
    if negb (bool_decide (Transaction.status transaction = PENDING)) then
      (Raise (HTTPException 400 (Msg "Only pending transactions can be cancelled")), db)
    else
      let transaction := Transaction.set_status CANCELLED transaction in
      (Ok transaction, services_transaction.commit transaction db)
  end.

End TransactionService.

(** ** api/v1/endpoints/transactions.py *)

Module Request.
Record t := mk {
  client_host : string;
  user_agent : option string;
  x_device_id : option string;
  x_device_type : option string
}.
End Request.

Module endpoints_transactions.

Definition create_transaction (db : Session.t) (now new_id : Z)
    (reference_id : string) (transaction_in : TransactionCreate.t)
    (current_user : Z) (request : Request.t) : result Transaction.t * Session.t :=
  let device_info :=
    DeviceInfo.mk (Some (Request.client_host request)) (Request.user_agent request)
                  (Request.x_device_id request) (Request.x_device_type request) None in
  let fraud_score :=
    let amount := TransactionCreate.amount transaction_in in
    let? transaction_type := TransactionCreate.transaction_type transaction_in in
    FraudDetectionService.analyze_transaction db now current_user amount
      transaction_type device_info in
  match fraud_score with
  | Raise e => (Raise e, db)
  | Ok fraud_score =>
    if PrimFloat.ltb 0.8 fraud_score then
      (Raise (HTTPException 400 (Msg "Transaction flagged as potentially fraudulent")), db)
    else
      TransactionService.create_transaction db now new_id reference_id transaction_in
        current_user device_info
  end.

End endpoints_transactions.

(** ** core/rate_limiter.py *)

Module RateLimiter.

Record t := mk {
  requests : gmap string (list Q);
  blocked_ips : gmap string Q
}.

(** [RateLimiter()]. *)
Definition __init__ : t := mk ∅ ∅.

(** [self.limits]: (max requests, window in seconds). *)
Definition limits (key : string) : nat * Z :=
  if String.eqb key "auth" then (5%nat, 60)
  else if String.eqb key "transactions" then (20%nat, 60)
  else if String.eqb key "high_value" then (5%nat, 300)
  else (100%nat, 60).

(** [sub in s]. *)
Fixpoint contains (s sub : string) : bool :=
  String.prefix sub s
  || match s with
     | EmptyString => false
     | String _ s' => contains s' sub
     end.

Definition _get_limit (path : string) : nat * Z :=
  if String.prefix "/api/v1/auth" path then limits "auth"
  else if String.prefix "/api/v1/transactions" path then limits "transactions"
  else if contains path "high-value" then limits "high_value"
  else limits "default".

(** [self.requests[ip]] on the [defaultdict(list)]. *)
Definition requests_of (self : t) (client_ip : string) : list Q :=
  default [] (requests self !! client_ip).

Definition within (current_time : Q) (window : Q) (req_time : Q) : bool :=
  Qltb (current_time - req_time) window.

Definition check_rate_limit (ENVIRONMENT : string) (self : t)
    (client_ip path : string) (current_time : Q) : result unit * t :=
  if String.eqb ENVIRONMENT "development" then (Ok tt, self)
  else
    let blocked :=
      match blocked_ips self !! client_ip with
      | Some block_time =>
        if Qltb (current_time - block_time) 3600 then
          inl (HTTPException 429
                 (MsgBlockedUntil "Too many requests. Please try again later."
                                  (block_time + 3600)))
        else inr (mk (requests self) (delete client_ip (blocked_ips self)))
      | None => inr self
      end in
    match blocked with
    | inl e => (Raise e, self)
    | inr self =>
      let '(max_requests, window) := _get_limit path in
      let retained :=
        List.filter (within current_time (inject_Z window)) (requests_of self client_ip) in
      let self := mk (<[client_ip := retained]> (requests self)) (blocked_ips self) in
      if (max_requests <=? length retained)%nat then
        if (max_requests * 2 <=? length retained)%nat then
          (Raise (HTTPException 429
                    (MsgBlockedUntil "Rate limit exceeded. Your IP has been blocked."
                                     (current_time + 3600))),
           mk (requests self) (<[client_ip := current_time]> (blocked_ips self)))
        else
          (Raise (HTTPException 429
                    (MsgRetryAfter "Rate limit exceeded"
                       (inject_Z window - (current_time - hd 0%Q retained)))),
           self)
      else
        (Ok tt, mk (<[client_ip := retained ++ [current_time]]> (requests self))
                   (blocked_ips self))
    end.

(** One pass of the [_cleanup_old_requests] loop body. *)
Definition cleanup_pass (self : t) (current_time : Q) : t :=
  mk (omap (fun reqs =>
              match List.filter (within current_time 3600) reqs with
              | [] => None
              | kept => Some kept
              end)
           (requests self))
     (omap (fun block_time =>
              if Qgtb (current_time - block_time) 3600 then None else Some block_time)
           (blocked_ips self)).

(** What reaches the limiter: requests through the middleware and passes of
    the background loop, each at its clock reading. *)
Inductive event :=
| Request (client_ip path : string) (current_time : Q)
| Cleanup (current_time : Q).

Definition step (ENVIRONMENT : string) (self : t) (ev : event) : t :=
  match ev with
  | Request client_ip path current_time =>
    snd (check_rate_limit ENVIRONMENT self client_ip path current_time)
  | Cleanup current_time => cleanup_pass self current_time
  end.

Definition run (ENVIRONMENT : string) (self : t) (evs : list event) : t :=
  fold_left (step ENVIRONMENT) evs self.

Definition event_time (ev : event) : Q :=
  match ev with
  | Request _ _ current_time => current_time
  | Cleanup current_time => current_time
  end.

(** The 429 answer that carries [retry_after]. *)
Definition RateLimited (retry_after : Q) : exn :=
  HTTPException 429 (MsgRetryAfter "Rate limit exceeded" retry_after).

End RateLimiter.

(** ** Sample data *)

Module Sample.

Definition now : Z := 1700000000.

Definition request : Request.t :=
  Request.mk "203.0.113.7" (Some "Mozilla/5.0") (Some "phone-1") (Some "mobile").

Definition device_info : DeviceInfo.t :=
  DeviceInfo.mk (Some "203.0.113.7") (Some "Mozilla/5.0") (Some "phone-1")
                (Some "mobile") None.

Definition checking : Account.t :=
  Account.mk 1 "100000000001" 7 ACTIVE 1200 "USD" 10000 5000.

Definition savings : Account.t :=
  Account.mk 2 "100000000002" 8 ACTIVE 300 "USD" 10000 5000.

Definition frozen : Account.t :=
  Account.mk 3 "100000000003" 9 FROZEN 50 "USD" 10000 5000.

(** An owner (user 7) with no transactions and no registered device. *)
Definition new_owner : Session.t :=
  Session.mk [checking; savings; frozen] [] [].

Definition withdrawal (id : Z) (reference : string) (amount : Q) (created_at : Z)
    : Transaction.t :=
  Transaction.mk id reference 7 1 WITHDRAWAL COMPLETED amount "USD" None None 0
                 created_at (Some created_at) None.

(** The same owner after three withdrawals of 100 in the last five minutes,
    on a registered phone. *)
Definition busy_owner : Session.t :=
  Session.mk [checking; savings; frozen]
             [withdrawal 1 "ref-1" 100 (now - 200);
              withdrawal 2 "ref-2" 100 (now - 120);
              withdrawal 3 "ref-3" 100 (now - 30)]
             [AuthDevice.mk 1 7 (Some "phone-1") (Some "fp-7f3a") (now - 3600)].

End Sample.

(** ** The spec's error names, as the exceptions the services raise *)

Definition FraudSuspected : exn :=
  HTTPException 400 (Msg "Transaction flagged as potentially fraudulent").

Definition RecipientInvalid (e : exn) : Prop :=
  e = HTTPException 404 (Msg "Recipient account not found")
  \/ e = HTTPException 400 (Msg "Recipient account is not active").

Definition InvalidState : exn :=
  HTTPException 400 (Msg "Only pending transactions can be cancelled").

Definition WithdrawalLimitExceeded (account : Account.t) : exn :=
  HTTPException 400
    (MsgLimit "Amount exceeds withdrawal limit of" (Account.withdrawal_limit account)).

Definition TransferLimitExceeded (account : Account.t) : exn :=
  HTTPException 400
    (MsgLimit "Amount exceeds daily transfer limit of"
              (Account.daily_transfer_limit account)).

(** The rows the daily-limit query selects: every transfer of the account
    created since midnight, whatever its status. *)
Definition today_transfers (db : Session.t) (now : Z) (account : Account.t)
    : list Transaction.t :=
  List.filter
    (fun t => (Transaction.account_id t =? Account.id account)
              && bool_decide (Transaction.type t = TRANSFER)
              && (TransactionService.date now <=? Transaction.created_at t))
    (Session.transactions db).

(** The rows the specification names: the completed ones among them. *)
Definition today_completed_transfers (db : Session.t) (now : Z) (account : Account.t)
    : list Transaction.t :=
  List.filter (fun t => bool_decide (Transaction.status t = COMPLETED))
              (today_transfers db now account).

(** The recipient of a transfer resolves to an Active account. *)
Definition recipient_valid (db : Session.t) (number : option string) : Prop :=
  exists recipient,
    TransactionService.get_by_account_number db number = Some recipient
    /\ Account.status recipient = ACTIVE.

(** The rows the scorer reads as the owner's history: the owner's
    transactions of the last 30 days. *)
Definition history_30_days (db : Session.t) (now user_id : Z) : list Transaction.t :=
  List.filter
    (fun t => (Transaction.user_id t =? user_id)
              && (now - days 30 <=? Transaction.created_at t))
    (Session.transactions db).

(** A binary64 value and an exact one that read as the same decimal, out of
    a list of such pairs. *)
Definition reads_as (x : float) (q : Q) (pairs : list (float * Q)) : Prop :=
  Exists (fun p => x = fst p /\ (q == snd p)%Q) pairs.

(** The caller's account of a creation request. *)
Definition owned_account (db : Session.t) (account_id user_id : Z) : option Account.t :=
  find (fun a => (Account.id a =? account_id) && (Account.user_id a =? user_id))
       (Session.accounts db).

Module Sample2.

(** A transfer of 9000 made earlier today that failed, on the checking
    account, and one that is still pending. *)
Definition failed_transfer : Transaction.t :=
  Transaction.mk 1 "ref-1" 7 1 TRANSFER FAILED 9000 "USD" (Some "100000000002") None 0
                 (Sample.now - 60) None (Some "Insufficient funds").

Definition pending_payment : Transaction.t :=
  Transaction.mk 2 "ref-2" 7 1 PAYMENT PENDING 50 "USD" None None 0
                 (Sample.now - 30) None None.

Definition db : Session.t :=
  Session.mk [Sample.checking; Sample.savings; Sample.frozen]
             [failed_transfer; pending_payment] [].

End Sample2.

(** ** Vocabulary for the rate limiter's properties *)

Module Governor.
Import RateLimiter.

(** The timestamps of a client that the purge of a request at
    [current_time] retains. *)
Definition in_window (self : t) (client_ip : string) (window : Z) (current_time : Q)
    : list Q :=
  List.filter (within current_time (inject_Z window)) (requests_of self client_ip).

(** The client is on the block list and its hour has not elapsed. *)
Definition in_cooldown (self : t) (client_ip : string) (current_time : Q) : Prop :=
  exists block_time,
    blocked_ips self !! client_ip = Some block_time
    /\ (current_time - block_time < 3600)%Q.

(** The 429 answer that carries [blocked_until]. *)
Definition Blocked (blocked_until : Q) (e : exn) : Prop :=
  exists message, e = HTTPException 429 (MsgBlockedUntil message blocked_until).

(** Every request of [client_ip] in the trace is on a route with limit [lim]. *)
Definition same_class (client_ip : string) (lim : nat * Z) (ev : event) : Prop :=
  match ev with
  | Request ip path _ => ip = client_ip -> _get_limit path = lim
  | Cleanup _ => True
  end.

(** Timestamps in the order a non-decreasing clock appends them. *)
Fixpoint ascending (l : list Q) : Prop :=
  match l with
  | [] => True
  | x :: l' => Forall (Qle x) l' /\ ascending l'
  end.

(** The recorded list of a client is ascending and bounded by the clock. *)
Definition stamped (self : t) (client_ip : string) (T : Q) : Prop :=
  ascending (requests_of self client_ip)
  /\ Forall (fun t => t <= T)%Q (requests_of self client_ip).

(** Twenty-five requests of one client to the transactions route at second 10. *)
Definition burst : list event :=
  repeat (Request "198.51.100.4" "/api/v1/transactions/" 10) 25.

(** Twelve requests to a default-class route, then the client turns to the
    login route. *)
Definition mixed : list event :=
  repeat (Request "198.51.100.4" "/api/v1/users/me" 10) 12.

End Governor.

(** ** Further vocabulary for the rate limiter *)

Module Governor2.
Import RateLimiter Governor.

(** What the block-list check of a request sees: the block time while the
    hour runs, nothing once it has elapsed or when there is no entry. *)
Definition cooldown_view (self : t) (client_ip : string) (current_time : Q) : option Q :=
  match blocked_ips self !! client_ip with
  | Some block_time =>
    if Qltb (current_time - block_time) 3600 then Some block_time else None
  | None => None
  end.

(** [sub in s], as a statement. *)
Definition substring_of (sub s : string) : Prop :=
  exists before after, s = (before ++ sub ++ after)%string.

Definition starts_with (pre s : string) : Prop :=
  exists rest, s = (pre ++ rest)%string.

(** A request of some client other than [client_ip]. *)
Definition other_client (client_ip : string) (ev : event) : Prop :=
  match ev with
  | Request ip _ _ => ip <> client_ip
  | Cleanup _ => False
  end.

(** Under a non-decreasing clock no recorded stamp of a blocked client is
    later than its block time. *)
Definition block_covers (self : t) (client_ip : string) : Prop :=
  forall block_time,
    blocked_ips self !! client_ip = Some block_time ->
    Forall (fun x => x <= block_time)%Q (requests_of self client_ip).

(** The mixed traffic followed by one login attempt at second 30, which
    finds twelve stamps against a limit of five. *)
Definition overrun : list event :=
  mixed ++ [Request "198.51.100.4" "/api/v1/auth/login" 30].

(** Ten requests of a second client to the login route. *)
Definition neighbour : list event :=
  repeat (Request "192.0.2.9" "/api/v1/auth/login" 12) 10.

End Governor2.

(** ** services/account.py, the remaining operations *)

Module services_account.

Definition get_by_account_number (db : Session.t) (account_number : string)
    : option Account.t :=
  find (fun a => String.eqb (Account.account_number a) account_number)
       (Session.accounts db).

(** [.filter(user_id == ..).offset(skip).limit(limit).all()], for the
    non-negative [skip] and [limit] the query accepts. *)
Definition get_user_accounts (db : Session.t) (user_id : Z) (skip limit : nat)
    : list Account.t :=
  firstn limit
    (skipn skip
       (List.filter (fun a => Account.user_id a =? user_id) (Session.accounts db))).

(** [new_id] and [account_number] stand for the generated primary key and
    the twelve digits cut from [uuid.uuid4().int]. *)
Definition create (db : Session.t) (new_id : Z) (account_number : string)
    (user_id : Z) (currency : string) (initial_balance : Q) : Account.t * Session.t :=
  let db_obj :=
    Account.mk new_id account_number user_id ACTIVE initial_balance currency
               10000 5000 in
  (db_obj,
   Session.mk (Session.accounts db ++ [db_obj]) (Session.transactions db)
              (Session.auth_devices db)).

Definition set_status (s : AccountStatus) (a : Account.t) : Account.t :=
  Account.mk (Account.id a) (Account.account_number a) (Account.user_id a) s
             (Account.balance a) (Account.currency a)
             (Account.daily_transfer_limit a) (Account.withdrawal_limit a).

Definition set_daily_transfer_limit (l : Q) (a : Account.t) : Account.t :=
  Account.mk (Account.id a) (Account.account_number a) (Account.user_id a)
             (Account.status a) (Account.balance a) (Account.currency a)
             l (Account.withdrawal_limit a).

Definition set_withdrawal_limit (l : Q) (a : Account.t) : Account.t :=
  Account.mk (Account.id a) (Account.account_number a) (Account.user_id a)
             (Account.status a) (Account.balance a) (Account.currency a)
             (Account.daily_transfer_limit a) l.

Definition update_status (db : Session.t) (account_id : Z) (status : AccountStatus)
    : result Account.t * Session.t :=
  match AccountService.get db account_id with
  | None => (Raise AttributeError, db)
  | Some account =>
    let account := set_status status account in
    (Ok account, AccountService.commit account db)
  end.

Definition update_limits (db : Session.t) (account_id : Z)
    (daily_transfer_limit withdrawal_limit : option Q)
    : result Account.t * Session.t :=
  match AccountService.get db account_id with
  | None => (Raise AttributeError, db)
  | Some account =>
    let account :=
      match daily_transfer_limit with
      | Some l => set_daily_transfer_limit l account
      | None => account
      end in
    let account :=
      match withdrawal_limit with
      | Some l => set_withdrawal_limit l account
      | None => account
      end in
    (Ok account, AccountService.commit account db)
  end.

End services_account.

(** ** api/v1/endpoints/accounts.py *)

Module endpoints_accounts.

Definition process_transaction (db : Session.t) (account_id : Z) (amount : Q)
    (operation : string) (current_user : Z) : result Account.t * Session.t :=
  match AccountService.get db account_id with
  | None => (Raise (HTTPException 404 (Msg "Account not found")), db)
  | Some account =>
    if negb (Account.user_id account =? current_user) then
      (Raise (HTTPException 400 (Msg "Not enough permissions")), db)
    else if negb (bool_decide (Account.status account = ACTIVE)) then
      (Raise (HTTPException 400 (Msg "Account is not active")), db)
    else
      match AccountService.update_balance db account_id amount operation with
      | (Raise (ValueError message), db) =>
        (Raise (HTTPException 400 (Msg message)), db)
      | outcome => outcome
      end
  end.

Definition read_balance (db : Session.t) (account_id current_user : Z) : result Q :=
  match AccountService.get db account_id with
  | None => Raise (HTTPException 404 (Msg "Account not found"))
  | Some account =>
    if negb (Account.user_id account =? current_user) then
      Raise (HTTPException 400 (Msg "Not enough permissions"))
    else Ok (Account.balance account)
  end.

Definition update_account_status (db : Session.t) (account_id : Z)
    (status : AccountStatus) (current_user : Z) : result Account.t * Session.t :=
  match AccountService.get db account_id with
  | None => (Raise (HTTPException 404 (Msg "Account not found")), db)
  | Some account =>
    if negb (Account.user_id account =? current_user) then
      (Raise (HTTPException 400 (Msg "Not enough permissions")), db)
    else services_account.update_status db account_id status
  end.

Definition update_account_limits (db : Session.t) (account_id : Z)
    (daily_transfer_limit withdrawal_limit : option Q) (current_user : Z)
    : result Account.t * Session.t :=
  match AccountService.get db account_id with
  | None => (Raise (HTTPException 404 (Msg "Account not found")), db)
  | Some account =>
    if negb (Account.user_id account =? current_user) then
      (Raise (HTTPException 400 (Msg "Not enough permissions")), db)
    else
      services_account.update_limits db account_id daily_transfer_limit
                                     withdrawal_limit
  end.

End endpoints_accounts.

(** The sum of all balances. *)
Definition total_balance (db : Session.t) : Q :=
  sumQ (map Account.balance (Session.accounts db)).

(** The primary key of the accounts table. *)
Definition unique_ids (db : Session.t) : Prop :=
  NoDup (map Account.id (Session.accounts db)).

(** ** Query helpers: [order_by(created_at.desc())] *)

(** Rows by descending creation time; rows created at the same instant stay
    in table order (the query leaves their order open). *)
Fixpoint insert_desc (t : Transaction.t) (l : list Transaction.t) : list Transaction.t :=
  match l with
  | [] => [t]
  | x :: l' =>
    if Transaction.created_at x <=? Transaction.created_at t then t :: x :: l'
    else x :: insert_desc t l'
  end.

Definition order_by_created_desc (l : list Transaction.t) : list Transaction.t :=
  fold_right insert_desc [] l.

Fixpoint descending (l : list Transaction.t) : Prop :=
  match l with
  | [] => True
  | x :: l' =>
    Forall (fun y => Transaction.created_at y <= Transaction.created_at x) l'
    /\ descending l'
  end.

(** [if value:] on an optional integer: [None] and [0] are both false. *)
Definition truthy (value : option Z) : bool :=
  match value with
  | Some v => negb (v =? 0)
  | None => false
  end.

(** ** services/transaction_service.py: listing *)

Module services_transaction_service.

Definition get_user_transactions (db : Session.t) (user_id : Z) (skip limit : nat)
    (account_id : option Z) (transaction_type : option TransactionType)
    (start_date end_date : option Z) : list Transaction.t :=
  let query := List.filter (fun t => Transaction.user_id t =? user_id)
                           (Session.transactions db) in
  let query :=
    if truthy account_id then
      List.filter (fun t => bool_decide (Some (Transaction.account_id t) = account_id))
                  query
    else query in
  let query :=
    match transaction_type with
    | Some type => List.filter (fun t => bool_decide (Transaction.type t = type)) query
    | None => query
    end in
  let query :=
    match start_date with
    | Some start => List.filter (fun t => start <=? Transaction.created_at t) query
    | None => query
    end in
  let query :=
    match end_date with
    | Some stop => List.filter (fun t => Transaction.created_at t <=? stop) query
    | None => query
    end in
  firstn limit (skipn skip (order_by_created_desc query)).

End services_transaction_service.

(** ** services/transaction.py: records, flags, statistics *)

Module transaction_records.

Definition get_by_reference (db : Session.t) (reference_id : string)
    : option Transaction.t :=
  find (fun t => String.eqb (Transaction.reference_id t) reference_id)
       (Session.transactions db).

Definition get_account_transactions (db : Session.t) (account_id : Z)
    (skip limit : nat) (start_date end_date : option Z)
    (transaction_type : option TransactionType) : list Transaction.t :=
  let query := List.filter (fun t => Transaction.account_id t =? account_id)
                           (Session.transactions db) in
  let query :=
    match start_date with
    | Some start => List.filter (fun t => start <=? Transaction.created_at t) query
    | None => query
    end in
  let query :=
    match end_date with
    | Some stop => List.filter (fun t => Transaction.created_at t <=? stop) query
    | None => query
    end in
  let query :=
    match transaction_type with
    | Some type => List.filter (fun t => bool_decide (Transaction.type t = type)) query
    | None => query
    end in
  firstn limit (skipn skip (order_by_created_desc query)).

(** [new_id] and [reference_id] stand for the generated primary key and
    [uuid.uuid4()]; the currency is the column default. *)
Definition create_transaction (db : Session.t) (now new_id : Z) (reference_id : string)
    (user_id account_id : Z) (amount : Q) (transaction_type : TransactionType)
    (device_info : option DeviceInfo.t) : Transaction.t * Session.t :=
  let db_obj :=
    Transaction.mk new_id reference_id user_id account_id transaction_type PENDING
                   amount "USD" None device_info 0%Q now None None in
  (db_obj, TransactionService.add db_obj db).

Definition flag_suspicious_transaction (db : Session.t) (transaction_id : Z)
    : result Transaction.t * Session.t :=
  match services_transaction.get db transaction_id with
  | None => (Raise AttributeError, db)
  | Some transaction =>
    let transaction := Transaction.set_status FLAGGED transaction in
    (Ok transaction, services_transaction.commit transaction db)
  end.

(** The [status_distribution] dictionary, a counter per status. *)
Definition status_frequency (transactions : list Transaction.t)
    : TransactionStatus -> option nat :=
  fold_left
    (fun (d : TransactionStatus -> option nat) t =>
       fun k => if bool_decide (k = Transaction.status t)
                then Some (default 0%nat (d (Transaction.status t)) + 1)%nat
                else d k)
    transactions (fun _ => None).

Record statistics := mk_statistics {
  total_transactions : nat;
  total_credits : Q;
  total_debits : Q;
  transaction_types : TransactionType -> option nat;
  status_distribution : TransactionStatus -> option nat;
  average_transaction_size : Q;
  high_risk_transactions : nat
}.

(** The two dictionaries are keyed by the enum member, which stands for its
    [.value] string. *)
Definition get_transaction_statistics (db : Session.t) (account_id : Z)
    (start_date end_date : Z) : statistics :=
  let transactions :=
    get_account_transactions db account_id 0 1000 (Some start_date) (Some end_date)
                             None in
  mk_statistics
    (length transactions)
    (sumQ (map Transaction.amount
               (List.filter
                  (fun t => (bool_decide (Transaction.type t = DEPOSIT)
                             || bool_decide (Transaction.type t = INTEREST))
                            && bool_decide (Transaction.status t = COMPLETED))
                  transactions)))
    (sumQ (map Transaction.amount
               (List.filter
                  (fun t => (bool_decide (Transaction.type t = WITHDRAWAL)
                             || bool_decide (Transaction.type t = PAYMENT))
                            && bool_decide (Transaction.status t = COMPLETED))
                  transactions)))
    (type_frequency transactions)
    (status_frequency transactions)
    (match transactions with
     | [] => 0
     | _ => Decimal_div (sumQ (map Transaction.amount transactions))
                        (of_nat (length transactions))
     end)
    (length (List.filter (fun t => Qgtb (Transaction.risk_score t) 70) transactions)).

Definition all_types : list TransactionType :=
  [DEPOSIT; WITHDRAWAL; TRANSFER; PAYMENT; FEE; INTEREST; INVESTMENT; CRYPTO].

Definition all_statuses : list TransactionStatus :=
  [PENDING; COMPLETED; FAILED; CANCELLED; REVERSED; FLAGGED].

(** The entries of a counter dictionary, added up. *)
Definition counted {K} (d : K -> option nat) (keys : list K) : nat :=
  fold_right (fun k n => (default 0 (d k) + n)%nat) 0%nat keys.

End transaction_records.

(** ** services/fraud_detection.py: the risk profile *)

Module risk_profile.

Inductive t :=
| Unknown
| NewUser
| Profile (risk_level : string) (total_transactions failed_transactions
           high_risk_transactions : nat) (risk_ratio : Q).


End risk_profile.



Module Sample5.

(** Five transactions of user 7 in the last 90 days: one failed with a high
    risk score, one completed with a high risk score, three ordinary. *)
Definition row (id : Z) (status : TransactionStatus) (risk : Q) : Transaction.t :=
  Transaction.mk id "ref" 7 1 PAYMENT status 20 "USD" None None risk
                 (Sample.now - days 3) None None.

Definition db : Session.t :=
  Session.mk [Sample.checking]
             [row 1 FAILED 0.9; row 2 COMPLETED 0.8; row 3 COMPLETED 0;
              row 4 COMPLETED 0; row 5 PENDING 0]
             [].

End Sample5.

(** * Proofs *)

(** ** Comparisons on rationals *)

Lemma Qltb_lt (x y : Q) : Qltb x y = true <-> (x < y)%Q.
Proof.
  unfold Qltb. rewrite negb_true_iff.
  destruct (Qle_bool y x) eqn:E.
  - apply Qle_bool_iff in E. split; [discriminate | intros H; lra].
  - split; [intros _ | reflexivity].
    destruct (Qlt_le_dec x y) as [H | H]; [exact H |].
    apply Qle_bool_iff in H. congruence.
Qed.

Lemma Qltb_ge (x y : Q) : Qltb x y = false <-> (y <= x)%Q.
Proof.
  unfold Qltb. rewrite negb_false_iff. apply Qle_bool_iff.
Qed.



(** ** [Decimal] division: rounding *)

Lemma round_half_even_error (x : Q) :
  (Qabs (inject_Z (round_half_even x) - x) <= 1 # 2)%Q.
Proof.
  unfold round_half_even.
  pose proof (Qfloor_le x) as Hlo. pose proof (Qlt_floor x) as Hhi.
  rewrite inject_Z_plus in Hhi. change (inject_Z 1) with 1%Q in Hhi.
  apply Qabs_Qle_condition.
  destruct (x - inject_Z (Qfloor x) ?= 1 # 2)%Q eqn:E.
  - apply Qeq_alt in E.
    destruct (Z.even (Qfloor x));
      [| rewrite inject_Z_plus; change (inject_Z 1) with 1%Q]; lra.
  - apply Qlt_alt in E. lra.
  - apply Qgt_alt in E. rewrite inject_Z_plus. change (inject_Z 1) with 1%Q. lra.
Qed.

Lemma digits_fuel_spec (fuel : nat) (n : Z) :
  1 <= n < 2 ^ (Z.of_nat fuel + 1) ->
  1 <= digits_fuel fuel n
  /\ 10 ^ (digits_fuel fuel n - 1) <= n < 10 ^ digits_fuel fuel n.
Proof.
  revert n. induction fuel as [| fuel IH]; intros n Hn.
  - simpl in *. lia.
  - cbn [digits_fuel]. destruct (n <? 10) eqn:E.
    + apply Z.ltb_lt in E. simpl. lia.
    + apply Z.ltb_ge in E.
      assert (Hdiv : 1 <= n / 10 < 2 ^ (Z.of_nat fuel + 1)).
      { split.
        - apply Z.div_le_lower_bound; lia.
        - apply Z.div_lt_upper_bound; [lia |].
          replace (Z.of_nat (S fuel) + 1) with (Z.succ (Z.of_nat fuel + 1)) in Hn by lia.
          rewrite Z.pow_succ_r in Hn by lia. lia. }
      destruct (IH (n / 10) Hdiv) as (Hd & Hlo & Hhi).
      set (d := digits_fuel fuel (n / 10)) in *.
      split; [lia |].
      replace (1 + d - 1) with (Z.succ (d - 1)) by lia.
      replace (1 + d) with (Z.succ d) by lia.
      rewrite !Z.pow_succ_r by lia.
      pose proof (Z.div_mod n 10 ltac:(lia)) as Hdm.
      pose proof (Z.mod_pos_bound n 10 ltac:(lia)) as Hm.
      lia.
Qed.

Lemma digits_spec (n : Z) :
  1 <= n -> 1 <= digits n /\ 10 ^ (digits n - 1) <= n < 10 ^ digits n.
Proof.
  intros Hn. unfold digits. apply digits_fuel_spec.
  split; [exact Hn |].
  rewrite Z2Nat.id by (apply Z.log2_nonneg).
  replace (Z.log2 n + 1) with (Z.succ (Z.log2 n)) by lia.
  apply Z.log2_spec. lia.
Qed.

Lemma Qdiv_lt_div (a b x y : Q) :
  (0 < a -> 0 < y -> a < x -> y <= b -> a / b < x / y)%Q.
Proof.
  intros Ha Hy Hax Hyb.
  assert (Hb : (0 < b)%Q) by lra.
  assert (Hr : (0 < x / y)%Q) by (apply Qlt_shift_div_l; lra).
  assert (E : (x / y * y == x)%Q) by (field; lra).
  apply Qlt_shift_div_r; [exact Hb |].
  apply Qlt_le_trans with (y := (x / y * y)%Q); [rewrite E; exact Hax |].
  apply (proj2 (Qmult_le_l _ _ _ Hr)). exact Hyb.
Qed.

Lemma Qdiv_le_div (a b x y : Q) :
  (0 < x -> 0 < b -> x <= a -> b <= y -> x / y <= a / b)%Q.
Proof.
  intros Hx Hb Hxa Hby.
  assert (Hy : (0 < y)%Q) by lra.
  assert (Hr : (0 < x / y)%Q) by (apply Qlt_shift_div_l; lra).
  assert (E : (x / y * y == x)%Q) by (field; lra).
  apply Qle_shift_div_l; [exact Hb |].
  apply Qle_trans with (y := (x / y * y)%Q); [| rewrite E; exact Hxa].
  apply (proj2 (Qmult_le_l _ _ _ Hr)). exact Hby.
Qed.

Lemma pow10_pos (e : Z) : (0 < 10 ^ e)%Q.
Proof. apply Qpower_0_lt. reflexivity. Qed.

Lemma pow10_inject (k : Z) : 0 <= k -> (inject_Z (10 ^ k) == 10 ^ k)%Q.
Proof. intros Hk. rewrite Zpower_Qpower by exact Hk. reflexivity. Qed.

(** The exponent of the leading digit. *)
Lemma exponent_spec (q : Q) :
  (0 < q)%Q -> (10 ^ exponent q <= q /\ q < 10 ^ (exponent q + 1))%Q.
Proof.
  intros Hq. destruct q as [a b].
  assert (Ha : 1 <= a) by (unfold Qlt in Hq; simpl in Hq; lia).
  unfold exponent. cbn [Qnum Qden].
  destruct (digits_spec a Ha) as (Hda & Halo & Hahi).
  destruct (digits_spec (Zpos b) ltac:(lia)) as (Hdb & Hblo & Hbhi).
  set (da := digits a) in *. set (db := digits (Zpos b)) in *.
  rewrite Zle_Qle in Halo, Hblo. rewrite Zlt_Qlt in Hahi, Hbhi.
  rewrite pow10_inject in Halo, Hblo, Hahi, Hbhi by lia.
  assert (HA : (0 < inject_Z a)%Q) by (rewrite <- (Zlt_Qlt 0); lia).
  assert (HB : (0 < inject_Z (Zpos b))%Q) by (rewrite <- (Zlt_Qlt 0); lia).
  assert (Eq : (a # b == inject_Z a / inject_Z (Zpos b))%Q) by apply Qmake_Qdiv.
  assert (Hne : ~ (10 == 0)%Q) by discriminate.
  assert (Hup : (a # b < 10 ^ (da - db + 1))%Q).
  { rewrite Eq. replace (da - db + 1) with (da - (db - 1)) by lia.
    rewrite Qpower_minus by exact Hne.
    apply Qdiv_lt_div; [exact HA | apply pow10_pos | exact Hahi | exact Hblo]. }
  assert (Hdown : (10 ^ (da - db - 1) <= a # b)%Q).
  { rewrite Eq. replace (da - db - 1) with (da - 1 - db) by lia.
    rewrite Qpower_minus by exact Hne.
    apply Qdiv_le_div; [apply pow10_pos | exact HB | exact Halo |].
    apply Qlt_le_weak. exact Hbhi. }
  destruct (Qle_bool (10 ^ (da - db)) (a # b)) eqn:E.
  - apply Qle_bool_iff in E. split; [exact E | exact Hup].
  - split; [exact Hdown |].
    replace (da - db - 1 + 1) with (da - db) by lia.
    apply Qnot_le_lt. intros Hle. apply Qle_bool_iff in Hle. congruence.
Qed.

(** A [Decimal] quotient is within half a unit of the 28th significant
    digit of the exact one. *)
Lemma Decimal_round_error (q : Q) :
  (Qabs (Decimal_round q - q) <= Qabs q * (10 ^ (-27) / 2))%Q.
Proof.
  unfold Decimal_round.
  destruct (Qeq_bool q 0) eqn:E0.
  - apply Qeq_bool_iff in E0.
    rewrite E0. discriminate.
  - apply Qeq_bool_neq in E0.
    assert (Hpos : (0 < Qabs q)%Q).
    { pose proof (Qabs_nonneg q) as H0.
      destruct (Qeq_dec (Qabs q) 0) as [Hz | Hz]; [| lra].
      exfalso. apply E0. revert Hz. apply Qabs_case; intros; lra. }
    destruct (exponent_spec (Qabs q) Hpos) as [Hlo _].
    set (e := exponent (Qabs q)) in *.
    set (s := (q * 10 ^ (27 - e))%Q).
    assert (Hne : ~ (10 == 0)%Q) by discriminate.
    assert (Hs : (q == s * 10 ^ (e - 27))%Q).
    { subst s. rewrite <- Qmult_assoc, <- Qpower_plus by exact Hne.
      replace (27 - e + (e - 27)) with 0 by lia. simpl. ring. }
    assert (Hd : (inject_Z (round_half_even s) * 10 ^ (e - 27) - q
                  == (inject_Z (round_half_even s) - s) * 10 ^ (e - 27))%Q)
      by (transitivity (inject_Z (round_half_even s) * 10 ^ (e - 27)
                        - s * 10 ^ (e - 27))%Q;
          [rewrite <- Hs; reflexivity | ring]).
    rewrite Hd, Qabs_Qmult.
    pose proof (round_half_even_error s) as Hr.
    pose proof (pow10_pos (e - 27)) as Hp.
    rewrite (Qabs_pos (10 ^ (e - 27))) by lra.
    apply Qle_trans with (y := ((1 # 2) * 10 ^ (e - 27))%Q).
    + apply Qmult_le_compat_r; lra.
    + replace (e - 27) with (e + -27) by lia.
      rewrite Qpower_plus by exact Hne.
      pose proof (pow10_pos (-27)) as Hp27.
      assert (Hh : ((1 # 2) * (10 ^ e * 10 ^ (-27)) == 10 ^ e * (10 ^ (-27) / 2))%Q)
        by field.
      rewrite Hh.
      apply Qmult_le_compat_r; [exact Hlo |].
      apply Qle_shift_div_l; lra.
Qed.

Lemma Decimal_div_error (x y : Q) :
  (Qabs (Decimal_div x y - x / y) <= Qabs (x / y) * (10 ^ (-27) / 2))%Q.
Proof. apply Decimal_round_error. Qed.

(** ** The risk scorer *)

Lemma count_since_mono (db : Session.t) (user_id since since' : Z) :
  since <= since' ->
  (count_since db user_id since' <= count_since db user_id since)%nat.
Proof.
  intros Hle. unfold count_since.
  induction (Session.transactions db) as [| t ts IH]; simpl; [lia |].
  destruct (Transaction.user_id t =? user_id); simpl; [| exact IH].
  destruct (since' <=? Transaction.created_at t) eqn:E1;
    destruct (since <=? Transaction.created_at t) eqn:E2; simpl; lia.
Qed.

(** Both counts of the frequency factor are taken within the 30-day
    history, the hour within the week. *)
Lemma counts_within_history (db : Session.t) (now user_id : Z) :
  (count_since db user_id (now - hours 1) <= count_since db user_id (now - days 7))%nat
  /\ (count_since db user_id (now - days 7) <= length (history_30_days db now user_id))%nat.
Proof.
  split.
  - apply count_since_mono. unfold hours, days. lia.
  - change (length (history_30_days db now user_id))
      with (count_since db user_id (now - days 30)).
    apply count_since_mono. unfold days. lia.
Qed.

Lemma Ok_inj {A : Type} (x y : A) : Ok x = Ok y -> x = y.
Proof. intros E. injection E as E. exact E. Qed.

(** Two floats that [=?] tells apart are different. *)
Lemma float_neq (x y : float) :
  PrimFloat.eqb x y = false -> PrimFloat.eqb y y = true -> x <> y.
Proof. intros Hxy Hyy E. rewrite E, Hyy in Hxy. discriminate. Qed.

(** *** The amount factor: where it returns and where it raises *)

Lemma _analyze_amount_single (amount : Q) (t : Transaction.t) :
  FraudDetectionService._analyze_amount amount [t]
  = if Qgtb amount (Transaction.amount t) then
      if Qeq_bool (Transaction.amount t) 0 then Raise DivisionByZero else Raise TypeError
    else Ok 0%float.
Proof.
  unfold FraudDetectionService._analyze_amount. simpl length. simpl bind.
  change (maxQ (Transaction.amount t) (map Transaction.amount []))
    with (Transaction.amount t).
  destruct (Qgtb amount (Transaction.amount t)); [| reflexivity].
  destruct (Qeq_bool (Transaction.amount t) 0); reflexivity.
Qed.

Lemma _analyze_amount_many (amount : Q) (t1 t2 : Transaction.t)
    (rest : list Transaction.t) :
  FraudDetectionService._analyze_amount amount (t1 :: t2 :: rest) = Raise TypeError.
Proof. reflexivity. Qed.

(** *** The factors on a history of at most one row *)

Lemma _analyze_frequency_small (db : Session.t) (now user_id : Z) :
  (length (history_30_days db now user_id) <= 1)%nat ->
  FraudDetectionService._analyze_frequency db now user_id
  = if (count_since db user_id (now - hours 1) =? 1)%nat then 1%float else 0%float.
Proof.
  intros Hlen.
  destruct (counts_within_history db now user_id) as [Hrecent Hweek].
  unfold FraudDetectionService._analyze_frequency.
  revert Hrecent Hweek.
  generalize (count_since db user_id (now - hours 1)) as recent.
  generalize (count_since db user_id (now - days 7)) as week.
  intros week recent Hrecent Hweek.
  assert (Hcases : ((week = 0 /\ recent = 0) \/ (week = 1 /\ recent = 0)
                    \/ (week = 1 /\ recent = 1))%nat) by lia.
  destruct Hcases as [[-> ->] | [[-> ->] | [-> ->]]]; vm_compute; reflexivity.
Qed.

Lemma _analyze_frequency_new_owner (db : Session.t) (now user_id : Z) :
  history_30_days db now user_id = [] ->
  FraudDetectionService._analyze_frequency db now user_id = 0%float.
Proof.
  intros Hhist.
  rewrite _analyze_frequency_small by (rewrite Hhist; simpl; lia).
  destruct (counts_within_history db now user_id) as [Hrecent Hweek].
  rewrite Hhist in Hweek. simpl in Hweek.
  destruct (count_since db user_id (now - hours 1)) as [| [| n]]; try lia; reflexivity.
Qed.

Lemma _analyze_device_values (db : Session.t) (now user_id : Z)
    (device_info : DeviceInfo.t) :
  In (FraudDetectionService._analyze_device db now user_id device_info)
     [0.8; 0.9; 0.4; 0]%float.
Proof.
  unfold FraudDetectionService._analyze_device.
  destruct (find _ _) as [d |]; [| simpl; tauto].
  destruct (negb _); [simpl; tauto |].
  destruct (_ <? _); simpl; tauto.
Qed.

Lemma _analyze_patterns_empty (now user_id : Z) (amount : Q)
    (transaction_type : TransactionType) :
  In (FraudDetectionService._analyze_patterns now user_id amount transaction_type [])
     [0.2; 0.30000000000000004]%float.
Proof.
  unfold FraudDetectionService._analyze_patterns.
  destruct (Qeq_bool (Qrem amount 100) 0 && Qgtb amount 1000);
    vm_compute; tauto.
Qed.

Lemma _analyze_patterns_single (now user_id : Z) (amount : Q)
    (transaction_type : TransactionType) (t : Transaction.t) :
  In (FraudDetectionService._analyze_patterns now user_id amount transaction_type [t])
     [0; 0.2; 0.1; 0.30000000000000004]%float.
Proof.
  unfold FraudDetectionService._analyze_patterns, type_frequency.
  simpl List.filter. simpl fold_left.
  destruct (Qeq_bool (Qrem amount 100) 0 && Qgtb amount 1000);
    destruct (bool_decide (Transaction.type t = transaction_type)
              && (now - minutes 5 <=? Transaction.created_at t));
    destruct (bool_decide (transaction_type = Transaction.type t));
    vm_compute; tauto.
Qed.

(** *** The binary64 factors and the exact ones

    The device factor is the same decimal in both readings.  On a history
    of at most one row, the only histories on which the scorer gets past
    the amount factor, so are the frequency and the pattern factor, up to
    the rounding of [0.2 + 0.1]. *)
Lemma _analyze_device_reads (db : Session.t) (now user_id : Z)
    (device_info : DeviceInfo.t) :
  reads_as (FraudDetectionService._analyze_device db now user_id device_info)
           (_analyze_device db now user_id device_info)
           [(0.8%float, 0.8%Q); (0.9%float, 0.9%Q); (0.4%float, 0.4%Q); (0%float, 0%Q)].
Proof.
  unfold reads_as, FraudDetectionService._analyze_device, _analyze_device.
  destruct (find _ _) as [d |];
    [| apply Exists_cons_hd; split; reflexivity].
  destruct (negb _);
    [apply Exists_cons_tl, Exists_cons_hd; split; reflexivity |].
  destruct (_ <? _);
    [apply Exists_cons_tl, Exists_cons_tl, Exists_cons_hd; split; reflexivity |].
  apply Exists_cons_tl, Exists_cons_tl, Exists_cons_tl, Exists_cons_hd.
  split; reflexivity.
Qed.

Lemma _analyze_frequency_reads (db : Session.t) (now user_id : Z) :
  (length (history_30_days db now user_id) <= 1)%nat ->
  reads_as (FraudDetectionService._analyze_frequency db now user_id)
           (_analyze_frequency db now user_id)
           [(0%float, 0%Q); (1%float, 1%Q)].
Proof.
  intros Hlen.
  destruct (counts_within_history db now user_id) as [Hrecent Hweek].
  unfold reads_as, FraudDetectionService._analyze_frequency, _analyze_frequency.
  revert Hrecent Hweek.
  generalize (count_since db user_id (now - hours 1)) as recent.
  generalize (count_since db user_id (now - days 7)) as week.
  intros week recent Hrecent Hweek.
  assert (Hcases : ((week = 0 /\ recent = 0) \/ (week = 1 /\ recent = 0)
                    \/ (week = 1 /\ recent = 1))%nat) by lia.
  destruct Hcases as [[-> ->] | [[-> ->] | [-> ->]]].
  - apply Exists_cons_hd. split; vm_compute; reflexivity.
  - apply Exists_cons_hd. split; vm_compute; reflexivity.
  - apply Exists_cons_tl, Exists_cons_hd. split; vm_compute; reflexivity.
Qed.

Lemma _analyze_patterns_reads (now user_id : Z) (amount : Q)
    (transaction_type : TransactionType) (history : list Transaction.t) :
  (length history <= 1)%nat ->
  reads_as (FraudDetectionService._analyze_patterns now user_id amount transaction_type
              history)
           (_analyze_patterns now user_id amount transaction_type history)
           [(0%float, 0%Q); (0.2%float, 0.2%Q); (0.1%float, 0.1%Q);
            (0.30000000000000004%float, 0.3%Q)].
Proof.
  intros Hlen.
  unfold reads_as, FraudDetectionService._analyze_patterns, _analyze_patterns,
    type_frequency.
  destruct history as [| t [| t2 rest]]; [| | simpl in Hlen; lia];
    simpl List.filter; simpl fold_left.
  - destruct (Qeq_bool (Qrem amount 100) 0 && Qgtb amount 1000).
    + apply Exists_cons_tl, Exists_cons_tl, Exists_cons_tl, Exists_cons_hd.
      split; vm_compute; reflexivity.
    + apply Exists_cons_tl, Exists_cons_hd. split; vm_compute; reflexivity.
  - destruct (Qeq_bool (Qrem amount 100) 0 && Qgtb amount 1000);
      destruct (bool_decide (Transaction.type t = transaction_type)
                && (now - minutes 5 <=? Transaction.created_at t));
      destruct (bool_decide (transaction_type = Transaction.type t));
      first
        [ apply Exists_cons_hd; split; vm_compute; reflexivity
        | apply Exists_cons_tl, Exists_cons_hd; split; vm_compute; reflexivity
        | apply Exists_cons_tl, Exists_cons_tl, Exists_cons_hd;
          split; vm_compute; reflexivity
        | apply Exists_cons_tl, Exists_cons_tl, Exists_cons_tl, Exists_cons_hd;
          split; vm_compute; reflexivity ].
Qed.

(** What a returned score is made of: the scorer returns only on a history
    of at most one row, where every factor takes one of a few values. *)
Lemma analyze_transaction_returns (db : Session.t) (now user_id : Z) (amount : Q)
    (transaction_type : TransactionType) (device_info : DeviceInfo.t) (score : float) :
  FraudDetectionService.analyze_transaction db now user_id amount transaction_type
    device_info = Ok score ->
  (length (history_30_days db now user_id) <= 1)%nat
  /\ exists a f d p : float,
       In (a, f) [(0.5, 0); (0, 0); (0, 1)]%float
       /\ In d [0.8; 0.9; 0.4; 0]%float
       /\ In p [0; 0.2; 0.1; 0.30000000000000004]%float
       /\ score = min2 (0 + a * 0.3 + f * 0.2 + d * 0.25 + p * 0.25)%float 1%float.
Proof.
  unfold FraudDetectionService.analyze_transaction.
  fold (history_30_days db now user_id).
  pose proof (_analyze_device_values db now user_id device_info) as Hd.
  destruct (history_30_days db now user_id) as [| t [| t2 rest]] eqn:Hhist.
  - rewrite (_analyze_frequency_new_owner db now user_id Hhist).
    simpl bind. intros E. injection E as <-.
    pose proof (_analyze_patterns_empty now user_id amount transaction_type) as Hp.
    split; [simpl; lia |].
    exists 0.5%float, 0%float,
      (FraudDetectionService._analyze_device db now user_id device_info),
      (FraudDetectionService._analyze_patterns now user_id amount transaction_type []).
    split; [left; reflexivity |].
    split; [exact Hd |]. split; [| reflexivity].
    simpl in Hp |- *. tauto.
  - rewrite _analyze_amount_single.
    destruct (Qgtb amount (Transaction.amount t)).
    { destruct (Qeq_bool (Transaction.amount t) 0); discriminate. }
    rewrite (_analyze_frequency_small db now user_id) by (rewrite Hhist; simpl; lia).
    simpl bind. intros E. injection E as <-.
    pose proof (_analyze_patterns_single now user_id amount transaction_type t) as Hp.
    split; [simpl; lia |].
    exists 0%float,
      (if (count_since db user_id (now - hours 1) =? 1)%nat then 1%float else 0%float),
      (FraudDetectionService._analyze_device db now user_id device_info),
      (FraudDetectionService._analyze_patterns now user_id amount transaction_type [t]).
    split; [| split; [exact Hd |]; split; [exact Hp | reflexivity]].
    destruct (_ =? _)%nat; simpl; tauto.
  - rewrite _analyze_amount_many. discriminate.
Qed.

(** C9.  On every history of two or more rows [analyze_transaction] raises
    [TypeError] instead of returning a score: the standard deviation of the
    amount factor raises a [Decimal] to a [float] power. *)
Theorem analyze_transaction_type_error (db : Session.t) (now user_id : Z) (amount : Q)
    (transaction_type : TransactionType) (device_info : DeviceInfo.t) :
  (2 <= length (history_30_days db now user_id))%nat ->
  FraudDetectionService.analyze_transaction db now user_id amount transaction_type
    device_info = Raise TypeError.
Proof.
  intros Hlen. unfold FraudDetectionService.analyze_transaction.
  fold (history_30_days db now user_id).
  destruct (history_30_days db now user_id) as [| t1 [| t2 rest]];
    [simpl in Hlen; lia | simpl in Hlen; lia |].
  rewrite _analyze_amount_many. reflexivity.
Qed.

Lemma analyze_transaction_type_error_witness :
  FraudDetectionService.analyze_transaction Sample.busy_owner Sample.now 7 250 WITHDRAWAL
    Sample.device_info = Raise TypeError.
Proof.
  apply (analyze_transaction_type_error Sample.busy_owner Sample.now 7 250 WITHDRAWAL
           Sample.device_info).
  vm_compute. lia.
Defined.

(** C1 (as amended).  For an owner whose 30-day history is empty, a 500
    withdrawal from an unknown device scores 0.39999999999999997, the
    binary64 value just below 0.4: amount factor 0.5, frequency factor 0,
    device factor 0.8, and pattern factor 0.2, because the
    low-type-frequency bonus is also applied on the empty history. *)
Theorem new_owner_score (db : Session.t) (now user_id : Z) (device_info : DeviceInfo.t) :
  history_30_days db now user_id = [] ->
  find (fun d => (AuthDevice.user_id d =? user_id)
                 && bool_decide (AuthDevice.device_id d = DeviceInfo.device_id device_info))
       (Session.auth_devices db) = None ->
  FraudDetectionService._analyze_amount 500 [] = Ok 0.5%float
  /\ FraudDetectionService._analyze_frequency db now user_id = 0%float
  /\ FraudDetectionService._analyze_device db now user_id device_info = 0.8%float
  /\ FraudDetectionService._analyze_patterns now user_id 500 WITHDRAWAL [] = 0.2%float
  /\ FraudDetectionService.analyze_transaction db now user_id 500 WITHDRAWAL device_info
     = Ok 0.39999999999999997%float
  /\ PrimFloat.next_up 0.39999999999999997 = 0.4%float.
Proof.
  intros Hhist Hdev.
  assert (Hd : FraudDetectionService._analyze_device db now user_id device_info
               = 0.8%float).
  { unfold FraudDetectionService._analyze_device. rewrite Hdev. reflexivity. }
  pose proof (_analyze_frequency_new_owner db now user_id Hhist) as Hf.
  split; [reflexivity |]. split; [exact Hf |]. split; [exact Hd |].
  split; [vm_compute; reflexivity |]. split; [| vm_compute; reflexivity].
  unfold FraudDetectionService.analyze_transaction.
  fold (history_30_days db now user_id). rewrite Hhist, Hf, Hd.
  vm_compute. reflexivity.
Qed.

Lemma new_owner_score_witness :
  FraudDetectionService.analyze_transaction Sample.new_owner Sample.now 7 500 WITHDRAWAL
    Sample.device_info = Ok 0.39999999999999997%float.
Proof.
  apply (new_owner_score Sample.new_owner Sample.now 7 Sample.device_info);
    reflexivity.
Defined.

(** On the sample owner with no history and no registered device the score
    of the 500 withdrawal is not 0.35, nor within 0.04 of it, and the
    pattern factor is not 0. *)
Lemma new_owner_score_not_035 :
  history_30_days Sample.new_owner Sample.now 7 = []
  /\ FraudDetectionService._analyze_device Sample.new_owner Sample.now 7
       Sample.device_info = 0.8%float
  /\ FraudDetectionService._analyze_patterns Sample.now 7 500 WITHDRAWAL [] <> 0%float
  /\ FraudDetectionService.analyze_transaction Sample.new_owner Sample.now 7 500
       WITHDRAWAL Sample.device_info <> Ok 0.35%float
  /\ exists score,
       FraudDetectionService.analyze_transaction Sample.new_owner Sample.now 7 500
         WITHDRAWAL Sample.device_info = Ok score
       /\ (0.35 + 0.04 <? score)%float = true.
Proof.
  split; [reflexivity |]. split; [reflexivity |].
  split; [apply float_neq; vm_compute; reflexivity |].
  split.
  - intros E. vm_compute in E. apply Ok_inj in E.
    revert E. apply float_neq; vm_compute; reflexivity.
  - eexists. split; [vm_compute; reflexivity | vm_compute; reflexivity].
Qed.

(** ** The balance ledger *)

Lemma get_id (db : Session.t) (account_id : Z) (account : Account.t) :
  AccountService.get db account_id = Some account -> Account.id account = account_id.
Proof.
  unfold AccountService.get. intros H. apply find_some in H as [_ H]. lia.
Qed.

Lemma get_commit (db : Session.t) (account account' : Account.t) :
  AccountService.get db (Account.id account') = Some account ->
  AccountService.get (AccountService.commit account' db) (Account.id account')
  = Some account'.
Proof.
  unfold AccountService.get, AccountService.commit. simpl.
  induction (Session.accounts db) as [| r rs IH]; simpl; [discriminate |].
  destruct (Account.id r =? Account.id account') eqn:E.
  - intros _. rewrite Z.eqb_refl. reflexivity.
  - rewrite E. exact IH.
Qed.

Lemma get_commit_other (db : Session.t) (account' : Account.t) (account_id : Z) :
  account_id <> Account.id account' ->
  AccountService.get (AccountService.commit account' db) account_id
  = AccountService.get db account_id.
Proof.
  intros Hne. unfold AccountService.get, AccountService.commit. simpl.
  induction (Session.accounts db) as [| r rs IH]; simpl; [reflexivity |].
  destruct (Account.id r =? Account.id account') eqn:E.
  - assert ((Account.id account' =? account_id) = false) as -> by lia.
    assert ((Account.id r =? account_id) = false) as -> by lia.
    exact IH.
  - destruct (Account.id r =? account_id); [reflexivity | exact IH].
Qed.

(** C5.  A debit of more than the balance fails with "Insufficient funds"
    and leaves the session as it was; a debit of at most the balance
    succeeds, the stored balance is the old balance minus the amount, and it
    is not negative.  Both for [AccountService.update_balance] and for the
    orchestrator's [_process_withdrawal]. *)
Theorem debit_checks_funds (db : Session.t) (now account_id : Z) (account : Account.t)
    (amount : Q) (transaction : Transaction.t) :
  AccountService.get db account_id = Some account ->
  (0 < amount)%Q ->
  Transaction.amount transaction = amount ->
  ((Account.balance account < amount)%Q ->
     AccountService.update_balance db account_id amount "debit"
     = (Raise (ValueError "Insufficient funds"), db)
     /\ TransactionService._process_withdrawal db now transaction account
        = (Raise (HTTPException 400 (Msg "Insufficient funds")), db))
  /\ ((amount <= Account.balance account)%Q ->
      exists account',
        Account.balance account' = (Account.balance account - amount)%Q
        /\ (0 <= Account.balance account')%Q
        /\ (exists db',
              AccountService.update_balance db account_id amount "debit"
              = (Ok account', db')
              /\ AccountService.get db' account_id = Some account')
        /\ (exists db',
              TransactionService._process_withdrawal db now transaction account
              = (Ok (TransactionService.completed now transaction), db')
              /\ AccountService.get db' account_id = Some account')).
Proof.
  intros Hget Hpos Hamt.
  pose proof (get_id _ _ _ Hget) as Hid.
  unfold AccountService.update_balance, TransactionService._process_withdrawal.
  rewrite Hget, Hamt. simpl String.eqb. split.
  - intros Hlt. apply Qltb_lt in Hlt. rewrite Hlt. split; reflexivity.
  - intros Hle. apply Qltb_ge in Hle. rewrite Hle.
    exists (Account.set_balance (Account.balance account - amount)%Q account).
    apply Qltb_ge in Hle.
    split; [reflexivity |]. split; [simpl; lra |].
    split; eexists; (split; [reflexivity |]);
      rewrite <- Hid in *;
      apply (get_commit db account (Account.set_balance _ account)); exact Hget.
Qed.

Lemma debit_checks_funds_witness :
  exists account',
    Account.balance account' = (1200 - 200)%Q
    /\ (0 <= Account.balance account')%Q
    /\ (exists db',
          AccountService.update_balance Sample.new_owner 1 200 "debit" = (Ok account', db')
          /\ AccountService.get db' 1 = Some account')
    /\ (exists db',
          TransactionService._process_withdrawal Sample.new_owner Sample.now
            (Sample.withdrawal 4 "ref-4" 200 Sample.now) Sample.checking
          = (Ok (TransactionService.completed Sample.now
                   (Sample.withdrawal 4 "ref-4" 200 Sample.now)), db')
          /\ AccountService.get db' 1 = Some account').
Proof.
  apply (debit_checks_funds Sample.new_owner Sample.now 1 Sample.checking 200
           (Sample.withdrawal 4 "ref-4" 200 Sample.now));
    [reflexivity | reflexivity | reflexivity | discriminate].
Defined.

(** ** The orchestrator *)

(** C6.  The endpoint reads [transaction_in.transaction_type], an attribute
    the request schema does not have, before it calls the scorer: every
    request ends in [AttributeError] with the session as it was, so the
    fraud check is never reached and no request is answered with the fraud
    rejection.  On the sample request (a 2000 withdrawal after three
    withdrawals of 100 in five minutes, fingerprint not matching) the
    scorer, called on its own, raises [TypeError]; over exact numbers the
    weighted factors of that request add up to 0.825, above the threshold
    of 0.8. *)
Theorem fraud_check_not_reached :
  (forall (db : Session.t) (now new_id : Z) (reference_id : string)
          (transaction_in : TransactionCreate.t) (current_user : Z)
          (request : Request.t),
     endpoints_transactions.create_transaction db now new_id reference_id
       transaction_in current_user request
     = (Raise AttributeError, db))
  /\ endpoints_transactions.create_transaction Sample.busy_owner Sample.now 4 "ref-4"
       (TransactionCreate.mk 1 2000 WITHDRAWAL None) 7 Sample.request
     <> (Raise FraudSuspected, Sample.busy_owner)
  /\ FraudDetectionService.analyze_transaction Sample.busy_owner Sample.now 7 2000
       WITHDRAWAL Sample.device_info
     = Raise TypeError
  /\ (0.3 * Qmin 1 (2000 / 100 * 0.8)
      + 0.2 * _analyze_frequency Sample.busy_owner Sample.now 7
      + 0.25 * _analyze_device Sample.busy_owner Sample.now 7 Sample.device_info
      + 0.25 * _analyze_patterns Sample.now 7 2000 WITHDRAWAL
                 (Session.transactions Sample.busy_owner)
      == 0.825)%Q.
Proof.
  split; [reflexivity |]. split; [discriminate |]. split; reflexivity.
Qed.

Lemma recipient_invalid_cases (db : Session.t) (number : option string) :
  ~ recipient_valid db number ->
  TransactionService.get_by_account_number db number = None
  \/ exists recipient,
       TransactionService.get_by_account_number db number = Some recipient
       /\ bool_decide (Account.status recipient = ACTIVE) = false.
Proof.
  intros Hinv. destruct (TransactionService.get_by_account_number db number) as [r |] eqn:E.
  - right. exists r. split; [reflexivity |].
    apply bool_decide_eq_false. intros Hact. apply Hinv. exists r. split; assumption.
  - left. reflexivity.
Qed.

Lemma _process_transfer_recipient_invalid (db : Session.t) (now : Z)
    (transaction : Transaction.t) (account : Account.t) :
  ~ recipient_valid db (Transaction.recipient_account transaction) ->
  exists e,
    TransactionService._process_transfer db now transaction account = (Raise e, db)
    /\ ((Transaction.amount transaction <= Account.balance account)%Q ->
        RecipientInvalid e).
Proof.
  intros Hinv. unfold TransactionService._process_transfer.
  destruct (Qltb (Account.balance account) (Transaction.amount transaction)) eqn:Efunds.
  - eexists. split; [reflexivity |]. intros Hle. apply Qltb_lt in Efunds. lra.
  - destruct (recipient_invalid_cases _ _ Hinv) as [-> | (r & -> & ->)]; simpl.
    + eexists. split; [reflexivity |]. intros _. left. reflexivity.
    + eexists. split; [reflexivity |]. intros _. right. reflexivity.
Qed.

(** C7.  A transfer whose recipient account is missing or not Active fails
    and leaves every account row, the source's included, as it was: in
    [_process_transfer] and in the whole of [create_transaction].  The error
    is the recipient error whenever the source covers the amount. *)
Theorem transfer_recipient_invalid_atomic (db : Session.t) (now new_id : Z)
    (reference_id : string) (transaction_data : TransactionCreate.t) (user_id : Z)
    (device_info : DeviceInfo.t) (transaction : Transaction.t) (account : Account.t) :
  ~ recipient_valid db (Transaction.recipient_account transaction) ->
  TransactionCreate.type transaction_data = TRANSFER ->
  TransactionCreate.recipient_account transaction_data
  = Transaction.recipient_account transaction ->
  (exists e,
     TransactionService._process_transfer db now transaction account = (Raise e, db)
     /\ ((Transaction.amount transaction <= Account.balance account)%Q ->
         RecipientInvalid e))
  /\ (exists e,
        TransactionService.create_transaction db now new_id reference_id
          transaction_data user_id device_info = (Raise e, db)).
Proof.
  intros Hinv Htype Hrecipient. split.
  - apply _process_transfer_recipient_invalid. exact Hinv.
  - unfold TransactionService.create_transaction.
    destruct (find _ (Session.accounts db)) as [source |]; [| eexists; reflexivity].
    destruct (negb _); [eexists; reflexivity |].
    destruct (TransactionService._validate_transaction_limits _ _ _ _);
      [| eexists; reflexivity].
    cbn [Transaction.type]. rewrite Htype.
    match goal with
    | |- context [TransactionService._process_transfer db now ?t source] =>
      destruct (_process_transfer_recipient_invalid db now t source) as (e & -> & _)
    end.
    + cbn [Transaction.recipient_account]. rewrite Hrecipient. exact Hinv.
    + exists e. reflexivity.
Qed.

Lemma transfer_recipient_invalid_atomic_witness :
  (exists e,
     TransactionService._process_transfer Sample.new_owner Sample.now
       (Transaction.mk 4 "ref-4" 7 1 TRANSFER PENDING 200 "USD" (Some "100000000003")
                       None 0 Sample.now None None)
       Sample.checking
     = (Raise e, Sample.new_owner)
     /\ ((200 <= 1200)%Q -> RecipientInvalid e))
  /\ (exists e,
        TransactionService.create_transaction Sample.new_owner Sample.now 4 "ref-4"
          (TransactionCreate.mk 1 200 TRANSFER (Some "100000000003")) 7
          Sample.device_info
        = (Raise e, Sample.new_owner)).
Proof.
  apply (transfer_recipient_invalid_atomic Sample.new_owner Sample.now 4 "ref-4"
           (TransactionCreate.mk 1 200 TRANSFER (Some "100000000003")) 7
           Sample.device_info
           (Transaction.mk 4 "ref-4" 7 1 TRANSFER PENDING 200 "USD" (Some "100000000003")
                           None 0 Sample.now None None)
           Sample.checking).
  - intros (r & Hr & Hs). vm_compute in Hr. inversion Hr; subst r. discriminate Hs.
  - reflexivity.
  - reflexivity.
Defined.

(** The other half of all-or-nothing: with funds and an Active recipient
    distinct from the source, both rows move by the amount. *)
Lemma _process_transfer_moves_both (db : Session.t) (now : Z)
    (transaction : Transaction.t) (account recipient : Account.t) :
  AccountService.get db (Account.id account) = Some account ->
  AccountService.get db (Account.id recipient) = Some recipient ->
  Account.id recipient <> Account.id account ->
  TransactionService.get_by_account_number db (Transaction.recipient_account transaction)
  = Some recipient ->
  Account.status recipient = ACTIVE ->
  (Transaction.amount transaction <= Account.balance account)%Q ->
  exists db',
    TransactionService._process_transfer db now transaction account
    = (Ok (TransactionService.completed now transaction), db')
    /\ AccountService.get db' (Account.id account)
       = Some (Account.set_balance
                 (Account.balance account - Transaction.amount transaction)%Q account)
    /\ AccountService.get db' (Account.id recipient)
       = Some (Account.set_balance
                 (Account.balance recipient + Transaction.amount transaction)%Q recipient).
Proof.
  intros Hsrc Hdst Hne Hfind Hactive Hfunds.
  unfold TransactionService._process_transfer.
  apply Qltb_ge in Hfunds. rewrite Hfunds, Hfind.
  rewrite (bool_decide_eq_true_2 _ Hactive). simpl negb. cbv iota zeta.
  set (account' := Account.set_balance _ account).
  assert (Hread : AccountService.get (AccountService.commit account' db)
                                     (Account.id recipient) = Some recipient).
  { rewrite get_commit_other; [exact Hdst | exact Hne]. }
  rewrite Hread. simpl default.
  set (recipient' := Account.set_balance _ recipient).
  eexists. split; [reflexivity |]. split.
  - rewrite get_commit_other; [| simpl; congruence].
    apply (get_commit db account account'). exact Hsrc.
  - apply (get_commit (AccountService.commit account' db) recipient recipient').
    exact Hread.
Qed.

(** A transfer to the source's own account number writes one row twice: the
    debit and the credit cancel. *)
Example transfer_to_self :
  exists db',
    TransactionService._process_transfer Sample.new_owner Sample.now
      (Transaction.mk 4 "ref-4" 7 1 TRANSFER PENDING 200 "USD" (Some "100000000001")
                      None 0 Sample.now None None)
      Sample.checking
    = (Ok (TransactionService.completed Sample.now
             (Transaction.mk 4 "ref-4" 7 1 TRANSFER PENDING 200 "USD"
                             (Some "100000000001") None 0 Sample.now None None)), db')
    /\ (Account.balance <$> AccountService.get db' 1) = Some 1200%Q.
Proof.
  eexists. split; [vm_compute; reflexivity | reflexivity].
Qed.

Lemma transaction_get_commit (db : Session.t) (transaction transaction' : Transaction.t) :
  In transaction (Session.transactions db) ->
  Transaction.id transaction' = Transaction.id transaction ->
  exists stored,
    services_transaction.get (services_transaction.commit transaction' db)
                             (Transaction.id transaction) = Some stored
    /\ stored = transaction'.
Proof.
  intros Hin Hid. exists transaction'. split; [| reflexivity].
  unfold services_transaction.get, services_transaction.commit. simpl.
  rewrite Hid.
  induction (Session.transactions db) as [| r rs IH]; simpl; [contradiction |].
  destruct (Transaction.id r =? Transaction.id transaction) eqn:E.
  - rewrite Hid, Z.eqb_refl. reflexivity.
  - rewrite E. apply IH. destruct Hin as [-> | Hin]; [lia | exact Hin].
Qed.



(** C3 (as amended).  On the caller's Active account, creating a withdrawal
    fails with the withdrawal-limit error exactly when the amount exceeds
    the withdrawal limit, and creating a transfer fails with the
    daily-limit error exactly when the amounts of all of the account's
    transfers created since midnight, whatever their status, plus the
    candidate amount exceed the daily transfer limit. *)
Theorem limits_exact (db : Session.t) (now new_id : Z) (reference_id : string)
    (transaction_data : TransactionCreate.t) (user_id : Z)
    (device_info : DeviceInfo.t) (account : Account.t) :
  owned_account db (TransactionCreate.account_id transaction_data) user_id = Some account ->
  Account.status account = ACTIVE ->
  (TransactionCreate.type transaction_data = WITHDRAWAL ->
     (fst (TransactionService.create_transaction db now new_id reference_id
             transaction_data user_id device_info)
      = Raise (WithdrawalLimitExceeded account)
      <-> (Account.withdrawal_limit account
           < TransactionCreate.amount transaction_data)%Q))
  /\ (TransactionCreate.type transaction_data = TRANSFER ->
      (fst (TransactionService.create_transaction db now new_id reference_id
              transaction_data user_id device_info)
       = Raise (TransferLimitExceeded account)
       <-> (Account.daily_transfer_limit account
            < sumQ (map Transaction.amount (today_transfers db now account))
              + TransactionCreate.amount transaction_data)%Q)).
Proof.
  intros Hfind Hactive. unfold owned_account in Hfind.
  unfold TransactionService.create_transaction. rewrite Hfind.
  rewrite (bool_decide_eq_true_2 _ Hactive). simpl negb. cbv iota.
  unfold TransactionService._validate_transaction_limits.
  cbn [Transaction.type Transaction.amount].
  fold (today_transfers db now account).
  split; intros Htype; rewrite Htype; simpl bool_decide; cbv iota.
  - unfold Qgtb.
    destruct (Qltb (Account.withdrawal_limit account)
                   (TransactionCreate.amount transaction_data)) eqn:E.
    + simpl. apply Qltb_lt in E. split; [intros _; exact E | reflexivity].
    + simpl. apply Qltb_ge in E.
      unfold TransactionService._process_withdrawal.
      destruct (Qltb _ _); simpl; (split; [discriminate | intros H; lra]).
  - simpl bind. unfold Qgtb.
    destruct (Qltb (Account.daily_transfer_limit account) _) eqn:E.
    + simpl. apply Qltb_lt in E. split; [intros _; exact E | reflexivity].
    + apply Qltb_ge in E.
      unfold TransactionService._process_transfer.
      destruct (Qltb _ _); [simpl; split; [discriminate | intros H; lra] |].
      destruct (TransactionService.get_by_account_number _ _) as [r |];
        [| simpl; split; [discriminate | intros H; lra]].
      destruct (negb _); simpl; (split; [discriminate | intros H; lra]).
Qed.

Lemma limits_exact_witness :
  fst (TransactionService.create_transaction Sample2.db Sample.now 3 "ref-3"
         (TransactionCreate.mk 1 1100 TRANSFER (Some "100000000002")) 7
         Sample.device_info)
  = Raise (TransferLimitExceeded Sample.checking)
  <-> (10000 < sumQ (map Transaction.amount
                         (today_transfers Sample2.db Sample.now Sample.checking))
               + 1100)%Q.
Proof.
  apply (limits_exact Sample2.db Sample.now 3 "ref-3"
           (TransactionCreate.mk 1 1100 TRANSFER (Some "100000000002")) 7
           Sample.device_info Sample.checking);
    reflexivity.
Defined.

(** A transfer of 9000 that failed today counts toward the daily limit of
    10000: a further transfer of 1100 is refused, although no completed
    transfer exists. *)
Lemma failed_transfer_counts :
  fst (TransactionService.create_transaction Sample2.db Sample.now 3 "ref-3"
         (TransactionCreate.mk 1 1100 TRANSFER (Some "100000000002")) 7
         Sample.device_info)
  = Raise (TransferLimitExceeded Sample.checking)
  /\ today_completed_transfers Sample2.db Sample.now Sample.checking = []
  /\ ~ (Account.daily_transfer_limit Sample.checking
        < sumQ (map Transaction.amount
                    (today_completed_transfers Sample2.db Sample.now Sample.checking))
          + 1100)%Q.
Proof.
  split; [reflexivity |]. split; [reflexivity |].
  vm_compute. discriminate.
Qed.

(** ** Settlement by type on the two paths *)

(** The creation path settles nothing for the types its dispatch does not
    name: the row is stored Pending, unprocessed, and no account changes. *)
Lemma create_transaction_unsettled (db : Session.t) (now new_id : Z)
    (reference_id : string) (transaction_data : TransactionCreate.t) (user_id : Z)
    (device_info : DeviceInfo.t) (account : Account.t) :
  owned_account db (TransactionCreate.account_id transaction_data) user_id = Some account ->
  Account.status account = ACTIVE ->
  TransactionCreate.type transaction_data <> WITHDRAWAL ->
  TransactionCreate.type transaction_data <> DEPOSIT ->
  TransactionCreate.type transaction_data <> TRANSFER ->
  exists transaction db',
    TransactionService.create_transaction db now new_id reference_id transaction_data
      user_id device_info = (Ok transaction, db')
    /\ Transaction.status transaction = PENDING
    /\ Transaction.processed_at transaction = None
    /\ Session.accounts db' = Session.accounts db.
Proof.
  intros Hfind Hactive Hw Hd Ht. unfold owned_account in Hfind.
  unfold TransactionService.create_transaction. rewrite Hfind.
  rewrite (bool_decide_eq_true_2 _ Hactive). simpl negb. cbv iota.
  unfold TransactionService._validate_transaction_limits.
  cbn [Transaction.type].
  rewrite (bool_decide_eq_false_2 _ Hw), (bool_decide_eq_false_2 _ Ht). simpl bind.
  cbv iota.
  destruct (TransactionCreate.type transaction_data); try contradiction;
    eexists; eexists; (split; [reflexivity |]); (split; [| split]); reflexivity.
Qed.

(** The creation path does settle withdrawals and deposits: the caller's
    account row is rewritten with the balance moved by the amount and the
    transaction is Completed at [now]. *)
Lemma create_transaction_settles (db : Session.t) (now new_id : Z)
    (reference_id : string) (transaction_data : TransactionCreate.t) (user_id : Z)
    (device_info : DeviceInfo.t) (account : Account.t) :
  owned_account db (TransactionCreate.account_id transaction_data) user_id = Some account ->
  Account.status account = ACTIVE ->
  let amount := TransactionCreate.amount transaction_data in
  (TransactionCreate.type transaction_data = WITHDRAWAL ->
     (amount <= Account.withdrawal_limit account)%Q ->
     (amount <= Account.balance account)%Q ->
     exists transaction db',
       TransactionService.create_transaction db now new_id reference_id
         transaction_data user_id device_info = (Ok transaction, db')
       /\ Transaction.status transaction = COMPLETED
       /\ Transaction.processed_at transaction = Some now
       /\ Session.accounts db'
          = Session.accounts
              (AccountService.commit
                 (Account.set_balance (Account.balance account - amount)%Q account) db))
  /\ (TransactionCreate.type transaction_data = DEPOSIT ->
      exists transaction db',
        TransactionService.create_transaction db now new_id reference_id
          transaction_data user_id device_info = (Ok transaction, db')
        /\ Transaction.status transaction = COMPLETED
        /\ Transaction.processed_at transaction = Some now
        /\ Session.accounts db'
           = Session.accounts
               (AccountService.commit
                  (Account.set_balance (Account.balance account + amount)%Q account) db)).
Proof.
  intros Hfind Hactive amount. unfold owned_account in Hfind.
  unfold TransactionService.create_transaction. rewrite Hfind.
  rewrite (bool_decide_eq_true_2 _ Hactive). simpl negb. cbv iota.
  unfold TransactionService._validate_transaction_limits.
  cbn [Transaction.type Transaction.amount].
  split; intros Htype; rewrite Htype; simpl bool_decide; cbv iota.
  - intros Hlimit Hfunds. unfold Qgtb.
    apply Qltb_ge in Hlimit. fold amount. rewrite Hlimit. simpl bind. cbv iota.
    unfold TransactionService._process_withdrawal. cbn [Transaction.amount].
    apply Qltb_ge in Hfunds. fold amount. rewrite Hfunds.
    eexists. eexists. split; [reflexivity |]. split; [| split]; reflexivity.
  - simpl bind. cbv iota.
    eexists. eexists. split; [reflexivity |]. split; [| split]; reflexivity.
Qed.

(** [process_transaction] settles every type: withdrawals, transfers and
    payments debit the account, every other type credits it, and on success
    the row is Completed with its processed timestamp. *)
Lemma process_transaction_settles (db : Session.t) (now transaction_id : Z)
    (risk_score : Q) (transaction : Transaction.t) (account : Account.t) :
  services_transaction.get db transaction_id = Some transaction ->
  AccountService.get db (Transaction.account_id transaction) = Some account ->
  let amount := Transaction.amount transaction in
  let debit :=
    match Transaction.type transaction with
    | WITHDRAWAL | TRANSFER | PAYMENT => true
    | _ => false
    end in
  (debit = true -> (amount <= Account.balance account)%Q) ->
  exists processed db',
    services_transaction.process_transaction db now transaction_id risk_score
    = (Ok processed, db')
    /\ Transaction.status processed = COMPLETED
    /\ Transaction.processed_at processed = Some now
    /\ Session.accounts db'
       = Session.accounts
           (AccountService.commit
              (Account.set_balance
                 (if debit then Account.balance account - amount
                  else Account.balance account + amount)%Q
                 account) db).
Proof.
  intros Ht Ha amount debit Hfunds.
  unfold services_transaction.process_transaction. rewrite Ht.
  unfold AccountService.update_balance. rewrite Ha. subst debit.
  destruct (Transaction.type transaction); simpl String.eqb; cbv iota;
    try (specialize (Hfunds eq_refl); apply Qltb_ge in Hfunds;
         fold amount; rewrite Hfunds);
    eexists; eexists; (split; [reflexivity |]); (split; [| split]); reflexivity.
Qed.

(** C4.  A payment sent through the creation path is stored Pending with no
    processed timestamp and the source balance is not debited, while
    [process_transaction] on the same payment debits the account and
    completes it. *)
Theorem payment_not_settled_on_creation :
  (exists transaction db',
     TransactionService.create_transaction Sample.new_owner Sample.now 2 "ref-2"
       (TransactionCreate.mk 1 50 PAYMENT None) 7 Sample.device_info
     = (Ok transaction, db')
     /\ Transaction.status transaction = PENDING
     /\ Transaction.processed_at transaction = None
     /\ Session.accounts db' = Session.accounts Sample.new_owner
     /\ (Account.balance <$> AccountService.get db' 1) = Some 1200%Q)
  /\ (exists transaction db',
        services_transaction.process_transaction Sample2.db Sample.now 2 0
        = (Ok transaction, db')
        /\ Transaction.status transaction = COMPLETED
        /\ Transaction.processed_at transaction = Some Sample.now
        /\ (Account.balance <$> AccountService.get db' 1) = Some 1150%Q).
Proof.
  split; eexists; eexists; (split; [vm_compute; reflexivity |]);
    repeat split; reflexivity.
Qed.

(** ** The rate limiter *)

Section RateLimiterFacts.
Import RateLimiter Governor.

Lemma _get_limit_min (path : string) : (5 <= fst (_get_limit path))%nat.
Proof.
  unfold _get_limit.
  destruct (String.prefix "/api/v1/auth" path); [simpl; lia |].
  destruct (String.prefix "/api/v1/transactions" path); [simpl; lia |].
  destruct (contains path "high-value"); simpl; lia.
Qed.

Lemma check_development (self : t) (client_ip path : string) (current_time : Q) :
  check_rate_limit "development" self client_ip path current_time = (Ok tt, self).
Proof. reflexivity. Qed.

Lemma check_in_cooldown (ENVIRONMENT : string) (self : t) (client_ip path : string)
    (current_time block_time : Q) :
  ENVIRONMENT <> "development"%string ->
  blocked_ips self !! client_ip = Some block_time ->
  (current_time - block_time < 3600)%Q ->
  check_rate_limit ENVIRONMENT self client_ip path current_time
  = (Raise (HTTPException 429
              (MsgBlockedUntil "Too many requests. Please try again later."
                               (block_time + 3600))),
     self).
Proof.
  intros Henv Hb Ht. unfold check_rate_limit.
  apply String.eqb_neq in Henv. rewrite Henv, Hb.
  apply Qltb_lt in Ht. rewrite Ht. reflexivity.
Qed.

(** Outside a cool-down the request goes on to the window check, on the
    limiter with an expired block entry removed. *)
Lemma check_past_cooldown (ENVIRONMENT : string) (self : t) (client_ip path : string)
    (current_time : Q) (max_requests : nat) (window : Z) :
  ENVIRONMENT <> "development"%string ->
  ~ in_cooldown self client_ip current_time ->
  _get_limit path = (max_requests, window) ->
  exists blocked',
    (forall ip, ip <> client_ip -> blocked' !! ip = blocked_ips self !! ip)
    /\ check_rate_limit ENVIRONMENT self client_ip path current_time
       = let retained := in_window self client_ip window current_time in
         let requests' := <[client_ip := retained]> (requests self) in
         if (max_requests <=? length retained)%nat then
           if (max_requests * 2 <=? length retained)%nat then
             (Raise (HTTPException 429
                       (MsgBlockedUntil "Rate limit exceeded. Your IP has been blocked."
                                        (current_time + 3600))),
              mk requests' (<[client_ip := current_time]> blocked'))
           else
             (Raise (RateLimited (inject_Z window - (current_time - hd 0%Q retained))),
              mk requests' blocked')
         else
           (Ok tt, mk (<[client_ip := retained ++ [current_time]]> requests') blocked').
Proof.
  intros Henv Hcool Hlim. unfold check_rate_limit.
  apply String.eqb_neq in Henv. rewrite Henv.
  destruct (blocked_ips self !! client_ip) as [block_time |] eqn:Hb.
  - destruct (Qltb (current_time - block_time) 3600) eqn:Ht.
    + exfalso. apply Hcool. exists block_time. split; [exact Hb |].
      apply Qltb_lt. exact Ht.
    + exists (delete client_ip (blocked_ips self)). split.
      * intros ip Hne. apply lookup_delete_ne. congruence.
      * rewrite Hlim. reflexivity.
  - exists (blocked_ips self). split; [reflexivity |].
    rewrite Hlim. destruct self. reflexivity.
Qed.

Lemma cleanup_requests_of (self : t) (current_time : Q) (client_ip : string) :
  requests_of (cleanup_pass self current_time) client_ip
  = List.filter (within current_time 3600) (requests_of self client_ip).
Proof.
  unfold requests_of, cleanup_pass. simpl. rewrite lookup_omap.
  destruct (requests self !! client_ip) as [reqs |]; simpl; [| reflexivity].
  destruct (List.filter _ reqs); reflexivity.
Qed.

Lemma cleanup_blocked (self : t) (current_time : Q) (client_ip : string) (block_time : Q) :
  blocked_ips self !! client_ip = Some block_time ->
  (current_time - block_time < 3600)%Q ->
  blocked_ips (cleanup_pass self current_time) !! client_ip = Some block_time.
Proof.
  intros Hb Ht. unfold cleanup_pass. simpl. rewrite lookup_omap, Hb. simpl.
  assert (Qgtb (current_time - block_time) 3600 = false) as ->; [| reflexivity].
  apply Qltb_ge. lra.
Qed.

Lemma run_development (evs : list event) : run "development" __init__ evs = __init__.
Proof.
  unfold run. induction evs as [| ev evs IH]; [reflexivity |].
  simpl. destruct ev as [ip path t | t]; simpl; [exact IH |].
  unfold cleanup_pass, __init__. simpl. rewrite !omap_empty. exact IH.
Qed.

Ltac check_cases self client_ip :=
  unfold check_rate_limit;
  destruct (blocked_ips self !! client_ip);
  repeat match goal with
         | |- context [String.eqb ?a ?b] => destruct (String.eqb a b)
         | |- context [Qltb ?a ?b] => destruct (Qltb a b)
         | |- context [_get_limit ?p] => destruct (_get_limit p)
         | |- context [(?a <=? ?b)%nat] => destruct (a <=? b)%nat
         end;
  simpl.

Lemma check_blocked_other (ENVIRONMENT : string) (self : t) (client_ip path : string)
    (current_time : Q) (ip : string) :
  ip <> client_ip ->
  blocked_ips (snd (check_rate_limit ENVIRONMENT self client_ip path current_time)) !! ip
  = blocked_ips self !! ip.
Proof.
  intros Hne. check_cases self client_ip;
    rewrite ?lookup_insert_ne, ?lookup_delete_ne by congruence; reflexivity.
Qed.

Lemma check_requests_other (ENVIRONMENT : string) (self : t) (client_ip path : string)
    (current_time : Q) (ip : string) :
  ip <> client_ip ->
  requests_of (snd (check_rate_limit ENVIRONMENT self client_ip path current_time)) ip
  = requests_of self ip.
Proof.
  intros Hne. unfold requests_of. check_cases self client_ip;
    rewrite ?lookup_insert_ne by congruence; reflexivity.
Qed.

Lemma step_keeps_block (ENVIRONMENT : string) (self : t) (client_ip : string)
    (block_time : Q) (ev : event) :
  blocked_ips self !! client_ip = Some block_time ->
  (event_time ev - block_time < 3600)%Q ->
  blocked_ips (step ENVIRONMENT self ev) !! client_ip = Some block_time.
Proof.
  intros Hb Ht. destruct ev as [ip path t | t]; simpl in *.
  - destruct (decide (client_ip = ip)) as [<- | Hne].
    + destruct (decide (ENVIRONMENT = "development"%string)) as [-> | Henv].
      * exact Hb.
      * rewrite (check_in_cooldown _ _ _ _ _ _ Henv Hb Ht). exact Hb.
    + rewrite check_blocked_other by exact Hne. exact Hb.
  - apply cleanup_blocked; assumption.
Qed.

Lemma run_keeps_block (ENVIRONMENT : string) (evs : list event) (self : t)
    (client_ip : string) (block_time : Q) :
  blocked_ips self !! client_ip = Some block_time ->
  Forall (fun ev => event_time ev - block_time < 3600)%Q evs ->
  blocked_ips (run ENVIRONMENT self evs) !! client_ip = Some block_time.
Proof.
  unfold run. revert self. induction evs as [| ev evs IH]; intros self Hb Hall.
  - exact Hb.
  - simpl. apply IH.
    + apply step_keeps_block; [exact Hb | exact (Forall_inv Hall)].
    + exact (Forall_inv_tail Hall).
Qed.

(** What a request does to its own client's recorded list. *)
Lemma check_requests_self (ENVIRONMENT : string) (self : t) (client_ip path : string)
    (current_time : Q) :
  let '(answer, self') :=
    check_rate_limit ENVIRONMENT self client_ip path current_time in
  let retained :=
    in_window self client_ip (snd (_get_limit path)) current_time in
  match answer with
  | Raise _ =>
    requests_of self' client_ip = requests_of self client_ip
    \/ requests_of self' client_ip = retained
  | Ok _ =>
    (ENVIRONMENT = "development"%string /\ self' = self)
    \/ (requests_of self' client_ip = retained ++ [current_time]
        /\ (length retained < fst (_get_limit path))%nat)
  end.
Proof.
  unfold check_rate_limit, in_window.
  destruct (String.eqb ENVIRONMENT "development") eqn:Henv.
  - left. apply String.eqb_eq in Henv. split; [exact Henv | reflexivity].
  - destruct (blocked_ips self !! client_ip) as [block_time |];
      [destruct (Qltb (current_time - block_time) 3600); [left; reflexivity |] |];
      destruct (_get_limit path) as [max_requests window];
      cbn [fst snd requests blocked_ips];
      (destruct (max_requests <=? _)%nat eqn:Emax;
       [destruct (max_requests * 2 <=? _)%nat;
        right; unfold requests_of; simpl; rewrite lookup_insert_eq; reflexivity
       | right; unfold requests_of at 1; simpl; rewrite lookup_insert_eq;
         split; [reflexivity | apply Nat.leb_gt in Emax; exact Emax]]).
Qed.

Lemma step_bound (ENVIRONMENT : string) (self : t) (client_ip : string)
    (lim : nat * Z) (ev : event) :
  same_class client_ip lim ev ->
  (length (requests_of self client_ip) <= fst lim)%nat ->
  (length (requests_of (step ENVIRONMENT self ev) client_ip) <= fst lim)%nat.
Proof.
  intros Hclass Hlen. destruct ev as [ip path t | t]; simpl in *.
  - destruct (decide (client_ip = ip)) as [<- | Hne].
    + specialize (Hclass eq_refl).
      pose proof (check_requests_self ENVIRONMENT self client_ip path t) as H.
      destruct (check_rate_limit ENVIRONMENT self client_ip path t) as [answer self'].
      rewrite Hclass in H. simpl in *.
      pose proof (filter_length_le (within t (inject_Z (snd lim)))
                    (requests_of self client_ip)) as Hf.
      unfold in_window in H.
      destruct answer as [[] | e].
      * destruct H as [[_ ->] | [-> Hlt]]; [exact Hlen |].
        rewrite length_app. simpl. lia.
      * destruct H as [-> | ->]; lia.
    + rewrite check_requests_other by exact Hne. exact Hlen.
  - rewrite cleanup_requests_of.
    pose proof (filter_length_le (within t 3600) (requests_of self client_ip)). lia.
Qed.

Lemma run_bound (ENVIRONMENT : string) (evs : list event) (self : t)
    (client_ip : string) (lim : nat * Z) :
  Forall (same_class client_ip lim) evs ->
  (length (requests_of self client_ip) <= fst lim)%nat ->
  (length (requests_of (run ENVIRONMENT self evs) client_ip) <= fst lim)%nat.
Proof.
  unfold run. revert self. induction evs as [| ev evs IH]; intros self Hall Hlen.
  - exact Hlen.
  - simpl. apply IH; [exact (Forall_inv_tail Hall) |].
    apply step_bound; [exact (Forall_inv Hall) | exact Hlen].
Qed.

(** *** Timestamps under a non-decreasing clock *)

Lemma Forall_filter_keep {A} (P : A -> Prop) (f : A -> bool) (l : list A) :
  Forall P l -> Forall P (List.filter f l).
Proof.
  induction 1 as [| x l Hx Hl IH]; simpl; [constructor |].
  destruct (f x); [constructor; assumption | exact IH].
Qed.

Lemma ascending_filter (f : Q -> bool) (l : list Q) :
  ascending l -> ascending (List.filter f l).
Proof.
  induction l as [| x l IH]; simpl; [trivial |].
  intros [Hx Hl]. destruct (f x); simpl.
  - split; [apply Forall_filter_keep; exact Hx | apply IH; exact Hl].
  - apply IH; exact Hl.
Qed.

Lemma ascending_snoc (l : list Q) (x : Q) :
  ascending l -> Forall (fun t => t <= x)%Q l -> ascending (l ++ [x]).
Proof.
  induction l as [| y l IH]; simpl.
  - intros _ _. split; [constructor | trivial].
  - intros [Hy Hl] Hall. split.
    + apply Forall_app. split; [exact Hy |].
      constructor; [exact (Forall_inv Hall) | constructor].
    + apply IH; [exact Hl | exact (Forall_inv_tail Hall)].
Qed.

Lemma ascending_hd (l : list Q) : ascending l -> Forall (Qle (hd 0%Q l)) l.
Proof.
  destruct l as [| x l]; simpl; [constructor |].
  intros [Hx _]. constructor; [apply Qle_refl | exact Hx].
Qed.

Lemma Forall_le_weaken (l : list Q) (T T' : Q) :
  (T <= T')%Q -> Forall (fun t => t <= T)%Q l -> Forall (fun t => t <= T')%Q l.
Proof.
  intros HT H. eapply Forall_impl; [exact H |]. intros t Ht. simpl in Ht. lra.
Qed.

Lemma step_stamped (ENVIRONMENT : string) (self : t) (client_ip : string) (T : Q)
    (ev : event) :
  stamped self client_ip T ->
  (T <= event_time ev)%Q ->
  stamped (step ENVIRONMENT self ev) client_ip (event_time ev).
Proof.
  intros [Hasc Hle] HT. destruct ev as [ip path t | t]; simpl in *.
  - destruct (decide (client_ip = ip)) as [<- | Hne].
    + pose proof (check_requests_self ENVIRONMENT self client_ip path t) as H.
      destruct (check_rate_limit ENVIRONMENT self client_ip path t) as [answer self'].
      unfold in_window in H. simpl.
      set (retained := List.filter _ (requests_of self client_ip)) in H.
      assert (Hr : ascending retained /\ Forall (fun x => x <= t)%Q retained).
      { split; [apply ascending_filter; exact Hasc |].
        apply Forall_filter_keep. apply (Forall_le_weaken _ T); assumption. }
      unfold stamped.
      destruct answer as [[] | e].
      * destruct H as [[_ ->] | [-> _]].
        -- split; [exact Hasc | apply (Forall_le_weaken _ T); assumption].
        -- destruct Hr as [Hra Hrl]. split.
           ++ apply ascending_snoc; assumption.
           ++ apply Forall_app. split; [exact Hrl |].
              constructor; [apply Qle_refl | constructor].
      * destruct H as [-> | ->]; [| exact Hr].
        split; [exact Hasc | apply (Forall_le_weaken _ T); assumption].
    + unfold stamped. rewrite check_requests_other by exact Hne.
      split; [exact Hasc | apply (Forall_le_weaken _ T); assumption].
  - unfold stamped. rewrite cleanup_requests_of. split.
    + apply ascending_filter; exact Hasc.
    + apply Forall_filter_keep. apply (Forall_le_weaken _ T); assumption.
Qed.

Lemma run_stamped (ENVIRONMENT : string) (evs : list event) (self : t)
    (client_ip : string) (T : Q) :
  stamped self client_ip T ->
  Forall (Qle T) (map event_time evs) ->
  ascending (map event_time evs) ->
  ascending (requests_of (run ENVIRONMENT self evs) client_ip).
Proof.
  unfold run. revert self T. induction evs as [| ev evs IH]; intros self T Hs Hall Hasc.
  - exact (proj1 Hs).
  - simpl in *. destruct Hasc as [Hev Hasc].
    apply (IH _ (event_time ev)); [| exact Hev | exact Hasc].
    apply (step_stamped _ _ _ T); [exact Hs | exact (Forall_inv Hall)].
Qed.

Lemma run_ascending (ENVIRONMENT : string) (evs : list event) (client_ip : string) :
  ascending (map event_time evs) ->
  ascending (requests_of (run ENVIRONMENT __init__ evs) client_ip).
Proof.
  intros Hasc. destruct evs as [| ev evs]; [exact I |].
  apply (run_stamped _ _ _ _ (event_time ev)).
  - split; [exact I | constructor].
  - simpl in *. constructor; [apply Qle_refl | exact (proj1 Hasc)].
  - exact Hasc.
Qed.

Lemma in_cooldown_dec (self : t) (client_ip : string) (current_time : Q) :
  in_cooldown self client_ip current_time \/ ~ in_cooldown self client_ip current_time.
Proof.
  unfold in_cooldown.
  destruct (blocked_ips self !! client_ip) as [block_time |] eqn:Hb.
  - destruct (Qlt_le_dec (current_time - block_time) 3600) as [Ht | Ht].
    + left. exists block_time. split; [reflexivity | exact Ht].
    + right. intros (b & Eb & Hlt). inversion Eb; subst b. lra.
  - right. intros (b & Eb & _). discriminate.
Qed.

(** A client on the block list is answered Blocked, whatever the route and
    whatever its window holds, until the hour has elapsed. *)
Lemma blocked_for_an_hour (ENVIRONMENT : string) (self : t) (client_ip : string)
    (block_time : Q) (evs : list event) (path : string) (current_time : Q) :
  ENVIRONMENT <> "development"%string ->
  blocked_ips self !! client_ip = Some block_time ->
  Forall (fun ev => event_time ev < block_time + 3600)%Q evs ->
  (current_time < block_time + 3600)%Q ->
  exists e,
    check_rate_limit ENVIRONMENT (run ENVIRONMENT self evs) client_ip path current_time
    = (Raise e, run ENVIRONMENT self evs)
    /\ Blocked (block_time + 3600) e.
Proof.
  intros Henv Hb Hall Ht.
  assert (Hb' : blocked_ips (run ENVIRONMENT self evs) !! client_ip = Some block_time).
  { apply run_keeps_block; [exact Hb |].
    eapply Forall_impl; [exact Hall |]. intros ev Hev. simpl in Hev. lra. }
  eexists. split.
  - apply check_in_cooldown; [exact Henv | exact Hb' | lra].
  - eexists. reflexivity.
Qed.

(** C2.  On a limiter reached from start-up by any trace of requests and
    clean-up passes: when the client's in-window count has reached the
    route's limit the request is rejected.  Outside a cool-down and below
    twice the limit the answer is RateLimited with retry-after = window -
    (now - first retained stamp), the first retained stamp being the oldest
    under a non-decreasing clock.  At twice the limit the client is put on
    the block list and answered Blocked, and so is every later request of
    that client, on any route and after any further traffic, for the next
    3600 seconds.  A client already in cool-down is answered Blocked. *)
Theorem rate_limit_and_block (ENVIRONMENT : string) (evs : list event)
    (client_ip path : string) (current_time : Q) (max_requests : nat) (window : Z) :
  _get_limit path = (max_requests, window) ->
  (max_requests
   <= length (in_window (run ENVIRONMENT __init__ evs) client_ip window current_time))%nat ->
  let self := run ENVIRONMENT __init__ evs in
  let retained := in_window self client_ip window current_time in
  exists e self',
    check_rate_limit ENVIRONMENT self client_ip path current_time = (Raise e, self')
    /\ (~ in_cooldown self client_ip current_time ->
        (length retained < max_requests * 2)%nat ->
        e = RateLimited (inject_Z window - (current_time - hd 0%Q retained))
        /\ (ascending (map event_time evs) -> Forall (Qle (hd 0%Q retained)) retained))
    /\ (~ in_cooldown self client_ip current_time ->
        (max_requests * 2 <= length retained)%nat ->
        Blocked (current_time + 3600) e
        /\ forall (later : list event) (path' : string) (current_time' : Q),
             Forall (fun ev => event_time ev < current_time + 3600)%Q later ->
             (current_time' < current_time + 3600)%Q ->
             exists e',
               fst (check_rate_limit ENVIRONMENT (run ENVIRONMENT self' later)
                                     client_ip path' current_time')
               = Raise e'
               /\ Blocked (current_time + 3600) e')
    /\ (in_cooldown self client_ip current_time ->
        exists blocked_until, Blocked blocked_until e).
Proof.
  intros Hlim Hmax self retained.
  destruct (decide (ENVIRONMENT = "development"%string)) as [-> | Henv].
  { exfalso. unfold in_window in Hmax. rewrite run_development in Hmax.
    pose proof (_get_limit_min path) as Hmin. rewrite Hlim in Hmin.
    unfold requests_of, __init__ in Hmax. simpl in Hmax.
    rewrite lookup_empty in Hmax. simpl in *. lia. }
  destruct (in_cooldown_dec self client_ip current_time) as [Hcool | Hcool].
  - destruct Hcool as (block_time & Hb & Ht).
    rewrite (check_in_cooldown _ _ _ _ _ _ Henv Hb Ht).
    eexists. eexists. split; [reflexivity |].
    assert (Hin : in_cooldown self client_ip current_time)
      by (exists block_time; split; assumption).
    split; [intros Hn; contradiction |].
    split; [intros Hn; contradiction |].
    intros _. eexists. eexists. reflexivity.
  - destruct (check_past_cooldown _ _ _ _ _ _ _ Henv Hcool Hlim) as (blocked' & _ & ->).
    fold retained. cbv zeta.
    apply Nat.leb_le in Hmax. fold self in Hmax. fold retained in Hmax. rewrite Hmax.
    destruct (max_requests * 2 <=? length retained)%nat eqn:E2.
    + apply Nat.leb_le in E2.
      eexists. eexists. split; [reflexivity |].
      split; [intros _ Hlt; lia |].
      split; [| intros Hin; contradiction].
      intros _ _. split; [eexists; reflexivity |].
      intros later path' current_time' Hlater Ht'.
      edestruct (blocked_for_an_hour ENVIRONMENT) as (e' & -> & He');
        [exact Henv | | exact Hlater | exact Ht' | ].
      * simpl. apply lookup_insert_eq.
      * exists e'. split; [reflexivity | exact He'].
    + apply Nat.leb_gt in E2.
      eexists. eexists. split; [reflexivity |].
      split; [| split; [intros _ Hge; lia | intros Hin; contradiction]].
      intros _ _. split; [reflexivity |].
      intros Hclock. apply ascending_hd. apply ascending_filter.
      apply run_ascending. exact Hclock.
Qed.

Lemma rate_limit_and_block_witness :
  let self := run "production" __init__ mixed in
  let retained := in_window self "198.51.100.4" 60 30 in
  exists e self',
    check_rate_limit "production" self "198.51.100.4" "/api/v1/auth/login" 30
    = (Raise e, self')
    /\ (~ in_cooldown self "198.51.100.4" 30 ->
        (length retained < 5 * 2)%nat ->
        e = RateLimited (inject_Z 60 - (30 - hd 0%Q retained))
        /\ (ascending (map event_time mixed) -> Forall (Qle (hd 0%Q retained)) retained))
    /\ (~ in_cooldown self "198.51.100.4" 30 ->
        (5 * 2 <= length retained)%nat ->
        Blocked (30 + 3600) e
        /\ forall (later : list event) (path' : string) (current_time' : Q),
             Forall (fun ev => event_time ev < 30 + 3600)%Q later ->
             (current_time' < 30 + 3600)%Q ->
             exists e',
               fst (check_rate_limit "production" (run "production" self' later)
                                     "198.51.100.4" path' current_time')
               = Raise e'
               /\ Blocked (30 + 3600) e')
    /\ (in_cooldown self "198.51.100.4" 30 ->
        exists blocked_until, Blocked blocked_until e).
Proof.
  apply (rate_limit_and_block "production" mixed "198.51.100.4" "/api/v1/auth/login"
           30 5 60).
  - reflexivity.
  - vm_compute. lia.
Defined.

(** C10.  A rejected request leaves its client's recorded list as it was or
    as the purge left it, and the timestamp is appended only on admission.
    So, from start-up, for a client all of whose requests are on routes of
    one limit, the recorded list, and with it the in-window count at any
    time and for any window, never holds more than that limit. *)
Theorem rejected_not_recorded (ENVIRONMENT : string) (evs : list event)
    (client_ip : string) (lim : nat * Z) :
  Forall (same_class client_ip lim) evs ->
  (forall (self : t) (path : string) (current_time : Q),
     let '(answer, self') :=
       check_rate_limit ENVIRONMENT self client_ip path current_time in
     let retained := in_window self client_ip (snd (_get_limit path)) current_time in
     match answer with
     | Raise _ =>
       requests_of self' client_ip = requests_of self client_ip
       \/ requests_of self' client_ip = retained
     | Ok _ =>
       (ENVIRONMENT = "development"%string /\ self' = self)
       \/ (requests_of self' client_ip = retained ++ [current_time]
           /\ (length retained < fst (_get_limit path))%nat)
     end)
  /\ (length (requests_of (run ENVIRONMENT __init__ evs) client_ip) <= fst lim)%nat
  /\ (forall (window : Z) (current_time : Q),
        (length (in_window (run ENVIRONMENT __init__ evs) client_ip window current_time)
         <= fst lim)%nat).
Proof.
  intros Hclass.
  assert (Hbound :
            (length (requests_of (run ENVIRONMENT __init__ evs) client_ip) <= fst lim)%nat).
  { apply run_bound; [exact Hclass |].
    unfold requests_of, __init__. simpl. rewrite lookup_empty. simpl. lia. }
  split; [| split].
  - intros self path current_time. apply check_requests_self.
  - exact Hbound.
  - intros window current_time. unfold in_window.
    pose proof (filter_length_le (within current_time (inject_Z window))
                  (requests_of (run ENVIRONMENT __init__ evs) client_ip)).
    lia.
Qed.

Lemma rejected_not_recorded_witness :
  (length (requests_of (run "production" __init__ burst) "198.51.100.4") <= 20)%nat.
Proof.
  refine (proj1 (proj2 (rejected_not_recorded "production" burst "198.51.100.4"
                          (20%nat, 60) _))).
  unfold burst. simpl.
  repeat (apply Forall_cons; split; [intros _; reflexivity |]).
  apply Forall_nil. exact I.
Defined.

(** The twenty-first request of a minute to the transactions route is
    answered RateLimited, with 40 seconds to wait 20 seconds after the burst
    began. *)
Example twenty_first_request :
  let self := run "production" __init__
                  (repeat (Request "198.51.100.4" "/api/v1/transactions/" 10) 20) in
  length (requests_of self "198.51.100.4") = 20%nat
  /\ fst (check_rate_limit "production" self "198.51.100.4" "/api/v1/transactions/" 30)
     = Raise (RateLimited 40).
Proof. split; vm_compute; reflexivity. Qed.

(** In the development environment the limiter admits everything and
    records nothing. *)
Example development_bypass :
  run "development" __init__ burst = __init__
  /\ fst (check_rate_limit "development" (run "development" __init__ burst)
                           "198.51.100.4" "/api/v1/transactions/" 10) = Ok tt.
Proof. split; [apply run_development | reflexivity]. Qed.

End RateLimiterFacts.

(** * Further properties of the embedded code *)

(** ** The rate limiter: locality, clean-up, expiry, routes *)

Section RateLimiterMore.
Import RateLimiter Governor Governor2.

Lemma cooldown_view_in (self : t) (client_ip : string) (current_time block_time : Q) :
  cooldown_view self client_ip current_time = Some block_time <->
  blocked_ips self !! client_ip = Some block_time
  /\ (current_time - block_time < 3600)%Q.
Proof.
  unfold cooldown_view. destruct (blocked_ips self !! client_ip) as [b |].
  - destruct (Qltb (current_time - b) 3600) eqn:E.
    + apply Qltb_lt in E. split.
      * intros H. inversion H; subst. split; [reflexivity | exact E].
      * intros [H _]. exact H.
    + apply Qltb_ge in E. split; [discriminate |].
      intros [H Hlt]. inversion H; subst. lra.
  - split; [discriminate | intros [H _]; discriminate].
Qed.

(** The answer to a request, and what it leaves recorded for its client,
    depend on the limiter only through that client's cool-down and the
    stamps of that client inside the route's window. *)
Lemma check_local (ENVIRONMENT : string) (s1 s2 : t) (client_ip path : string)
    (current_time : Q) :
  cooldown_view s1 client_ip current_time = cooldown_view s2 client_ip current_time ->
  in_window s1 client_ip (snd (_get_limit path)) current_time
  = in_window s2 client_ip (snd (_get_limit path)) current_time ->
  fst (check_rate_limit ENVIRONMENT s1 client_ip path current_time)
  = fst (check_rate_limit ENVIRONMENT s2 client_ip path current_time).
Proof.
  unfold cooldown_view, in_window, check_rate_limit. intros Hc Hw.
  destruct (String.eqb ENVIRONMENT "development"); [reflexivity |].
  destruct (_get_limit path) as [max_requests window]. simpl in Hw.
  destruct (blocked_ips s1 !! client_ip) as [b1 |];
    destruct (blocked_ips s2 !! client_ip) as [b2 |];
    try destruct (Qltb (current_time - b1) 3600);
    try destruct (Qltb (current_time - b2) 3600);
    try discriminate;
    try (inversion Hc; subst; reflexivity);
    unfold requests_of in *; cbn [requests blocked_ips]; rewrite Hw;
    destruct (max_requests <=? _)%nat; try destruct (max_requests * 2 <=? _)%nat;
    reflexivity.
Qed.

Lemma run_other_clients (ENVIRONMENT : string) (evs : list event) (self : t)
    (client_ip : string) :
  Forall (other_client client_ip) evs ->
  blocked_ips (run ENVIRONMENT self evs) !! client_ip = blocked_ips self !! client_ip
  /\ requests_of (run ENVIRONMENT self evs) client_ip = requests_of self client_ip.
Proof.
  unfold run. revert self. induction evs as [| ev evs IH]; intros self Hall.
  - split; reflexivity.
  - simpl. destruct (IH (step ENVIRONMENT self ev) (Forall_inv_tail Hall)) as [Hb Hr].
    rewrite Hb, Hr. pose proof (Forall_inv Hall) as Hev.
    destruct ev as [ip path t | t]; simpl in *; [| contradiction].
    split; [apply check_blocked_other | apply check_requests_other]; congruence.
Qed.

(** X1.  Clients are independent: whatever requests other clients make in
    between, on any routes and at any times, the answer to a client's
    request is the one it would have got without them. *)
Theorem clients_independent (ENVIRONMENT : string) (self : t) (others : list event)
    (client_ip path : string) (current_time : Q) :
  Forall (other_client client_ip) others ->
  fst (check_rate_limit ENVIRONMENT (run ENVIRONMENT self others)
                        client_ip path current_time)
  = fst (check_rate_limit ENVIRONMENT self client_ip path current_time).
Proof.
  intros Hall. destruct (run_other_clients ENVIRONMENT others self client_ip Hall)
    as [Hb Hr].
  apply check_local.
  - unfold cooldown_view. rewrite Hb. reflexivity.
  - unfold in_window. rewrite Hr. reflexivity.
Qed.

Lemma clients_independent_witness :
  fst (check_rate_limit "production" (run "production" (run "production" __init__ mixed)
                                          neighbour)
                        "198.51.100.4" "/api/v1/users/me" 20)
  = fst (check_rate_limit "production" (run "production" __init__ mixed)
                          "198.51.100.4" "/api/v1/users/me" 20).
Proof.
  apply (clients_independent "production" (run "production" __init__ mixed) neighbour
           "198.51.100.4" "/api/v1/users/me" 20).
  unfold neighbour. simpl.
  repeat (apply Forall_cons; split; [discriminate |]).
  apply Forall_nil. exact I.
Defined.

Lemma _get_limit_window (path : string) : (inject_Z (snd (_get_limit path)) <= 300)%Q.
Proof.
  unfold _get_limit.
  destruct (String.prefix "/api/v1/auth" path); [discriminate |].
  destruct (String.prefix "/api/v1/transactions" path); [discriminate |].
  destruct (contains path "high-value"); simpl; discriminate.
Qed.

Lemma filter_filter_implied {A} (f g : A -> bool) (l : list A) :
  (forall x, f x = true -> g x = true) ->
  List.filter f (List.filter g l) = List.filter f l.
Proof.
  intros Himp. induction l as [| x l IH]; simpl; [reflexivity |].
  destruct (g x) eqn:Eg; simpl.
  - rewrite IH. reflexivity.
  - destruct (f x) eqn:Ef; [| exact IH].
    apply Himp in Ef. congruence.
Qed.

(** X2.  The background clean-up is invisible to clients: a request made
    at or after a clean-up pass gets the answer it would have got had the
    pass not run. *)
Theorem cleanup_transparent (ENVIRONMENT : string) (self : t) (cleanup_time : Q)
    (client_ip path : string) (current_time : Q) :
  (cleanup_time <= current_time)%Q ->
  fst (check_rate_limit ENVIRONMENT (cleanup_pass self cleanup_time)
                        client_ip path current_time)
  = fst (check_rate_limit ENVIRONMENT self client_ip path current_time).
Proof.
  intros Hle. apply check_local.
  - unfold cooldown_view, cleanup_pass. simpl. rewrite lookup_omap.
    destruct (blocked_ips self !! client_ip) as [b |]; simpl; [| reflexivity].
    unfold Qgtb. destruct (Qltb 3600 (cleanup_time - b)) eqn:E; simpl.
    + apply Qltb_lt in E.
      assert (Qltb (current_time - b) 3600 = false) as ->; [| reflexivity].
      apply Qltb_ge. lra.
    + reflexivity.
  - unfold in_window. rewrite cleanup_requests_of.
    apply filter_filter_implied. intros x Hx. unfold within in *.
    apply Qltb_lt in Hx. apply Qltb_lt.
    pose proof (_get_limit_window path). lra.
Qed.

Lemma cleanup_transparent_witness :
  fst (check_rate_limit "production"
         (cleanup_pass (run "production" __init__ burst) 4000)
         "198.51.100.4" "/api/v1/transactions/" 4000)
  = fst (check_rate_limit "production" (run "production" __init__ burst)
                          "198.51.100.4" "/api/v1/transactions/" 4000).
Proof.
  apply (cleanup_transparent "production" (run "production" __init__ burst) 4000
           "198.51.100.4" "/api/v1/transactions/" 4000).
  discriminate.
Defined.

(** X3.  What a clean-up pass leaves: no client with an empty list, no
    stamp an hour old or older, no block entry more than an hour old; and a
    client whose stamps are all an hour old or older has no entry at all. *)
Theorem cleanup_reclaims (self : t) (current_time : Q) (client_ip : string) :
  (forall stamps,
     requests (cleanup_pass self current_time) !! client_ip = Some stamps ->
     stamps <> [] /\ Forall (fun x => current_time - x < 3600)%Q stamps)
  /\ (forall block_time,
        blocked_ips (cleanup_pass self current_time) !! client_ip = Some block_time ->
        (current_time - block_time <= 3600)%Q)
  /\ (Forall (fun x => 3600 <= current_time - x)%Q (requests_of self client_ip) ->
      requests (cleanup_pass self current_time) !! client_ip = None).
Proof.
  unfold cleanup_pass, requests_of. simpl. rewrite !lookup_omap.
  split; [| split].
  - intros stamps. destruct (requests self !! client_ip) as [l |]; simpl; [| discriminate].
    destruct (List.filter (within current_time 3600) l) as [| y ys] eqn:E; [discriminate |].
    intros H. inversion H; subst stamps. split; [discriminate |].
    rewrite <- E. apply Forall_forall. intros x Hx.
    apply list_elem_of_In, filter_In in Hx as [_ Hx].
    apply Qltb_lt. exact Hx.
  - intros block_time. destruct (blocked_ips self !! client_ip) as [b |]; simpl;
      [| discriminate].
    destruct (Qgtb (current_time - b) 3600) eqn:E; [discriminate |].
    intros H. inversion H; subst b. apply Qltb_ge in E. exact E.
  - destruct (requests self !! client_ip) as [l |]; simpl; [| reflexivity].
    intros Hold.
    assert (List.filter (within current_time 3600) l = []) as ->; [| reflexivity].
    induction Hold as [| x l Hx Hl IH]; simpl; [reflexivity |].
    unfold within at 1. apply Qltb_ge in Hx. rewrite Hx. exact IH.
Qed.

(** *** Expiry of a block *)

Lemma check_outside_cooldown (ENVIRONMENT : string) (self : t) (client_ip path : string)
    (current_time : Q) (max_requests : nat) (window : Z) :
  ENVIRONMENT <> "development"%string ->
  ~ in_cooldown self client_ip current_time ->
  _get_limit path = (max_requests, window) ->
  exists blocked',
    blocked' !! client_ip = None
    /\ check_rate_limit ENVIRONMENT self client_ip path current_time
       = let retained := in_window self client_ip window current_time in
         let requests' := <[client_ip := retained]> (requests self) in
         if (max_requests <=? length retained)%nat then
           if (max_requests * 2 <=? length retained)%nat then
             (Raise (HTTPException 429
                       (MsgBlockedUntil "Rate limit exceeded. Your IP has been blocked."
                                        (current_time + 3600))),
              mk requests' (<[client_ip := current_time]> blocked'))
           else
             (Raise (RateLimited (inject_Z window - (current_time - hd 0%Q retained))),
              mk requests' blocked')
         else
           (Ok tt, mk (<[client_ip := retained ++ [current_time]]> requests') blocked').
Proof.
  intros Henv Hcool Hlim. unfold check_rate_limit.
  apply String.eqb_neq in Henv. rewrite Henv.
  destruct (blocked_ips self !! client_ip) as [block_time |] eqn:Hb.
  - destruct (Qltb (current_time - block_time) 3600) eqn:Ht.
    + exfalso. apply Hcool. exists block_time. split; [exact Hb |].
      apply Qltb_lt. exact Ht.
    + exists (delete client_ip (blocked_ips self)). split; [apply lookup_delete_eq |].
      rewrite Hlim. reflexivity.
  - exists (blocked_ips self). split; [exact Hb |].
    rewrite Hlim. destruct self. reflexivity.
Qed.

Lemma step_block_covers (ENVIRONMENT : string) (self : t) (client_ip : string) (T : Q)
    (ev : event) :
  stamped self client_ip T ->
  (T <= event_time ev)%Q ->
  block_covers self client_ip ->
  block_covers (step ENVIRONMENT self ev) client_ip.
Proof.
  intros [_ Hle] HT Hcov. destruct ev as [ip path now | now]; simpl in *.
  - destruct (decide (client_ip = ip)) as [<- | Hne].
    + destruct (decide (ENVIRONMENT = "development"%string)) as [-> | Henv];
        [exact Hcov |].
      destruct (in_cooldown_dec self client_ip now) as [(b & Hb & Ht) | Hcool].
      * rewrite (check_in_cooldown _ _ _ _ _ _ Henv Hb Ht). exact Hcov.
      * destruct (_get_limit path) as [max_requests window] eqn:Hlim.
        destruct (check_outside_cooldown _ _ _ _ _ _ _ Henv Hcool Hlim)
          as (blocked' & Hnone & ->).
        cbv zeta. unfold block_covers.
        destruct (max_requests <=? _)%nat; [destruct (max_requests * 2 <=? _)%nat |];
          simpl; intros block_time; rewrite ?lookup_insert_eq, ?Hnone; try discriminate.
        intros H. inversion H; subst block_time.
        unfold requests_of. simpl. rewrite lookup_insert_eq. simpl.
        unfold in_window. apply Forall_filter_keep.
        apply (Forall_le_weaken _ T); assumption.
    + unfold block_covers. rewrite check_blocked_other, check_requests_other by exact Hne.
      exact Hcov.
  - unfold block_covers. rewrite cleanup_requests_of.
    unfold cleanup_pass. simpl. rewrite lookup_omap.
    intros block_time. destruct (blocked_ips self !! client_ip) as [b |] eqn:Hb; simpl;
      [| discriminate].
    destruct (Qgtb (now - b) 3600); [discriminate |].
    intros H. inversion H; subst b. apply Forall_filter_keep. apply Hcov. exact Hb.
Qed.

Lemma run_block_covers (ENVIRONMENT : string) (evs : list event) (self : t)
    (client_ip : string) (T : Q) :
  stamped self client_ip T ->
  block_covers self client_ip ->
  Forall (Qle T) (map event_time evs) ->
  ascending (map event_time evs) ->
  block_covers (run ENVIRONMENT self evs) client_ip.
Proof.
  unfold run. revert self T.
  induction evs as [| ev evs IH]; intros self T Hs Hcov Hall Hasc.
  - exact Hcov.
  - simpl in *. destruct Hasc as [Hev Hasc].
    apply (IH _ (event_time ev)); [| | exact Hev | exact Hasc].
    + apply (step_stamped _ _ _ T); [exact Hs | exact (Forall_inv Hall)].
    + apply (step_block_covers _ _ _ T); [exact Hs | exact (Forall_inv Hall) | exact Hcov].
Qed.

(** X4.  After the hour the block lapses: on a limiter reached from
    start-up under a non-decreasing clock, the first request of a blocked
    client an hour or more after its block time is admitted on any route,
    its block entry is removed and its recorded list is that one stamp. *)
Theorem readmitted_after_an_hour (ENVIRONMENT : string) (evs : list event)
    (client_ip path : string) (current_time block_time : Q) :
  ENVIRONMENT <> "development"%string ->
  ascending (map event_time evs) ->
  blocked_ips (run ENVIRONMENT __init__ evs) !! client_ip = Some block_time ->
  (3600 <= current_time - block_time)%Q ->
  exists self',
    check_rate_limit ENVIRONMENT (run ENVIRONMENT __init__ evs)
                     client_ip path current_time = (Ok tt, self')
    /\ requests_of self' client_ip = [current_time]
    /\ blocked_ips self' !! client_ip = None.
Proof.
  intros Henv Hclock Hb Hexp.
  set (self := run ENVIRONMENT __init__ evs) in *.
  assert (Hcov : Forall (fun x => x <= block_time)%Q (requests_of self client_ip)).
  { assert (Hall : block_covers self client_ip); [| exact (Hall _ Hb)].
    subst self. destruct evs as [| ev evs].
    - intros b Hb'. unfold __init__ in Hb'. simpl in Hb'.
      rewrite lookup_empty in Hb'. discriminate.
    - apply (run_block_covers _ _ _ _ (event_time ev)).
      + split; unfold requests_of, __init__; simpl; rewrite lookup_empty;
          [exact I | constructor].
      + intros b Hb'. unfold __init__ in Hb'. simpl in Hb'.
        rewrite lookup_empty in Hb'. discriminate.
      + simpl in *. constructor; [apply Qle_refl | exact (proj1 Hclock)].
      + exact Hclock. }
  pose proof (_get_limit_min path) as Hmin.
  pose proof (_get_limit_window path) as Hwin.
  destruct (_get_limit path) as [max_requests window] eqn:Hlim. simpl in Hmin, Hwin.
  assert (Hcool : ~ in_cooldown self client_ip current_time).
  { intros (b & Hb' & Hlt). rewrite Hb in Hb'. inversion Hb'; subst b. lra. }
  destruct (check_outside_cooldown _ _ _ _ _ _ _ Henv Hcool Hlim)
    as (blocked' & Hnone & ->).
  assert (Hempty : in_window self client_ip window current_time = []).
  { unfold in_window. induction Hcov as [| x l Hx Hl IH]; simpl; [reflexivity |].
    unfold within at 1.
    assert (Qltb (current_time - x) (inject_Z window) = false) as ->; [| exact IH].
    apply Qltb_ge. lra. }
  rewrite Hempty. cbv zeta.
  assert ((max_requests <=? length (@nil Q))%nat = false) as ->
      by (apply Nat.leb_gt; simpl; lia).
  eexists. split; [reflexivity |]. split.
  - unfold requests_of. simpl. rewrite lookup_insert_eq. reflexivity.
  - exact Hnone.
Qed.

Ltac ascending_concrete :=
  simpl;
  repeat match goal with
         | |- _ /\ _ => split
         | |- Forall _ (_ :: _) => apply Forall_cons_2
         | |- Forall _ [] => apply Forall_nil_2
         | |- (_ <= _)%Q => discriminate
         | |- True => exact I
         end.

Lemma readmitted_after_an_hour_witness :
  exists self',
    check_rate_limit "production" (run "production" __init__ overrun)
                     "198.51.100.4" "/api/v1/auth/login" 3630 = (Ok tt, self')
    /\ requests_of self' "198.51.100.4" = [3630%Q]
    /\ blocked_ips self' !! "198.51.100.4" = None.
Proof.
  apply (readmitted_after_an_hour "production" overrun "198.51.100.4"
           "/api/v1/auth/login" 3630 30).
  - discriminate.
  - unfold overrun, mixed. ascending_concrete.
  - vm_compute. reflexivity.
  - discriminate.
Defined.

(** X5.  A client all of whose requests are on routes of one limit is never
    put on the block list, whatever it and the other clients send and
    whenever the clean-up runs. *)
Theorem single_class_never_blocked (ENVIRONMENT : string) (evs : list event)
    (client_ip : string) (lim : nat * Z) :
  Forall (same_class client_ip lim) evs ->
  blocked_ips (run ENVIRONMENT __init__ evs) !! client_ip = None.
Proof.
  intros Hclass.
  assert (Hgen : forall self,
             (length (requests_of self client_ip) <= fst lim)%nat ->
             blocked_ips self !! client_ip = None ->
             blocked_ips (run ENVIRONMENT self evs) !! client_ip = None).
  { unfold run. induction Hclass as [| ev evs Hev Hevs IH]; intros self Hlen Hnone.
    - exact Hnone.
    - simpl. apply IH.
      + apply step_bound; assumption.
      + destruct ev as [ip path now | now]; simpl in *.
        * destruct (decide (client_ip = ip)) as [<- | Hne];
            [| rewrite check_blocked_other by exact Hne; exact Hnone].
          destruct (decide (ENVIRONMENT = "development"%string)) as [-> | Henv];
            [exact Hnone |].
          specialize (Hev eq_refl).
          assert (Hcool : ~ in_cooldown self client_ip now).
          { intros (b & Hb & _). rewrite Hnone in Hb. discriminate. }
          destruct lim as [max_requests window].
          destruct (check_outside_cooldown _ _ _ _ _ _ _ Henv Hcool Hev)
            as (blocked' & Hnone' & ->).
          cbv zeta.
          pose proof (filter_length_le (within now (inject_Z window))
                        (requests_of self client_ip)) as Hf.
          pose proof (_get_limit_min path) as Hmin. rewrite Hev in Hmin.
          simpl in Hlen, Hmin. fold (in_window self client_ip window now) in Hf.
          destruct (max_requests <=? _)%nat;
            [destruct (max_requests * 2 <=? _)%nat eqn:E2 |]; simpl; try exact Hnone'.
          apply Nat.leb_le in E2. lia.
        * unfold cleanup_pass. simpl. rewrite lookup_omap, Hnone. reflexivity. }
  apply Hgen.
  - unfold requests_of, __init__. simpl. rewrite lookup_empty. simpl. lia.
  - unfold __init__. simpl. apply lookup_empty.
Qed.

Lemma single_class_never_blocked_witness :
  blocked_ips (run "production" __init__ burst) !! "198.51.100.4" = None.
Proof.
  apply (single_class_never_blocked "production" burst "198.51.100.4" (20%nat, 60)).
  unfold burst. simpl.
  repeat (apply Forall_cons; split; [intros _; reflexivity |]).
  apply Forall_nil. exact I.
Defined.

(** *** Route classes *)

Lemma prefix_starts_with (pre s : string) :
  String.prefix pre s = true <-> starts_with pre s.
Proof.
  unfold starts_with. revert s. induction pre as [| a pre IH]; intros s.
  - split; [intros _; exists s; reflexivity | intros _; destruct s; reflexivity].
  - destruct s as [| b s]; simpl;
      [split; [discriminate | intros [rest H]; discriminate] |].
    destruct (Ascii.ascii_dec a b) as [-> | Hne].
    + rewrite IH. split; intros [rest H]; exists rest.
      * rewrite H. reflexivity.
      * inversion H. reflexivity.
    + split; [discriminate | intros [rest H]; inversion H; congruence].
Qed.

Lemma contains_substring_of (s sub : string) :
  contains s sub = true <-> substring_of sub s.
Proof.
  unfold substring_of. split.
  - induction s as [| c s IH]; cbn [contains]; intros H;
      apply orb_true_iff in H as [H | H]; try discriminate.
    + apply prefix_starts_with in H as [rest ->]. exists ""%string, rest. reflexivity.
    + apply prefix_starts_with in H as [rest ->]. exists ""%string, rest. reflexivity.
    + destruct (IH H) as (before & after & ->).
      exists (String c before), after. reflexivity.
  - intros (before & after & ->). induction before as [| c before IH].
    + assert (Hp : String.prefix sub (sub ++ after) = true)
        by (apply prefix_starts_with; exists after; reflexivity).
      change (contains (sub ++ after)%string sub = true).
      revert Hp. generalize (sub ++ after)%string.
      intros s Hp. destruct s; cbn [contains]; rewrite Hp; reflexivity.
    + change (contains (String c (before ++ sub ++ after)%string) sub = true).
      cbn [contains]. rewrite IH. apply orb_true_r.
Qed.

(** X6.  How a path finds its limit: the login prefix gives 5 per 60 s and
    the transactions prefix 20 per 60 s, also when the path mentions
    high-value; of the remaining paths those containing "high-value" get 5
    per 300 s and all others 100 per 60 s. *)
Theorem _get_limit_classes (path : string) :
  (starts_with "/api/v1/auth" path -> _get_limit path = (5%nat, 60))
  /\ (starts_with "/api/v1/transactions" path -> _get_limit path = (20%nat, 60))
  /\ (~ starts_with "/api/v1/auth" path ->
      ~ starts_with "/api/v1/transactions" path ->
      (substring_of "high-value" path -> _get_limit path = (5%nat, 300))
      /\ (~ substring_of "high-value" path -> _get_limit path = (100%nat, 60))).
Proof.
  unfold _get_limit. split; [| split].
  - intros H. apply prefix_starts_with in H. rewrite H. reflexivity.
  - intros H. assert (Ha : String.prefix "/api/v1/auth" path = false).
    { destruct H as [rest ->]. reflexivity. }
    apply prefix_starts_with in H. rewrite Ha, H. reflexivity.
  - intros Ha Ht.
    destruct (String.prefix "/api/v1/auth" path) eqn:Ea;
      [exfalso; apply Ha, prefix_starts_with; exact Ea |].
    destruct (String.prefix "/api/v1/transactions" path) eqn:Et;
      [exfalso; apply Ht, prefix_starts_with; exact Et |].
    split; intros Hs.
    + apply contains_substring_of in Hs. rewrite Hs. reflexivity.
    + destruct (contains path "high-value") eqn:Ec; [| reflexivity].
      exfalso. apply Hs, contains_substring_of. exact Ec.
Qed.

End RateLimiterMore.

(** ** The ledger: guards, frame, credit and debit *)

Lemma update_balance_frame (db : Session.t) (account_id : Z) (amount : Q)
    (operation : string) (other : Z) :
  other <> account_id ->
  AccountService.get (snd (AccountService.update_balance db account_id amount operation))
                     other
  = AccountService.get db other.
Proof.
  intros Hne. unfold AccountService.update_balance.
  destruct (AccountService.get db account_id) as [account |] eqn:Hget; [| reflexivity].
  pose proof (get_id _ _ _ Hget) as Hid.
  destruct (String.eqb operation "credit");
    [| destruct (String.eqb operation "debit");
       [destruct (Qltb (Account.balance account) amount); [reflexivity |] |]];
    simpl; apply get_commit_other; simpl; congruence.
Qed.

Lemma update_balance_transactions (db : Session.t) (account_id : Z) (amount : Q)
    (operation : string) :
  Session.transactions (snd (AccountService.update_balance db account_id amount operation))
  = Session.transactions db.
Proof.
  unfold AccountService.update_balance.
  destruct (AccountService.get db account_id) as [account |]; [| reflexivity].
  destruct (String.eqb operation "credit");
    [| destruct (String.eqb operation "debit");
       [destruct (Qltb (Account.balance account) amount) |]];
    reflexivity.
Qed.

(** X7.  The account route's credit/debit changes a balance only for an
    account that exists, belongs to the caller and is Active; every refusal
    leaves the session as it was; and whatever happens, no other account
    and no transaction row is touched. *)
Theorem process_transaction_guarded (db : Session.t) (account_id : Z) (amount : Q)
    (operation : string) (current_user : Z) :
  let outcome :=
    endpoints_accounts.process_transaction db account_id amount operation current_user in
  (forall updated, fst outcome = Ok updated ->
     exists account,
       AccountService.get db account_id = Some account
       /\ Account.user_id account = current_user
       /\ Account.status account = ACTIVE)
  /\ (forall e, fst outcome = Raise e -> snd outcome = db)
  /\ (forall other, other <> account_id ->
        AccountService.get (snd outcome) other = AccountService.get db other)
  /\ Session.transactions (snd outcome) = Session.transactions db.
Proof.
  unfold endpoints_accounts.process_transaction.
  destruct (AccountService.get db account_id) as [account |] eqn:Hget; simpl;
    [| repeat split; try discriminate; intros; reflexivity].
  destruct (Account.user_id account =? current_user) eqn:Hu; simpl;
    [| split; [discriminate | split; [| split]]; intros; reflexivity].
  destruct (bool_decide (Account.status account = ACTIVE)) eqn:Ha; simpl;
    [| split; [discriminate | split; [| split]]; intros; reflexivity].
  apply bool_decide_eq_true in Ha. apply Z.eqb_eq in Hu.
  pose proof (update_balance_frame db account_id amount operation) as Hframe.
  pose proof (update_balance_transactions db account_id amount operation) as Htx.
  assert (Hfail : forall e db',
             AccountService.update_balance db account_id amount operation
             = (Raise e, db') -> db' = db).
  { unfold AccountService.update_balance. rewrite Hget. intros e db'.
    destruct (String.eqb operation "credit"); [discriminate |].
    destruct (String.eqb operation "debit"); [| discriminate].
    destruct (Qltb (Account.balance account) amount); [| discriminate].
    intros H. inversion H. reflexivity. }
  destruct (AccountService.update_balance db account_id amount operation)
    as [[updated | e] db'] eqn:Hup; simpl in *.
  - split; [intros _ _; exists account; repeat split; assumption |].
    split; [discriminate |]. split; assumption.
  - assert (db' = db) as -> by (apply (Hfail e); reflexivity).
    destruct e; simpl; (split; [discriminate |]);
      (split; [intros; reflexivity |]); (split; [intros; reflexivity | reflexivity]).
Qed.

(** X8.  A credit is applied for every amount, with no check of its sign or
    of the funds: the stored balance is the old balance plus the amount, so
    a negative credit beyond the balance leaves a negative balance.  An
    operation that is neither credit nor debit is accepted and changes no
    balance. *)
Theorem credit_unchecked (db : Session.t) (account_id : Z) (account : Account.t)
    (amount : Q) (operation : string) :
  AccountService.get db account_id = Some account ->
  (exists credited db',
     AccountService.update_balance db account_id amount "credit" = (Ok credited, db')
     /\ AccountService.get db' account_id = Some credited
     /\ Account.balance credited = (Account.balance account + amount)%Q
     /\ ((amount < - Account.balance account)%Q -> (Account.balance credited < 0)%Q))
  /\ (operation <> "credit"%string -> operation <> "debit"%string ->
      exists db',
        AccountService.update_balance db account_id amount operation = (Ok account, db')
        /\ AccountService.get db' account_id = Some account).
Proof.
  intros Hget. pose proof (get_id _ _ _ Hget) as Hid. subst account_id.
  unfold AccountService.update_balance. rewrite Hget. split.
  - simpl String.eqb. cbv iota.
    eexists. eexists. split; [reflexivity |]. split; [| split].
    + apply (get_commit db account (Account.set_balance _ account)). exact Hget.
    + reflexivity.
    + simpl. intros H. lra.
  - intros Hc Hd. apply String.eqb_neq in Hc, Hd. rewrite Hc, Hd.
    eexists. split; [reflexivity |].
    apply (get_commit db account account). exact Hget.
Qed.

Lemma credit_unchecked_witness :
  exists credited db',
    AccountService.update_balance Sample.new_owner 1 (-5000) "credit" = (Ok credited, db')
    /\ AccountService.get db' 1 = Some credited
    /\ Account.balance credited = (1200 + -5000)%Q
    /\ ((-5000 < - 1200)%Q -> (Account.balance credited < 0)%Q).
Proof.
  apply (credit_unchecked Sample.new_owner 1 Sample.checking (-5000) "credit").
  reflexivity.
Defined.

(** X9.  Credit and debit undo each other: on an account whose balance is
    not negative, a credit followed by a debit of the same amount succeeds
    and the balance is back at its old value. *)
Theorem credit_then_debit (db : Session.t) (account_id : Z) (account : Account.t)
    (amount : Q) :
  AccountService.get db account_id = Some account ->
  (0 <= Account.balance account)%Q ->
  exists credited db1 debited db2,
    AccountService.update_balance db account_id amount "credit" = (Ok credited, db1)
    /\ AccountService.update_balance db1 account_id amount "debit" = (Ok debited, db2)
    /\ AccountService.get db2 account_id = Some debited
    /\ (Account.balance debited == Account.balance account)%Q.
Proof.
  intros Hget Hpos. pose proof (get_id _ _ _ Hget) as Hid.
  destruct (credit_unchecked db account_id account amount "credit" Hget)
    as [(credited & db1 & Hc & Hg1 & Hb & _) _].
  exists credited, db1. rewrite Hc.
  unfold AccountService.update_balance. rewrite Hg1. simpl String.eqb. cbv iota.
  assert (Qltb (Account.balance credited) amount = false) as ->.
  { apply Qltb_ge. rewrite Hb. lra. }
  eexists. eexists. split; [reflexivity |]. split; [reflexivity |]. split.
  - pose proof (get_id _ _ _ Hg1) as Hid1. subst account_id.
    rewrite <- Hid1 in Hg1 |- *.
    apply (get_commit db1 credited (Account.set_balance _ credited)). exact Hg1.
  - simpl. rewrite Hb. ring.
Qed.

Lemma credit_then_debit_witness :
  exists credited db1 debited db2,
    AccountService.update_balance Sample.new_owner 1 250 "credit" = (Ok credited, db1)
    /\ AccountService.update_balance db1 1 250 "debit" = (Ok debited, db2)
    /\ AccountService.get db2 1 = Some debited
    /\ (Account.balance debited == 1200)%Q.
Proof.
  apply (credit_then_debit Sample.new_owner 1 Sample.checking 250);
    [reflexivity | discriminate].
Defined.

(** ** Accounts: listing, opening, freezing, limits *)

(** X10.  Listing a user's accounts: every account returned belongs to that
    user, at most [limit] are returned, and consecutive pages join up: the
    page after the first [n] rows appended to the first [n] rows is the
    first [n + m] rows. *)
Theorem get_user_accounts_pages (db : Session.t) (user_id : Z) (skip n m : nat) :
  Forall (fun a => Account.user_id a = user_id)
         (services_account.get_user_accounts db user_id skip n)
  /\ (length (services_account.get_user_accounts db user_id skip n) <= n)%nat
  /\ services_account.get_user_accounts db user_id skip n
     ++ services_account.get_user_accounts db user_id (skip + n) m
     = services_account.get_user_accounts db user_id skip (n + m).
Proof.
  unfold services_account.get_user_accounts.
  set (mine := List.filter _ (Session.accounts db)).
  split; [| split].
  - apply Forall_forall. intros a Ha.
    apply subseteq_take, subseteq_drop in Ha.
    apply list_elem_of_In, filter_In in Ha as [_ Ha]. lia.
  - rewrite length_take. lia.
  - rewrite <- drop_drop. apply take_take_drop.
Qed.

Lemma find_snoc {A} (f : A -> bool) (l : list A) (x : A) :
  find f l = None -> find f (l ++ [x]) = if f x then Some x else None.
Proof.
  induction l as [| y l IH]; simpl; [reflexivity |].
  destruct (f y); [discriminate | exact IH].
Qed.

(** X11.  Opening an account: with a fresh primary key and a fresh account
    number the new row is found both by id and by number, is Active with
    the initial balance and the default limits 10000 and 5000, and every
    account that existed is found as before. *)
Theorem create_then_lookup (db : Session.t) (new_id : Z) (account_number : string)
    (user_id : Z) (currency : string) (initial_balance : Q) :
  AccountService.get db new_id = None ->
  services_account.get_by_account_number db account_number = None ->
  let '(created, db') :=
    services_account.create db new_id account_number user_id currency initial_balance in
  AccountService.get db' new_id = Some created
  /\ services_account.get_by_account_number db' account_number = Some created
  /\ Account.status created = ACTIVE
  /\ Account.balance created = initial_balance
  /\ Account.daily_transfer_limit created = 10000%Q
  /\ Account.withdrawal_limit created = 5000%Q
  /\ (forall other, other <> new_id ->
        AccountService.get db' other = AccountService.get db other).
Proof.
  unfold services_account.create, AccountService.get,
    services_account.get_by_account_number. simpl.
  intros Hid Hnum. repeat split.
  - rewrite (find_snoc _ _ _ Hid). simpl. rewrite Z.eqb_refl. reflexivity.
  - rewrite (find_snoc _ _ _ Hnum). simpl. rewrite String.eqb_refl. reflexivity.
  - intros other Hne. clear Hid Hnum.
    induction (Session.accounts db) as [| r rs IH]; simpl.
    + assert ((new_id =? other) = false) as -> by lia. reflexivity.
    + destruct (Account.id r =? other); [reflexivity | exact IH].
Qed.

Lemma create_then_lookup_witness :
  let '(created, db') :=
    services_account.create Sample.new_owner 4 "100000000004" 7 "USD" 25 in
  AccountService.get db' 4 = Some created
  /\ services_account.get_by_account_number db' "100000000004" = Some created
  /\ Account.status created = ACTIVE
  /\ Account.balance created = 25%Q
  /\ Account.daily_transfer_limit created = 10000%Q
  /\ Account.withdrawal_limit created = 5000%Q
  /\ (forall other, other <> 4 ->
        AccountService.get db' other = AccountService.get Sample.new_owner other).
Proof.
  apply (create_then_lookup Sample.new_owner 4 "100000000004" 7 "USD" 25);
    reflexivity.
Defined.

Lemma owned_after_commit (l : list Account.t) (account' : Account.t)
    (account_id user_id : Z) (found : Account.t) :
  Account.id account' = account_id ->
  find (fun a => (Account.id a =? account_id) && (Account.user_id a =? user_id))
       (map (fun r => if Account.id r =? Account.id account' then account' else r) l)
  = Some found ->
  found = account'.
Proof.
  intros Hid. rewrite Hid. induction l as [| r rs IH]; simpl; [discriminate |].
  destruct (Account.id r =? account_id) eqn:E.
  - rewrite Hid, Z.eqb_refl. simpl.
    destruct (Account.user_id account' =? user_id); [| exact IH].
    intros H. inversion H. reflexivity.
  - rewrite E. simpl. exact IH.
Qed.

(** X12.  Freezing works: once [update_status] has given an account a
    status other than Active, every attempt to create a transaction on that
    account, by anyone and of any type and amount, is refused and the
    session stays as the freeze left it. *)
Theorem frozen_account_rejects (db : Session.t) (account_id : Z)
    (status : AccountStatus) (frozen : Account.t) (db' : Session.t)
    (now new_id : Z) (reference_id : string) (transaction_data : TransactionCreate.t)
    (user_id : Z) (device_info : DeviceInfo.t) :
  status <> ACTIVE ->
  services_account.update_status db account_id status = (Ok frozen, db') ->
  TransactionCreate.account_id transaction_data = account_id ->
  exists e,
    TransactionService.create_transaction db' now new_id reference_id transaction_data
      user_id device_info = (Raise e, db')
    /\ (e = HTTPException 404 (Msg "Account not found")
        \/ e = HTTPException 400 (Msg "Account is not active")).
Proof.
  intros Hstatus Hup Hacc. unfold services_account.update_status in Hup.
  destruct (AccountService.get db account_id) as [account |] eqn:Hget; [| discriminate].
  inversion Hup; subst frozen db'. clear Hup.
  pose proof (get_id _ _ _ Hget) as Hid.
  unfold TransactionService.create_transaction. rewrite Hacc.
  destruct (find _ _) as [found |] eqn:Hfind; [| eexists; split; [reflexivity | left; reflexivity]].
  unfold AccountService.commit in Hfind. simpl in Hfind.
  apply (owned_after_commit _ (services_account.set_status status account)) in Hfind;
    [| exact Hid].
  subst found. simpl Account.status.
  rewrite (bool_decide_eq_false_2 _ Hstatus). simpl.
  eexists. split; [reflexivity | right; reflexivity].
Qed.

Lemma frozen_account_rejects_witness :
  exists e,
    TransactionService.create_transaction
      (snd (services_account.update_status Sample.new_owner 1 FROZEN))
      Sample.now 4 "ref-4" (TransactionCreate.mk 1 10 DEPOSIT None) 7 Sample.device_info
    = (Raise e, snd (services_account.update_status Sample.new_owner 1 FROZEN))
    /\ (e = HTTPException 404 (Msg "Account not found")
        \/ e = HTTPException 400 (Msg "Account is not active")).
Proof.
  apply (frozen_account_rejects Sample.new_owner 1 FROZEN
           (services_account.set_status FROZEN Sample.checking)
           (snd (services_account.update_status Sample.new_owner 1 FROZEN))
           Sample.now 4 "ref-4" (TransactionCreate.mk 1 10 DEPOSIT None) 7
           Sample.device_info);
    [discriminate | reflexivity | reflexivity].
Defined.

Lemma owned_commit (l : list Account.t) (account account' : Account.t) (user_id : Z) :
  find (fun a => Account.id a =? Account.id account') l = Some account ->
  Account.user_id account' = user_id ->
  find (fun a => (Account.id a =? Account.id account') && (Account.user_id a =? user_id))
       (map (fun r => if Account.id r =? Account.id account' then account' else r) l)
  = Some account'.
Proof.
  intros Hfind Huser. induction l as [| r rs IH]; simpl in *; [discriminate |].
  destruct (Account.id r =? Account.id account') eqn:E.
  - rewrite Z.eqb_refl. simpl.
    assert ((Account.user_id account' =? user_id) = true) as -> by lia. reflexivity.
  - rewrite E. simpl. apply IH. exact Hfind.
Qed.

(** X13.  A changed withdrawal limit is the one enforced: after
    [update_limits] has set the withdrawal limit of the caller's Active
    account to [L], creating a withdrawal on it fails with the limit error
    naming [L] exactly when the amount exceeds [L]. *)
Theorem new_limit_enforced (db : Session.t) (account_id : Z) (account : Account.t)
    (daily : option Q) (L : Q) (now new_id : Z) (reference_id : string)
    (transaction_data : TransactionCreate.t) (device_info : DeviceInfo.t) :
  AccountService.get db account_id = Some account ->
  Account.status account = ACTIVE ->
  TransactionCreate.account_id transaction_data = account_id ->
  TransactionCreate.type transaction_data = WITHDRAWAL ->
  exists updated db',
    services_account.update_limits db account_id daily (Some L) = (Ok updated, db')
    /\ Account.withdrawal_limit updated = L
    /\ Account.balance updated = Account.balance account
    /\ (fst (TransactionService.create_transaction db' now new_id reference_id
               transaction_data (Account.user_id account) device_info)
        = Raise (HTTPException 400 (MsgLimit "Amount exceeds withdrawal limit of" L))
        <-> (L < TransactionCreate.amount transaction_data)%Q).
Proof.
  intros Hget Hactive Hacc Htype.
  pose proof (get_id _ _ _ Hget) as Hid.
  rewrite <- Hid in Hacc, Hget |- *. clear Hid.
  unfold services_account.update_limits. rewrite Hget.
  set (updated :=
         services_account.set_withdrawal_limit L
           match daily with
           | Some l => services_account.set_daily_transfer_limit l account
           | None => account
           end).
  exists updated, (AccountService.commit updated db).
  assert (Hu_id : Account.id updated = Account.id account)
    by (subst updated; destruct daily; reflexivity).
  assert (Hu_user : Account.user_id updated = Account.user_id account)
    by (subst updated; destruct daily; reflexivity).
  assert (Hu_status : Account.status updated = ACTIVE)
    by (subst updated; destruct daily; exact Hactive).
  split; [reflexivity |]. split; [reflexivity |].
  split; [subst updated; destruct daily; reflexivity |].
  unfold TransactionService.create_transaction. rewrite Hacc.
  assert (Hfind :
            find (fun a => (Account.id a =? Account.id account)
                           && (Account.user_id a =? Account.user_id account))
                 (Session.accounts (AccountService.commit updated db))
            = Some updated).
  { unfold AccountService.commit. cbn [Session.accounts]. rewrite <- Hu_id.
    apply (owned_commit _ account); [rewrite Hu_id; exact Hget | exact Hu_user]. }
  rewrite Hfind. rewrite (bool_decide_eq_true_2 _ Hu_status). simpl negb. cbv iota.
  unfold TransactionService._validate_transaction_limits.
  cbn [Transaction.type Transaction.amount]. rewrite Htype. simpl bool_decide. cbv iota.
  assert (HL : Account.withdrawal_limit updated = L) by reflexivity.
  rewrite HL. unfold Qgtb.
  destruct (Qltb L (TransactionCreate.amount transaction_data)) eqn:E.
  - simpl. apply Qltb_lt in E. split; [intros _; exact E | reflexivity].
  - simpl. apply Qltb_ge in E.
    unfold TransactionService._process_withdrawal.
    destruct (Qltb _ _); simpl; (split; [discriminate | intros H; lra]).
Qed.

Lemma new_limit_enforced_witness :
  exists updated db',
    services_account.update_limits Sample.new_owner 1 None (Some 100%Q)
    = (Ok updated, db')
    /\ Account.withdrawal_limit updated = 100%Q
    /\ Account.balance updated = Account.balance Sample.checking
    /\ (fst (TransactionService.create_transaction db' Sample.now 4 "ref-4"
               (TransactionCreate.mk 1 150 WITHDRAWAL None)
               (Account.user_id Sample.checking) Sample.device_info)
        = Raise (HTTPException 400 (MsgLimit "Amount exceeds withdrawal limit of" 100))
        <-> (100 < 150)%Q).
Proof.
  apply (new_limit_enforced Sample.new_owner 1 Sample.checking None 100 Sample.now 4
           "ref-4" (TransactionCreate.mk 1 150 WITHDRAWAL None) Sample.device_info);
    reflexivity.
Defined.

(** ** The orchestrator: what a creation does to the books *)

Lemma sumQ_from (l : list Q) (a : Q) : (fold_left Qplus l a == a + sumQ l)%Q.
Proof.
  unfold sumQ. revert a. induction l as [| x l IH]; intros a; simpl.
  - ring.
  - rewrite (IH (a + x)%Q), (IH (0 + x)%Q). ring.
Qed.

Lemma sumQ_cons (x : Q) (l : list Q) : (sumQ (x :: l) == x + sumQ l)%Q.
Proof.
  unfold sumQ at 1. simpl. rewrite sumQ_from. ring.
Qed.

Lemma commit_ids (account' : Account.t) (db : Session.t) :
  map Account.id (Session.accounts (AccountService.commit account' db))
  = map Account.id (Session.accounts db).
Proof.
  unfold AccountService.commit. simpl.
  induction (Session.accounts db) as [| r rs IH]; simpl; [reflexivity |].
  rewrite IH. destruct (Account.id r =? Account.id account') eqn:E; [| reflexivity].
  f_equal. lia.
Qed.

Lemma get_of_In (db : Session.t) (account : Account.t) :
  unique_ids db ->
  In account (Session.accounts db) ->
  AccountService.get db (Account.id account) = Some account.
Proof.
  unfold unique_ids, AccountService.get.
  induction (Session.accounts db) as [| r rs IH]; simpl; [contradiction |].
  intros Hnd [-> | Hin].
  - rewrite Z.eqb_refl. reflexivity.
  - apply NoDup_cons in Hnd as [Hr Hnd].
    destruct (Account.id r =? Account.id account) eqn:E.
    + exfalso. apply Hr. apply Z.eqb_eq in E. rewrite E.
      apply list_elem_of_In, in_map, Hin.
    + apply IH; assumption.
Qed.

Lemma commit_absent (l : list Account.t) (account' : Account.t) :
  ~ In (Account.id account') (map Account.id l) ->
  map (fun r => if Account.id r =? Account.id account' then account' else r) l = l.
Proof.
  induction l as [| r rs IH]; simpl; [reflexivity |].
  intros Hnot. destruct (Account.id r =? Account.id account') eqn:E.
  - exfalso. apply Hnot. left. lia.
  - rewrite IH; [reflexivity |]. intros Hin. apply Hnot. right. exact Hin.
Qed.

Lemma total_commit (db : Session.t) (old account' : Account.t) :
  unique_ids db ->
  AccountService.get db (Account.id account') = Some old ->
  (total_balance (AccountService.commit account' db)
   == total_balance db - Account.balance old + Account.balance account')%Q.
Proof.
  unfold unique_ids, AccountService.get, total_balance, AccountService.commit. simpl.
  induction (Session.accounts db) as [| r rs IH]; simpl; [discriminate |].
  intros Hnd Hfind. apply NoDup_cons in Hnd as [Hr Hnd].
  destruct (Account.id r =? Account.id account') eqn:E.
  - inversion Hfind; subst r. rewrite commit_absent.
    + rewrite !sumQ_cons. ring.
    + apply Z.eqb_eq in E. rewrite <- E. intros Hin. apply Hr.
      apply list_elem_of_In. exact Hin.
  - rewrite !sumQ_cons. rewrite (IH Hnd Hfind). ring.
Qed.

Lemma total_add (transaction : Transaction.t) (db : Session.t) :
  total_balance (TransactionService.add transaction db) = total_balance db.
Proof. reflexivity. Qed.

Lemma unique_commit (account' : Account.t) (db : Session.t) :
  unique_ids db -> unique_ids (AccountService.commit account' db).
Proof. unfold unique_ids. rewrite commit_ids. trivial. Qed.

(** X14.  The books balance.  With unique account ids, a successful
    creation changes the sum of all balances by minus the amount for a
    withdrawal, by plus the amount for a deposit, and not at all for a
    transfer (also one to the source itself) or for any other type. *)
Theorem create_transaction_total (db : Session.t) (now new_id : Z)
    (reference_id : string) (transaction_data : TransactionCreate.t) (user_id : Z)
    (device_info : DeviceInfo.t) (transaction : Transaction.t) (db' : Session.t) :
  unique_ids db ->
  TransactionService.create_transaction db now new_id reference_id transaction_data
    user_id device_info = (Ok transaction, db') ->
  (total_balance db'
   == total_balance db
      + match TransactionCreate.type transaction_data with
        | WITHDRAWAL => - TransactionCreate.amount transaction_data
        | DEPOSIT => TransactionCreate.amount transaction_data
        | _ => 0
        end)%Q.
Proof.
  intros Huniq. unfold TransactionService.create_transaction.
  destruct (find _ (Session.accounts db)) as [account |] eqn:Hfind; [| discriminate].
  destruct (negb _); [discriminate |].
  destruct (TransactionService._validate_transaction_limits _ _ _ _); [| discriminate].
  assert (Hget : AccountService.get db (Account.id account) = Some account).
  { apply get_of_In; [exact Huniq |]. apply find_some in Hfind as [Hin _]. exact Hin. }
  cbn [Transaction.type].
  destruct (TransactionCreate.type transaction_data);
    try (intros [= <- <-]; rewrite total_add; ring).
  - (* deposit *)
    unfold TransactionService._process_deposit. cbn [Transaction.amount].
    intros H. inversion H; subst. rewrite total_add.
    rewrite (total_commit db account); [simpl; ring | exact Huniq | exact Hget].
  - (* withdrawal *)
    unfold TransactionService._process_withdrawal. cbn [Transaction.amount].
    destruct (Qltb _ _); [discriminate |].
    intros H. inversion H; subst. rewrite total_add.
    rewrite (total_commit db account); [simpl; ring | exact Huniq | exact Hget].
  - (* transfer *)
    unfold TransactionService._process_transfer.
    cbn [Transaction.amount Transaction.recipient_account].
    destruct (Qltb _ _); [discriminate |].
    destruct (TransactionService.get_by_account_number db _) as [recipient |] eqn:Hrec;
      [| discriminate].
    destruct (negb _); [discriminate |].
    set (amount := TransactionCreate.amount transaction_data).
    set (debited := Account.set_balance (Account.balance account - amount)%Q account).
    set (db1 := AccountService.commit debited db).
    assert (Hrget : AccountService.get db (Account.id recipient) = Some recipient).
    { apply get_of_In; [exact Huniq |].
      unfold TransactionService.get_by_account_number in Hrec.
      destruct (TransactionCreate.recipient_account transaction_data); [| discriminate].
      apply find_some in Hrec as [Hin _]. exact Hin. }
    assert (Hread : exists current,
               AccountService.get db1 (Account.id recipient) = Some current
               /\ Account.id current = Account.id recipient).
    { destruct (decide (Account.id recipient = Account.id account)) as [Heq | Hne].
      - exists debited. split; [| simpl; congruence].
        rewrite Heq. apply (get_commit db account debited). exact Hget.
      - exists recipient. split; [| reflexivity].
        subst db1. rewrite get_commit_other; [exact Hrget | exact Hne]. }
    destruct Hread as (current & Hcur & Hcid). rewrite Hcur. simpl default.
    intros H. inversion H; subst. rewrite total_add.
    rewrite (total_commit db1 current);
      [| apply unique_commit; exact Huniq | simpl; rewrite Hcid; exact Hcur].
    subst db1. rewrite (total_commit db account); [| exact Huniq | exact Hget].
    simpl. ring.
Qed.

Lemma create_transaction_total_witness :
  (total_balance
     (snd (TransactionService.create_transaction Sample.new_owner Sample.now 4 "ref-4"
             (TransactionCreate.mk 1 200 TRANSFER (Some "100000000002")) 7
             Sample.device_info))
   == total_balance Sample.new_owner + 0)%Q.
Proof.
  eapply (create_transaction_total Sample.new_owner Sample.now 4 "ref-4"
            (TransactionCreate.mk 1 200 TRANSFER (Some "100000000002")) 7
            Sample.device_info).
  - unfold unique_ids. simpl.
    repeat (apply NoDup_cons_2;
            [intros H; apply list_elem_of_In in H; simpl in H; lia |]).
    apply NoDup_nil_2.
  - vm_compute. reflexivity.
Defined.

Lemma _process_transfer_frame (db : Session.t) (now : Z) (transaction : Transaction.t)
    (account : Account.t) (other : Z) :
  other <> Account.id account ->
  (forall recipient,
     TransactionService.get_by_account_number db (Transaction.recipient_account transaction)
     = Some recipient -> other <> Account.id recipient) ->
  AccountService.get
    (snd (TransactionService._process_transfer db now transaction account)) other
  = AccountService.get db other.
Proof.
  intros Hsrc Hdst. unfold TransactionService._process_transfer.
  destruct (Qltb _ _); [reflexivity |].
  destruct (TransactionService.get_by_account_number db _) as [recipient |];
    [| reflexivity].
  specialize (Hdst recipient eq_refl).
  destruct (negb _); [reflexivity |]. cbv zeta. cbn [snd].
  set (debited := Account.set_balance _ account).
  assert (Hcid : Account.id (default recipient
                               (AccountService.get (AccountService.commit debited db)
                                                   (Account.id recipient)))
                 = Account.id recipient).
  { destruct (AccountService.get _ (Account.id recipient)) as [c |] eqn:E;
      [apply get_id in E; exact E | reflexivity]. }
  rewrite get_commit_other; [| simpl; rewrite Hcid; exact Hdst].
  apply get_commit_other. exact Hsrc.
Qed.

(** X15.  What a creation leaves behind.  If it raises, the session is
    exactly as before.  If it returns, exactly one row has been appended
    after the existing ones: the returned transaction, carrying the given
    reference, the caller, and the requested account, type and amount.  In
    both cases the device registry is untouched, and so is every account
    other than the source and the resolved recipient. *)
Theorem create_transaction_outcome (db : Session.t) (now new_id : Z)
    (reference_id : string) (transaction_data : TransactionCreate.t) (user_id : Z)
    (device_info : DeviceInfo.t) :
  let outcome :=
    TransactionService.create_transaction db now new_id reference_id transaction_data
      user_id device_info in
  (forall e, fst outcome = Raise e -> snd outcome = db)
  /\ (forall transaction, fst outcome = Ok transaction ->
        Session.transactions (snd outcome) = Session.transactions db ++ [transaction]
        /\ Transaction.reference_id transaction = reference_id
        /\ Transaction.user_id transaction = user_id
        /\ Transaction.account_id transaction = TransactionCreate.account_id transaction_data
        /\ Transaction.type transaction = TransactionCreate.type transaction_data
        /\ Transaction.amount transaction = TransactionCreate.amount transaction_data)
  /\ Session.auth_devices (snd outcome) = Session.auth_devices db
  /\ (forall other,
        other <> TransactionCreate.account_id transaction_data ->
        (forall recipient,
           TransactionService.get_by_account_number db
             (TransactionCreate.recipient_account transaction_data) = Some recipient ->
           other <> Account.id recipient) ->
        AccountService.get (snd outcome) other = AccountService.get db other).
Proof.
  unfold TransactionService.create_transaction.
  destruct (find _ (Session.accounts db)) as [account |] eqn:Hfind; cbv zeta;
    [| simpl; split; [reflexivity | split; [discriminate | split; reflexivity]]].
  assert (Hid : Account.id account = TransactionCreate.account_id transaction_data).
  { apply find_some in Hfind as [_ H]. apply andb_true_iff in H as [H _]. lia. }
  destruct (negb _);
    [simpl; split; [reflexivity | split; [discriminate | split; reflexivity]] |].
  destruct (TransactionService._validate_transaction_limits _ _ _ _);
    [| simpl; split; [reflexivity | split; [discriminate | split; reflexivity]]].
  cbn [Transaction.type].
  set (pending := Transaction.mk _ _ _ _ _ _ _ _ _ _ _ _ _ _).
  destruct (TransactionCreate.type transaction_data) eqn:Htype.
  - (* deposit *)
    unfold TransactionService._process_deposit. simpl.
    split; [discriminate |]. split; [| split; [reflexivity |]].
    + intros t [= <-]. repeat split; reflexivity.
    + intros other Hne _. apply get_commit_other. simpl. congruence.
  - (* withdrawal *)
    unfold TransactionService._process_withdrawal.
    destruct (Qltb _ _); simpl;
      [split; [reflexivity | split; [discriminate | split; reflexivity]] |].
    split; [discriminate |]. split; [| split; [reflexivity |]].
    + intros t [= <-]. repeat split; reflexivity.
    + intros other Hne _. apply get_commit_other. simpl. congruence.
  - (* transfer *)
    pose proof (_process_transfer_frame db now pending account) as Hframe.
    unfold TransactionService._process_transfer in *.
    cbn [Transaction.recipient_account pending] in *.
    destruct (Qltb _ _);
      [simpl; split; [reflexivity | split; [discriminate | split; reflexivity]] |].
    destruct (TransactionService.get_by_account_number db _) as [recipient |];
      [| simpl; split; [reflexivity | split; [discriminate | split; reflexivity]]].
    destruct (negb _);
      [simpl; split; [reflexivity | split; [discriminate | split; reflexivity]] |].
    cbv zeta in *. cbn [fst snd] in *.
    split; [discriminate |]. split; [| split; [reflexivity |]].
    + intros t [= <-]. repeat split; reflexivity.
    + intros other Hne Hrec. apply Hframe; [congruence | exact Hrec].
  - simpl. split; [discriminate |]. split; [| split; reflexivity].
    intros t [= <-]. repeat split; reflexivity.
  - simpl. split; [discriminate |]. split; [| split; reflexivity].
    intros t [= <-]. repeat split; reflexivity.
  - simpl. split; [discriminate |]. split; [| split; reflexivity].
    intros t [= <-]. repeat split; reflexivity.
  - simpl. split; [discriminate |]. split; [| split; reflexivity].
    intros t [= <-]. repeat split; reflexivity.
  - simpl. split; [discriminate |]. split; [| split; reflexivity].
    intros t [= <-]. repeat split; reflexivity.
Qed.

(** ** Listing transactions *)

Lemma In_insert_desc (t x : Transaction.t) (l : list Transaction.t) :
  In x (insert_desc t l) <-> x = t \/ In x l.
Proof.
  induction l as [| y l IH]; simpl; [intuition |].
  destruct (Transaction.created_at y <=? Transaction.created_at t); simpl;
    [intuition | rewrite IH; intuition].
Qed.

Lemma In_order_by (x : Transaction.t) (l : list Transaction.t) :
  In x (order_by_created_desc l) <-> In x l.
Proof.
  unfold order_by_created_desc. induction l as [| y l IH]; simpl; [reflexivity |].
  rewrite In_insert_desc, IH. intuition.
Qed.

Lemma Forall_insert_desc (P : Transaction.t -> Prop) (t : Transaction.t)
    (l : list Transaction.t) :
  P t -> Forall P l -> Forall P (insert_desc t l).
Proof.
  intros Ht Hl. apply Forall_forall. intros x Hx.
  apply list_elem_of_In, In_insert_desc in Hx as [-> | Hx]; [exact Ht |].
  revert x Hx. intros x Hx. apply list_elem_of_In in Hx. revert x Hx.
  apply Forall_forall. exact Hl.
Qed.

Lemma descending_insert (t : Transaction.t) (l : list Transaction.t) :
  descending l -> descending (insert_desc t l).
Proof.
  induction l as [| y l IH]; simpl; [intros _; split; [constructor | exact I] |].
  intros [Hy Hl].
  destruct (Transaction.created_at y <=? Transaction.created_at t) eqn:E; simpl.
  - split; [| split; assumption].
    constructor; [lia |].
    eapply Forall_impl; [exact Hy |]. intros z Hz. simpl in Hz. lia.
  - split; [| apply IH; exact Hl].
    apply Forall_insert_desc; [lia | exact Hy].
Qed.

Lemma descending_order_by (l : list Transaction.t) :
  descending (order_by_created_desc l).
Proof.
  unfold order_by_created_desc. induction l as [| y l IH]; simpl; [exact I |].
  apply descending_insert. exact IH.
Qed.

Lemma descending_drop (n : nat) (l : list Transaction.t) :
  descending l -> descending (skipn n l).
Proof.
  revert l. induction n as [| n IH]; intros l; [trivial |].
  destruct l as [| x l]; simpl; [trivial |]. intros [_ Hl]. apply IH. exact Hl.
Qed.

Lemma descending_take (n : nat) (l : list Transaction.t) :
  descending l -> descending (firstn n l).
Proof.
  revert l. induction n as [| n IH]; intros l; [intros _; exact I |].
  destruct l as [| x l]; simpl; [trivial |]. intros [Hx Hl].
  split; [| apply IH; exact Hl].
  apply Forall_forall. intros y Hy. apply subseteq_take in Hy.
  revert y Hy. apply Forall_forall. exact Hx.
Qed.

Lemma page_In (x : Transaction.t) (skip limit : nat) (l : list Transaction.t) :
  In x (firstn limit (skipn skip (order_by_created_desc l))) -> In x l.
Proof.
  intros H. apply list_elem_of_In in H.
  apply subseteq_take, subseteq_drop in H.
  apply list_elem_of_In in H. apply (proj1 (In_order_by _ _)) in H. exact H.
Qed.

(** X16.  Listing a user's transactions: every row returned is a stored
    row of that user, whatever the filters; rows come newest first; at most
    [limit] rows are returned; a non-zero account filter keeps only that
    account's rows, while the account id 0 filters nothing, like no id. *)
Theorem get_user_transactions_private (db : Session.t) (user_id : Z) (skip limit : nat)
    (account_id : option Z) (transaction_type : option TransactionType)
    (start_date end_date : option Z) :
  let rows :=
    services_transaction_service.get_user_transactions db user_id skip limit account_id
      transaction_type start_date end_date in
  Forall (fun t => Transaction.user_id t = user_id /\ In t (Session.transactions db)) rows
  /\ descending rows
  /\ (length rows <= limit)%nat
  /\ (forall a, account_id = Some a -> a <> 0 ->
        Forall (fun t => Transaction.account_id t = a) rows)
  /\ services_transaction_service.get_user_transactions db user_id skip limit (Some 0)
       transaction_type start_date end_date
     = services_transaction_service.get_user_transactions db user_id skip limit None
         transaction_type start_date end_date.
Proof.
  unfold services_transaction_service.get_user_transactions. cbv zeta.
  set (q0 := List.filter (fun t => Transaction.user_id t =? user_id)
                         (Session.transactions db)).
  set (q1 := if truthy account_id then List.filter _ q0 else q0).
  set (q2 := match transaction_type with Some _ => List.filter _ q1 | None => q1 end).
  set (q3 := match start_date with Some _ => List.filter _ q2 | None => q2 end).
  set (q4 := match end_date with Some _ => List.filter _ q3 | None => q3 end).
  assert (H43 : forall x, In x q4 -> In x q3).
  { intros x. subst q4. destruct end_date; [| trivial]. intros H.
    apply filter_In in H as [H _]. exact H. }
  assert (H32 : forall x, In x q3 -> In x q2).
  { intros x. subst q3. destruct start_date; [| trivial]. intros H.
    apply filter_In in H as [H _]. exact H. }
  assert (H21 : forall x, In x q2 -> In x q1).
  { intros x. subst q2. destruct transaction_type; [| trivial]. intros H.
    apply filter_In in H as [H _]. exact H. }
  assert (H10 : forall x, In x q1 -> In x q0).
  { intros x. subst q1. destruct (truthy account_id); [| trivial]. intros H.
    apply filter_In in H as [H _]. exact H. }
  split; [| split; [| split; [| split]]].
  - apply Forall_forall. intros x Hx. apply list_elem_of_In, page_In in Hx.
    apply H43, H32, H21, H10 in Hx. subst q0. apply filter_In in Hx as [Hin Hu].
    split; [lia | exact Hin].
  - apply descending_take, descending_drop, descending_order_by.
  - rewrite length_take. lia.
  - intros a -> Ha. apply Forall_forall. intros x Hx.
    apply list_elem_of_In, page_In in Hx. apply H43, H32, H21 in Hx.
    subst q1. simpl truthy in Hx.
    assert ((a =? 0) = false) as E by lia. rewrite E in Hx. simpl in Hx.
    apply filter_In in Hx as [_ Hx]. apply bool_decide_eq_true in Hx.
    congruence.
  - reflexivity.
Qed.

(** ** Transaction records: cancelling, flagging, processing *)

Lemma get_transaction_commit (db : Session.t) (transaction_id : string) (user_id : Z)
    (transaction transaction' : Transaction.t) :
  TransactionService.get_transaction db transaction_id user_id = Ok transaction ->
  Transaction.id transaction' = Transaction.id transaction ->
  Transaction.reference_id transaction' = Transaction.reference_id transaction ->
  Transaction.user_id transaction' = Transaction.user_id transaction ->
  TransactionService.get_transaction (services_transaction.commit transaction' db)
                                     transaction_id user_id
  = Ok transaction'.
Proof.
  unfold TransactionService.get_transaction, services_transaction.commit. simpl.
  intros Hget Hid Href Huser.
  destruct (find _ (Session.transactions db)) as [t |] eqn:Hfind; [| discriminate].
  inversion Hget; subst t. clear Hget.
  assert (Hp : String.eqb (Transaction.reference_id transaction') transaction_id
               && (Transaction.user_id transaction' =? user_id) = true).
  { apply find_some in Hfind as [_ H]. rewrite Href, Huser. exact H. }
  assert (Hgoal : find (fun t => String.eqb (Transaction.reference_id t) transaction_id
                                 && (Transaction.user_id t =? user_id))
                       (map (fun r => if Transaction.id r =? Transaction.id transaction'
                                      then transaction' else r)
                            (Session.transactions db))
                  = Some transaction'); [| rewrite Hgoal; reflexivity].
  induction (Session.transactions db) as [| r rs IH]; simpl in *; [discriminate |].
  destruct (Transaction.id r =? Transaction.id transaction') eqn:E.
  - rewrite Hp. reflexivity.
  - destruct (String.eqb (Transaction.reference_id r) transaction_id
              && (Transaction.user_id r =? user_id)) eqn:Er.
    + inversion Hfind; subst r. lia.
    + apply IH. exact Hfind.
Qed.

(** X17.  A cancellation cannot be repeated: after a Pending transaction
    has been cancelled, cancelling the same reference again raises the
    invalid-state error and changes nothing. *)
Theorem cancel_twice (db : Session.t) (transaction_id : string) (user_id : Z)
    (transaction : Transaction.t) :
  TransactionService.get_transaction db transaction_id user_id = Ok transaction ->
  Transaction.status transaction = PENDING ->
  exists cancelled db',
    TransactionService.cancel_transaction db transaction_id user_id = (Ok cancelled, db')
    /\ Transaction.status cancelled = CANCELLED
    /\ TransactionService.cancel_transaction db' transaction_id user_id
       = (Raise InvalidState, db').
Proof.
  intros Hget Hpending. unfold TransactionService.cancel_transaction at 1.
  rewrite Hget, (bool_decide_eq_true_2 _ Hpending). simpl negb. cbv iota.
  eexists. eexists. split; [reflexivity |]. split; [reflexivity |].
  unfold TransactionService.cancel_transaction.
  rewrite (get_transaction_commit db transaction_id user_id transaction
             (Transaction.set_status CANCELLED transaction) Hget);
    reflexivity.
Qed.

Lemma cancel_twice_witness :
  exists cancelled db',
    TransactionService.cancel_transaction Sample2.db "ref-2" 7 = (Ok cancelled, db')
    /\ Transaction.status cancelled = CANCELLED
    /\ TransactionService.cancel_transaction db' "ref-2" 7 = (Raise InvalidState, db').
Proof.
  apply (cancel_twice Sample2.db "ref-2" 7 Sample2.pending_payment); reflexivity.
Defined.

(** X18.  A flagged transaction is out of the owner's reach: flagging a
    stored transaction sets its status to Flagged without touching any
    account, and a cancellation of it afterwards raises the invalid-state
    error. *)
Theorem flagged_cannot_be_cancelled (db : Session.t) (transaction_id : string)
    (user_id : Z) (transaction : Transaction.t) :
  TransactionService.get_transaction db transaction_id user_id = Ok transaction ->
  services_transaction.get db (Transaction.id transaction) = Some transaction ->
  exists flagged db',
    transaction_records.flag_suspicious_transaction db (Transaction.id transaction)
    = (Ok flagged, db')
    /\ Transaction.status flagged = FLAGGED
    /\ Session.accounts db' = Session.accounts db
    /\ TransactionService.cancel_transaction db' transaction_id user_id
       = (Raise InvalidState, db').
Proof.
  intros Hget Hid. unfold transaction_records.flag_suspicious_transaction.
  rewrite Hid. eexists. eexists. split; [reflexivity |].
  split; [reflexivity |]. split; [reflexivity |].
  unfold TransactionService.cancel_transaction.
  rewrite (get_transaction_commit db transaction_id user_id transaction
             (Transaction.set_status FLAGGED transaction) Hget);
    reflexivity.
Qed.

Lemma flagged_cannot_be_cancelled_witness :
  exists flagged db',
    transaction_records.flag_suspicious_transaction Sample2.db
      (Transaction.id Sample2.pending_payment) = (Ok flagged, db')
    /\ Transaction.status flagged = FLAGGED
    /\ Session.accounts db' = Session.accounts Sample2.db
    /\ TransactionService.cancel_transaction db' "ref-2" 7 = (Raise InvalidState, db').
Proof.
  apply (flagged_cannot_be_cancelled Sample2.db "ref-2" 7 Sample2.pending_payment);
    reflexivity.
Defined.

(** X19.  [process_transaction] turns every settlement error into a Failed
    row: for a stored transaction it never raises; the result is Completed
    or Failed; a Failed result carries a reason and leaves every account as
    it was; and a debit beyond the balance is Failed with the reason
    "Insufficient funds". *)
Theorem process_transaction_captures (db : Session.t) (now transaction_id : Z)
    (risk_score : Q) (transaction : Transaction.t) :
  services_transaction.get db transaction_id = Some transaction ->
  exists processed db',
    services_transaction.process_transaction db now transaction_id risk_score
    = (Ok processed, db')
    /\ (Transaction.status processed = COMPLETED
        \/ Transaction.status processed = FAILED)
    /\ (Transaction.status processed = FAILED ->
        Session.accounts db' = Session.accounts db
        /\ exists reason, Transaction.failure_reason processed = Some reason)
    /\ (forall account,
          AccountService.get db (Transaction.account_id transaction) = Some account ->
          (match Transaction.type transaction with
           | WITHDRAWAL | TRANSFER | PAYMENT => True
           | _ => False
           end) ->
          (Account.balance account < Transaction.amount transaction)%Q ->
          Transaction.status processed = FAILED
          /\ Transaction.failure_reason processed = Some "Insufficient funds"%string).
Proof.
  intros Ht. unfold services_transaction.process_transaction. rewrite Ht.
  set (operation := match Transaction.type transaction with
                    | WITHDRAWAL | TRANSFER | PAYMENT => "debit"%string
                    | _ => "credit"%string
                    end).
  unfold AccountService.update_balance.
  destruct (AccountService.get db (Transaction.account_id transaction))
    as [account |] eqn:Ha.
  - destruct (String.eqb operation "credit") eqn:Ec.
    + eexists. eexists. split; [reflexivity |]. split; [left; reflexivity |].
      split; [discriminate |].
      intros a [= <-] Hdebit _. exfalso. subst operation.
      destruct (Transaction.type transaction); try contradiction; discriminate.
    + destruct (String.eqb operation "debit") eqn:Ed.
      * destruct (Qltb (Account.balance account) (Transaction.amount transaction))
          eqn:Ef.
        -- eexists. eexists. split; [reflexivity |]. split; [right; reflexivity |].
           split; [intros _; split; [reflexivity | eexists; reflexivity] |].
           intros a [= <-] _ _. split; reflexivity.
        -- eexists. eexists. split; [reflexivity |]. split; [left; reflexivity |].
           split; [discriminate |].
           intros a [= <-] _ Hlt. apply Qltb_ge in Ef. lra.
      * exfalso. subst operation.
        destruct (Transaction.type transaction); discriminate.
  - eexists. eexists. split; [reflexivity |]. split; [right; reflexivity |].
    split; [intros _; split; [reflexivity | eexists; reflexivity] |].
    intros a H. discriminate.
Qed.

Lemma process_transaction_captures_witness :
  exists processed db',
    services_transaction.process_transaction Sample2.db Sample.now 1 0
    = (Ok processed, db')
    /\ (Transaction.status processed = COMPLETED
        \/ Transaction.status processed = FAILED)
    /\ (Transaction.status processed = FAILED ->
        Session.accounts db' = Session.accounts Sample2.db
        /\ exists reason, Transaction.failure_reason processed = Some reason)
    /\ (forall account,
          AccountService.get Sample2.db (Transaction.account_id Sample2.failed_transfer)
          = Some account ->
          (match Transaction.type Sample2.failed_transfer with
           | WITHDRAWAL | TRANSFER | PAYMENT => True
           | _ => False
           end) ->
          (Account.balance account < Transaction.amount Sample2.failed_transfer)%Q ->
          Transaction.status processed = FAILED
          /\ Transaction.failure_reason processed = Some "Insufficient funds"%string).
Proof.
  apply (process_transaction_captures Sample2.db Sample.now 1 0 Sample2.failed_transfer).
  reflexivity.
Defined.

Lemma get_after_transaction_commit (db : Session.t) (transaction : Transaction.t)
    (account_id : Z) :
  AccountService.get (services_transaction.commit transaction db) account_id
  = AccountService.get db account_id.
Proof. reflexivity. Qed.

Lemma transaction_get_In (db : Session.t) (transaction_id : Z)
    (transaction : Transaction.t) :
  services_transaction.get db transaction_id = Some transaction ->
  In transaction (Session.transactions db)
  /\ Transaction.id transaction = transaction_id.
Proof.
  unfold services_transaction.get. intros H. apply find_some in H as [Hin Hid].
  split; [exact Hin | lia].
Qed.

(** X20.  [process_transaction] does not look at the status it finds:
    applied a second time to a payment it has already completed, it
    completes it again and debits the account again, so that the balance
    is down by twice the amount. *)
Theorem process_twice_debits_twice (db : Session.t) (now transaction_id : Z)
    (risk_score : Q) (transaction : Transaction.t) (account : Account.t) :
  services_transaction.get db transaction_id = Some transaction ->
  Transaction.type transaction = PAYMENT ->
  AccountService.get db (Transaction.account_id transaction) = Some account ->
  (0 <= Transaction.amount transaction)%Q ->
  (2 * Transaction.amount transaction <= Account.balance account)%Q ->
  exists first db1 second db2 charged,
    services_transaction.process_transaction db now transaction_id risk_score
    = (Ok first, db1)
    /\ Transaction.status first = COMPLETED
    /\ services_transaction.process_transaction db1 now transaction_id risk_score
       = (Ok second, db2)
    /\ Transaction.status second = COMPLETED
    /\ AccountService.get db2 (Transaction.account_id transaction) = Some charged
    /\ (Account.balance charged
        == Account.balance account - 2 * Transaction.amount transaction)%Q.
Proof.
  intros Ht Htype Ha Hpos Hfunds.
  destruct (transaction_get_In _ _ _ Ht) as [Hin Hid]. subst transaction_id.
  pose proof (get_id _ _ _ Ha) as Haid. rewrite <- Haid in Ha.
  unfold services_transaction.process_transaction at 1.
  rewrite Ht, Htype. unfold AccountService.update_balance. rewrite <- Haid, Ha.
  simpl String.eqb. cbv iota.
  assert (Qltb (Account.balance account) (Transaction.amount transaction) = false)
    as -> by (apply Qltb_ge; lra).
  set (debited := Account.set_balance _ account).
  set (first := Transaction.set_risk_score _ _).
  set (db1 := services_transaction.commit first (AccountService.commit debited db)).
  assert (Ht1 : services_transaction.get db1 (Transaction.id transaction) = Some first).
  { destruct (transaction_get_commit (AccountService.commit debited db) transaction first
                Hin eq_refl) as (stored & Hs & ->).
    exact Hs. }
  assert (Ha1 : AccountService.get db1 (Account.id account) = Some debited).
  { subst db1. rewrite get_after_transaction_commit.
    apply (get_commit db account debited). exact Ha. }
  exists first, db1.
  unfold services_transaction.process_transaction.
  rewrite Ht1. cbn [Transaction.type Transaction.account_id Transaction.amount first
                    Transaction.set_risk_score Transaction.set_processed_at
                    Transaction.set_status].
  rewrite Htype. unfold AccountService.update_balance. rewrite <- ?Haid, Ha1.
  simpl String.eqb. cbv iota.
  assert (Qltb (Account.balance debited) (Transaction.amount transaction) = false)
    as -> by (apply Qltb_ge; subst debited; simpl; lra).
  eexists. eexists. eexists.
  split; [reflexivity |]. split; [reflexivity |]. split; [reflexivity |].
  split; [reflexivity |]. split.
  - rewrite get_after_transaction_commit.
    apply (get_commit db1 debited (Account.set_balance _ debited)). exact Ha1.
  - subst debited. simpl. ring.
Qed.

Lemma process_twice_debits_twice_witness :
  exists first db1 second db2 charged,
    services_transaction.process_transaction Sample2.db Sample.now 2 0 = (Ok first, db1)
    /\ Transaction.status first = COMPLETED
    /\ services_transaction.process_transaction db1 Sample.now 2 0 = (Ok second, db2)
    /\ Transaction.status second = COMPLETED
    /\ AccountService.get db2 (Transaction.account_id Sample2.pending_payment)
       = Some charged
    /\ (Account.balance charged
        == Account.balance Sample.checking
           - 2 * Transaction.amount Sample2.pending_payment)%Q.
Proof.
  apply (process_twice_debits_twice Sample2.db Sample.now 2 0 Sample2.pending_payment
           Sample.checking);
    [reflexivity | reflexivity | reflexivity | discriminate | discriminate].
Defined.

(** X21.  Recording a transaction: [create_transaction] of
    services/transaction.py stores a Pending row with risk score 0 and
    settles nothing; with a fresh reference the row is found again by its
    reference, and every other reference resolves as it did before. *)
Theorem record_then_lookup (db : Session.t) (now new_id : Z) (reference_id : string)
    (user_id account_id : Z) (amount : Q) (transaction_type : TransactionType)
    (device_info : option DeviceInfo.t) :
  transaction_records.get_by_reference db reference_id = None ->
  let '(created, db') :=
    transaction_records.create_transaction db now new_id reference_id user_id
      account_id amount transaction_type device_info in
  transaction_records.get_by_reference db' reference_id = Some created
  /\ Transaction.status created = PENDING
  /\ (Transaction.risk_score created == 0)%Q
  /\ Session.accounts db' = Session.accounts db
  /\ (forall other, other <> reference_id ->
        transaction_records.get_by_reference db' other
        = transaction_records.get_by_reference db other).
Proof.
  unfold transaction_records.create_transaction, transaction_records.get_by_reference.
  simpl. intros Hfresh. split; [| split; [| split; [| split]]]; try reflexivity.
  - rewrite (find_snoc _ _ _ Hfresh). simpl. rewrite String.eqb_refl. reflexivity.
  - intros other Hne. clear Hfresh.
    induction (Session.transactions db) as [| r rs IH]; simpl.
    + assert (String.eqb reference_id other = false) as ->
          by (apply String.eqb_neq; congruence).
      reflexivity.
    + destruct (String.eqb (Transaction.reference_id r) other); [reflexivity | exact IH].
Qed.

Lemma record_then_lookup_witness :
  let '(created, db') :=
    transaction_records.create_transaction Sample2.db Sample.now 3 "ref-3" 7 1 75
      PAYMENT None in
  transaction_records.get_by_reference db' "ref-3" = Some created
  /\ Transaction.status created = PENDING
  /\ (Transaction.risk_score created == 0)%Q
  /\ Session.accounts db' = Session.accounts Sample2.db
  /\ (forall other, other <> "ref-3"%string ->
        transaction_records.get_by_reference db' other
        = transaction_records.get_by_reference Sample2.db other).
Proof.
  apply (record_then_lookup Sample2.db Sample.now 3 "ref-3" 7 1 75 PAYMENT None).
  reflexivity.
Defined.

(** ** Statistics *)

Section StatisticsFacts.
Import transaction_records.

Lemma counted_type_step (d : TransactionType -> option nat) (t : Transaction.t) :
  counted (fun k => if bool_decide (k = Transaction.type t)
                    then Some (default 0%nat (d (Transaction.type t)) + 1)%nat
                    else d k) all_types
  = (counted d all_types + 1)%nat.
Proof.
  unfold counted, all_types. destruct (Transaction.type t); simpl; lia.
Qed.

Lemma counted_status_step (d : TransactionStatus -> option nat) (t : Transaction.t) :
  counted (fun k => if bool_decide (k = Transaction.status t)
                    then Some (default 0%nat (d (Transaction.status t)) + 1)%nat
                    else d k) all_statuses
  = (counted d all_statuses + 1)%nat.
Proof.
  unfold counted, all_statuses. destruct (Transaction.status t); simpl; lia.
Qed.

Lemma counted_type_frequency (l : list Transaction.t) :
  counted (type_frequency l) all_types = length l.
Proof.
  unfold type_frequency.
  assert (H : forall d,
             counted (fold_left
                        (fun (d : TransactionType -> option nat) t =>
                           fun k => if bool_decide (k = Transaction.type t)
                                    then Some (default 0%nat (d (Transaction.type t)) + 1)%nat
                                    else d k) l d) all_types
             = (counted d all_types + length l)%nat).
  { induction l as [| t l IH]; intros d; cbn [fold_left length]; [lia |].
    rewrite IH. cbv beta. rewrite counted_type_step. lia. }
  rewrite H. reflexivity.
Qed.

Lemma counted_status_frequency (l : list Transaction.t) :
  counted (status_frequency l) all_statuses = length l.
Proof.
  unfold status_frequency.
  assert (H : forall d,
             counted (fold_left
                        (fun (d : TransactionStatus -> option nat) t =>
                           fun k => if bool_decide (k = Transaction.status t)
                                    then Some (default 0%nat (d (Transaction.status t)) + 1)%nat
                                    else d k) l d) all_statuses
             = (counted d all_statuses + length l)%nat).
  { induction l as [| t l IH]; intros d; cbn [fold_left length]; [lia |].
    rewrite IH. cbv beta. rewrite counted_status_step. lia. }
  rewrite H. reflexivity.
Qed.

(** X22.  The statistics of an account are consistent and capped: at most
    1000 transactions are counted; the per-type counts add up to the total
    and so do the per-status counts; the high-risk count does not exceed
    the total; and the average, a [Decimal] quotient of 28 significant
    digits, times the total differs from the sum of the amounts counted by
    at most 5 parts in 10^28 of that sum (the average is 0 when no row is
    counted). *)
Theorem statistics_consistent (db : Session.t) (account_id start_date end_date : Z) :
  let stats := get_transaction_statistics db account_id start_date end_date in
  let rows :=
    get_account_transactions db account_id 0 1000 (Some start_date) (Some end_date)
                             None in
  total_transactions stats = length rows
  /\ (total_transactions stats <= 1000)%nat
  /\ counted (transaction_types stats) all_types = total_transactions stats
  /\ counted (status_distribution stats) all_statuses = total_transactions stats
  /\ (high_risk_transactions stats <= total_transactions stats)%nat
  /\ (Qabs (average_transaction_size stats * of_nat (total_transactions stats)
            - sumQ (map Transaction.amount rows))
      <= Qabs (sumQ (map Transaction.amount rows)) * (10 ^ (-27) / 2))%Q
  /\ (rows = [] -> average_transaction_size stats = 0%Q).
Proof.
  unfold get_transaction_statistics. cbv zeta.
  cbn [total_transactions transaction_types status_distribution
       high_risk_transactions average_transaction_size].
  set (rows := get_account_transactions db account_id 0 1000 (Some start_date)
                                        (Some end_date) None).
  split; [reflexivity |]. split; [| split; [| split; [| split; [| split]]]].
  - subst rows. unfold get_account_transactions. rewrite length_take. lia.
  - apply counted_type_frequency.
  - apply counted_status_frequency.
  - apply filter_length_le.
  - destruct rows as [| t rows']; [discriminate |].
    set (total := sumQ (map Transaction.amount (t :: rows'))).
    set (n := of_nat (length (t :: rows'))).
    assert (Hn : (0 < n)%Q).
    { subst n. unfold of_nat, Qlt. simpl. lia. }
    pose proof (Decimal_div_error total n) as Herr.
    assert (E1 : (Decimal_div total n * n - total
                  == (Decimal_div total n - total / n) * n)%Q) by (field; lra).
    assert (E2 : (Qabs total == Qabs (total / n) * n)%Q).
    { rewrite <- (Qabs_pos n) at 2 by lra. rewrite <- Qabs_Qmult.
      apply Qabs_wd. field. lra. }
    rewrite E1, Qabs_Qmult, (Qabs_pos n), E2 by lra.
    assert (E3 : (Qabs (total / n) * n * (10 ^ (-27) / 2)
                  == Qabs (total / n) * (10 ^ (-27) / 2) * n)%Q) by ring.
    rewrite E3. apply Qmult_le_compat_r; [exact Herr | lra].
  - intros ->. reflexivity.
Qed.

End StatisticsFacts.

(** ** The risk scorer: ceilings, new owners, the pattern factor *)

(** X23.  A returned score is small: [analyze_transaction] returns only
    for an owner with at most one transaction in the last 30 days, and the
    score it returns lies between 0 and 0.5.  No returned score exceeds the
    endpoint's threshold of 0.8, and the final clamp at 1 never acts. *)
Theorem analyze_transaction_ceiling (db : Session.t) (now user_id : Z) (amount : Q)
    (transaction_type : TransactionType) (device_info : DeviceInfo.t) (score : float) :
  FraudDetectionService.analyze_transaction db now user_id amount transaction_type
    device_info = Ok score ->
  (length (history_30_days db now user_id) <= 1)%nat
  /\ (0 <=? score)%float = true
  /\ (score <=? 0.5)%float = true
  /\ (0.8 <? score)%float = false.
Proof.
  intros Hscore.
  destruct (analyze_transaction_returns _ _ _ _ _ _ _ Hscore)
    as (Hlen & a & f & d & p & Haf & Hd & Hp & ->).
  split; [exact Hlen |].
  simpl in Haf, Hd, Hp.
  destruct Haf as [Haf | [Haf | [Haf | []]]]; injection Haf as <- <-;
    destruct Hd as [<- | [<- | [<- | [<- | []]]]];
    destruct Hp as [<- | [<- | [<- | [<- | []]]]];
    vm_compute; repeat split.
Qed.

Lemma analyze_transaction_ceiling_witness :
  (length (history_30_days Sample.new_owner Sample.now 7) <= 1)%nat
  /\ (0 <=? 0.39999999999999997)%float = true
  /\ (0.39999999999999997 <=? 0.5)%float = true
  /\ (0.8 <? 0.39999999999999997)%float = false.
Proof.
  apply (analyze_transaction_ceiling Sample.new_owner Sample.now 7 500 WITHDRAWAL
           Sample.device_info).
  vm_compute. reflexivity.
Defined.

(** X24.  An owner with no transaction in the last 30 days always gets a
    score, whatever the amount, type and device, and it lies between 0.2
    and 0.45: the amount factor 0.5 and the low-type-frequency bonus are
    always counted, and the score stays below the threshold of 0.8. *)
Theorem new_owner_score_range (db : Session.t) (now user_id : Z) (amount : Q)
    (transaction_type : TransactionType) (device_info : DeviceInfo.t) :
  history_30_days db now user_id = [] ->
  exists score,
    FraudDetectionService.analyze_transaction db now user_id amount transaction_type
      device_info = Ok score
    /\ (0.2 <=? score)%float = true
    /\ (score <=? 0.45)%float = true
    /\ (0.8 <? score)%float = false.
Proof.
  intros Hhist. unfold FraudDetectionService.analyze_transaction.
  fold (history_30_days db now user_id). rewrite Hhist.
  rewrite (_analyze_frequency_new_owner db now user_id Hhist).
  simpl bind. eexists. split; [reflexivity |].
  pose proof (_analyze_device_values db now user_id device_info) as Hd.
  pose proof (_analyze_patterns_empty now user_id amount transaction_type) as Hp.
  simpl in Hd, Hp.
  destruct Hd as [<- | [<- | [<- | [<- | []]]]];
    destruct Hp as [<- | [<- | []]];
    vm_compute; repeat split.
Qed.

Lemma new_owner_score_range_witness :
  exists score,
    FraudDetectionService.analyze_transaction Sample.new_owner Sample.now 7 5000
      WITHDRAWAL Sample.device_info = Ok score
    /\ (0.2 <=? score)%float = true
    /\ (score <=? 0.45)%float = true
    /\ (0.8 <? score)%float = false.
Proof.
  apply (new_owner_score_range Sample.new_owner Sample.now 7 5000 WITHDRAWAL
           Sample.device_info).
  reflexivity.
Defined.






(** ** The risk profile *)




(** ** The amount and frequency factors *)

(** X27.  The amount factor returns on two kinds of history only: 0.5 on
    the empty one, and 0 on a single row whose amount the candidate does
    not exceed.  A candidate above the single recorded amount raises
    (division by zero when that amount is 0, [TypeError] from
    [Decimal * float] otherwise), and every history of two or more rows
    raises [TypeError] from [Decimal ** float]: the graded factors are
    never returned. *)
Theorem _analyze_amount_outcomes (amount : Q) (history : list Transaction.t) :
  (history = [] -> FraudDetectionService._analyze_amount amount history = Ok 0.5%float)
  /\ (forall t, history = [t] -> (amount <= Transaction.amount t)%Q ->
                FraudDetectionService._analyze_amount amount history = Ok 0%float)
  /\ (forall t, history = [t] -> (Transaction.amount t < amount)%Q ->
                (Transaction.amount t == 0)%Q ->
                FraudDetectionService._analyze_amount amount history
                = Raise DivisionByZero)
  /\ (forall t, history = [t] -> (Transaction.amount t < amount)%Q ->
                ~ (Transaction.amount t == 0)%Q ->
                FraudDetectionService._analyze_amount amount history = Raise TypeError)
  /\ ((2 <= length history)%nat ->
      FraudDetectionService._analyze_amount amount history = Raise TypeError)
  /\ (forall factor,
        FraudDetectionService._analyze_amount amount history = Ok factor ->
        (length history <= 1)%nat /\ (factor = 0.5%float \/ factor = 0%float)).
Proof.
  split; [intros ->; reflexivity |].
  split.
  { intros t -> Hle. rewrite _analyze_amount_single.
    apply Qltb_ge in Hle. unfold Qgtb. rewrite Hle. reflexivity. }
  split.
  { intros t -> Hlt Hz. rewrite _analyze_amount_single.
    apply Qltb_lt in Hlt. unfold Qgtb. rewrite Hlt.
    apply Qeq_bool_iff in Hz. rewrite Hz. reflexivity. }
  split.
  { intros t -> Hlt Hz. rewrite _analyze_amount_single.
    apply Qltb_lt in Hlt. unfold Qgtb. rewrite Hlt.
    destruct (Qeq_bool (Transaction.amount t) 0) eqn:E; [| reflexivity].
    apply Qeq_bool_iff in E. contradiction. }
  split.
  { destruct history as [| t1 [| t2 rest]]; intros Hlen;
      [simpl in Hlen; lia | simpl in Hlen; lia | apply _analyze_amount_many]. }
  intros factor. destruct history as [| t1 [| t2 rest]].
  - intros E. injection E as <-. split; [simpl; lia | left; reflexivity].
  - rewrite _analyze_amount_single.
    destruct (Qgtb amount (Transaction.amount t1)).
    + destruct (Qeq_bool (Transaction.amount t1) 0); discriminate.
    + intros E. injection E as <-. split; [simpl; lia | right; reflexivity].
  - rewrite _analyze_amount_many. discriminate.
Qed.


(** ** The rate limiter: a burst *)

Section RateLimiterBurst.
Import RateLimiter Governor Governor2.

Lemma _get_limit_window_pos (path : string) : (0 < inject_Z (snd (_get_limit path)))%Q.
Proof.
  unfold _get_limit.
  destruct (String.prefix "/api/v1/auth" path); [reflexivity |].
  destruct (String.prefix "/api/v1/transactions" path); [reflexivity |].
  destruct (contains path "high-value"); reflexivity.
Qed.

Lemma filter_repeat_within (now window : Q) (n : nat) :
  (0 < window)%Q ->
  List.filter (within now window) (repeat now n) = repeat now n.
Proof.
  intros Hw. induction n as [| n IH]; simpl; [reflexivity |].
  assert (within now window now = true) as ->.
  { unfold within. apply Qltb_lt. lra. }
  rewrite IH. reflexivity.
Qed.

Lemma burst_recorded (ENVIRONMENT : string) (client_ip path : string) (now : Q)
    (max_requests : nat) (window : Z) (k : nat) :
  ENVIRONMENT <> "development"%string ->
  _get_limit path = (max_requests, window) ->
  forall (self : t) (j : nat),
    requests_of self client_ip = repeat now j ->
    blocked_ips self !! client_ip = None ->
    (j + k <= max_requests)%nat ->
    requests_of (run ENVIRONMENT self (repeat (Request client_ip path now) k)) client_ip
    = repeat now (j + k)
    /\ blocked_ips (run ENVIRONMENT self (repeat (Request client_ip path now) k))
       !! client_ip = None.
Proof.
  intros Henv Hlim.
  pose proof (_get_limit_window_pos path) as Hw. rewrite Hlim in Hw. simpl in Hw.
  induction k as [| k IH]; intros self j Hreq Hnone Hle.
  - rewrite Nat.add_0_r. split; assumption.
  - simpl repeat. unfold run. simpl fold_left. fold (run ENVIRONMENT).
    assert (Hcool : ~ in_cooldown self client_ip now).
    { intros (b & Hb & _). rewrite Hnone in Hb. discriminate. }
    destruct (check_outside_cooldown _ _ _ _ _ _ _ Henv Hcool Hlim)
      as (blocked' & Hnone' & Hcheck).
    assert (Hin : in_window self client_ip window now = repeat now j).
    { unfold in_window. rewrite Hreq. apply filter_repeat_within. exact Hw. }
    rewrite Hin in Hcheck. cbv zeta in Hcheck. rewrite repeat_length in Hcheck.
    assert ((max_requests <=? j)%nat = false) as E by (apply Nat.leb_gt; lia).
    rewrite E in Hcheck.
    replace (j + S k)%nat with (S j + k)%nat by lia.
    unfold run in IH |- *. rewrite Hcheck. simpl snd. apply IH.
    + unfold requests_of. simpl. rewrite lookup_insert_eq. simpl.
      rewrite <- repeat_cons. reflexivity.
    + exact Hnone'.
    + lia.
Qed.

(** X29.  A burst is admitted up to the limit and no further: a client
    with nothing recorded and no block entry that sends [k] requests to one
    route at one instant has, for [k] up to the route's limit, all of them
    recorded and is not blocked; the next request at that instant is
    admitted while [k] is below the limit and answered RateLimited, with the
    whole window to wait, once [k] has reached it. *)
Theorem burst_admitted_to_the_limit (ENVIRONMENT : string) (self : t)
    (client_ip path : string) (now : Q) (max_requests : nat) (window : Z) (k : nat) :
  ENVIRONMENT <> "development"%string ->
  _get_limit path = (max_requests, window) ->
  requests_of self client_ip = [] ->
  blocked_ips self !! client_ip = None ->
  (k <= max_requests)%nat ->
  let self' := run ENVIRONMENT self (repeat (Request client_ip path now) k) in
  requests_of self' client_ip = repeat now k
  /\ blocked_ips self' !! client_ip = None
  /\ ((k < max_requests)%nat ->
      fst (check_rate_limit ENVIRONMENT self' client_ip path now) = Ok tt)
  /\ (k = max_requests ->
      fst (check_rate_limit ENVIRONMENT self' client_ip path now)
      = Raise (RateLimited (inject_Z window - (now - now)))).
Proof.
  intros Henv Hlim Hreq Hnone Hk self'.
  destruct (burst_recorded ENVIRONMENT client_ip path now max_requests window k
              Henv Hlim self 0%nat Hreq Hnone) as [Hr Hb]; [simpl; lia |].
  fold self' in Hr, Hb. simpl in Hr.
  pose proof (_get_limit_window_pos path) as Hw. rewrite Hlim in Hw. simpl in Hw.
  pose proof (_get_limit_min path) as Hmin. rewrite Hlim in Hmin. simpl in Hmin.
  assert (Hcool : ~ in_cooldown self' client_ip now).
  { intros (b & Hb' & _). rewrite Hb in Hb'. discriminate. }
  destruct (check_outside_cooldown _ _ _ _ _ _ _ Henv Hcool Hlim)
    as (blocked' & _ & Hcheck).
  assert (Hin : in_window self' client_ip window now = repeat now k).
  { unfold in_window. rewrite Hr. apply filter_repeat_within. exact Hw. }
  rewrite Hin in Hcheck. cbv zeta in Hcheck. rewrite repeat_length in Hcheck.
  split; [exact Hr |]. split; [exact Hb |]. split.
  - intros Hlt. rewrite Hcheck.
    assert ((max_requests <=? k)%nat = false) as -> by (apply Nat.leb_gt; lia).
    reflexivity.
  - intros ->. rewrite Hcheck. rewrite Nat.leb_refl.
    assert ((max_requests * 2 <=? max_requests)%nat = false) as ->
        by (apply Nat.leb_gt; lia).
    destruct max_requests; [lia | reflexivity].
Qed.

Lemma burst_admitted_to_the_limit_witness :
  let self' :=
    run "production" __init__
        (repeat (Request "198.51.100.4" "/api/v1/transactions/" 10) 20) in
  requests_of self' "198.51.100.4" = repeat 10%Q 20
  /\ blocked_ips self' !! "198.51.100.4" = None
  /\ ((20 < 20)%nat ->
      fst (check_rate_limit "production" self' "198.51.100.4" "/api/v1/transactions/" 10)
      = Ok tt)
  /\ (20%nat = 20%nat ->
      fst (check_rate_limit "production" self' "198.51.100.4" "/api/v1/transactions/" 10)
      = Raise (RateLimited (inject_Z 60 - (10 - 10)))).
Proof.
  apply (burst_admitted_to_the_limit "production" __init__ "198.51.100.4"
           "/api/v1/transactions/" 10 20 60 20);
    [discriminate | reflexivity | reflexivity | reflexivity | lia].
Defined.

End RateLimiterBurst.
